(** * Voice personalisation pipeline: feature extraction, emotion rules,
      synthesis parameters and profile persistence

    Shallow embedding of [feature_extractor.py] and
    [personalization_engine.py].  Python numbers are modelled through the
    interface [PyNum], with two instances:

    - [float] (IEEE-754 binary64, the kernel's primitive floats): what the
      interpreter computes;
    - [Q] (exact rationals): the real-number reading of the same formulas.

    Every function of the source is written once, over the interface. *)

From Stdlib Require Import ZArith QArith Qround Lqa Lia Bool List Sorted.
From Stdlib Require Import Floats Uint63.
From stdpp Require Import gmap strings.
Import ListNotations.

Local Close Scope float_scope.
Local Close Scope Q_scope.
Local Open Scope Z_scope.

(** ** Python numbers *)

Class PyNum (R : Type) : Type := {
  of_Z : Z -> R;                 (* an int literal, or float(int) *)
  nadd : R -> R -> R;
  nsub : R -> R -> R;
  nmul : R -> R -> R;
  ndiv : R -> R -> R;            (* true division, divisor not zero *)
  nltb : R -> R -> bool;         (* x < y *)
  nleb : R -> R -> bool;         (* x <= y *)
  neqb : R -> R -> bool;         (* x == y *)
  round2 : R -> R                (* round(x, 2) *)
}.

Declare Scope py_scope.
Delimit Scope py_scope with py.
Infix "+" := nadd : py_scope.
Infix "-" := nsub : py_scope.
Infix "*" := nmul : py_scope.
Infix "/" := ndiv : py_scope.
Infix "<?" := nltb : py_scope.
Infix "<=?" := nleb : py_scope.
Infix "=?" := neqb : py_scope.
Notation "x >? y" := (nltb y x) (only parsing) : py_scope.

(** A decimal literal [n / d], e.g. [2.5 = 5/2]: for integers below [2^53]
    the correctly rounded quotient is the float the literal denotes. *)
Definition lit {R} `{PyNum R} (n : Z) (d : positive) : R :=
  (of_Z n / of_Z (Z.pos d))%py.

(** Truthiness of a number, and [x or d]. *)
Definition truthy {R} `{PyNum R} (x : R) : bool := negb (x =? of_Z 0)%py.

Definition num_or {R} `{PyNum R} (x d : R) : R := if truthy x then x else d.

(** *** Exact rationals *)

(** Round half to even, the rule of Python's [round]. *)
Definition round_half_even (q : Q) : Z :=
  let f := Qfloor q in
  match Qcompare (q - inject_Z f) (1 # 2) with
  | Lt => f
  | Gt => f + 1
  | Eq => if Z.even f then f else f + 1
  end.

Definition Qround2 (q : Q) : Q := inject_Z (round_half_even (q * 100)) / 100.

Definition Qltb (x y : Q) : bool :=
  match Qcompare x y with Lt => true | _ => false end.

#[export] Instance Q_num : PyNum Q := {
  of_Z := inject_Z;
  nadd := Qplus; nsub := Qminus; nmul := Qmult; ndiv := Qdiv;
  nltb := Qltb; nleb := Qle_bool; neqb := Qeq_bool;
  round2 := Qround2
}.

(** *** binary64 *)

(** [float(z)] for [|z| < 2^63]. *)
Definition float_of_Z (z : Z) : float :=
  if z <? 0 then PrimFloat.opp (PrimFloat.of_uint63 (Uint63.of_Z (- z)))
  else PrimFloat.of_uint63 (Uint63.of_Z z).

(** The exact value of a finite float. *)
Definition float_to_Q (x : float) : Q :=
  match Prim2SF x with
  | S754_finite s m e =>
      let v := if s then Z.neg m else Z.pos m in
      if 0 <=? e then inject_Z (v * 2 ^ e)
      else Qmake v (Z.to_pos (2 ^ (- e)))
  | _ => 0%Q
  end.

(** [round(x, 2)]: the exact value is rounded half-even to hundredths and
    the nearest float to that decimal is returned; NaN and infinities are
    returned unchanged. *)
Definition float_round2 (x : float) : float :=
  if PrimFloat.is_finite x
  then PrimFloat.div (float_of_Z (round_half_even (float_to_Q x * 100)))
                     (float_of_Z 100)
  else x.

#[export] Instance float_num : PyNum float := {
  of_Z := float_of_Z;
  nadd := PrimFloat.add; nsub := PrimFloat.sub;
  nmul := PrimFloat.mul; ndiv := PrimFloat.div;
  nltb := PrimFloat.ltb; nleb := PrimFloat.leb; neqb := PrimFloat.eqb;
  round2 := float_round2
}.

(** ** Exceptions *)

Inductive result (A : Type) : Type :=
| Ok (a : A)
| Raised (exn : string).
Arguments Ok {A} a.
Arguments Raised {A} exn.

Definition bind {A B} (r : result A) (k : A -> result B) : result B :=
  match r with
  | Ok a => k a
  | Raised e => Raised e
  end.

Notation "'let!' x ':=' r 'in' k" := (bind r (fun x => k))
  (at level 10, x pattern, r at level 100, k at level 200).

(** ** NumPy and librosa routines used by the feature extractor *)

Section Numeric.
Context {R : Type} `{PyNum R}.

(** [sum(l)]: left to right, starting from the int [0]. *)
Definition py_sum (l : list R) : R := fold_left nadd l (of_Z 0).

(** [np.mean] of a one-dimensional array. *)
Definition np_mean (l : list R) : R :=
  (py_sum l / of_Z (Z.of_nat (length l)))%py.

(** [np.clip(x, lo, hi) = minimum(maximum(x, lo), hi)]. *)
Definition np_maximum (a b : R) : R := if (a <? b)%py then b else a.
Definition np_minimum (a b : R) : R := if (b <? a)%py then b else a.
Definition np_clip (x lo hi : R) : R := np_minimum (np_maximum x lo) hi.

Fixpoint insert_sorted (x : R) (l : list R) : list R :=
  match l with
  | [] => [x]
  | y :: l' => if (x <=? y)%py then x :: l else y :: insert_sorted x l'
  end.

Definition np_sort (l : list R) : list R := fold_right insert_sorted [] l.

(** NumPy's interpolation between two neighbours, weight [g/100]. *)
Definition np_lerp (a b : R) (g : Z) : R :=
  let t := lit g 100 in
  if g <? 50 then (a + (b - a) * t)%py
  else (b - (b - a) * (of_Z 1 - t))%py.

(** [np.percentile(a, q)], default (linear) method, [0 <= q <= 100]:
    the virtual index [(n-1) * q/100] is split into its floor and its
    fractional part, and the two neighbours in sorted order are
    interpolated.  An empty array is rejected with [IndexError]. *)
Definition np_percentile (a : list R) (q : Z) : result R :=
  match a with
  | [] => Raised "IndexError"
  | x :: _ =>
      let sorted := np_sort a in
      let n := length a in
      let v := (Z.of_nat n - 1) * q in
      let lo := Z.to_nat (v / 100) in
      let hi := Nat.min (S lo) (n - 1) in
      Ok (np_lerp (nth lo sorted x) (nth hi sorted x) (v mod 100))
  end.

(** [a[mask]]: boolean-mask indexing. *)
Definition mask_select (a : list R) (mask : list bool) : list R :=
  map fst (List.filter snd (combine a mask)).

(** [librosa.frames_to_time(frames, sr, hop_length)]:
    [(frame * hop_length) / float(sr)]. *)
Definition frames_to_time (sr hop_length : Z) (frame : nat) : R :=
  (of_Z (Z.of_nat frame * hop_length) / of_Z sr)%py.
End Numeric.

(** ** feature_extractor.py *)

Record SpeakingPatterns (R : Type) : Type := {
  sp_speaking_rate_wpm : R;
  sp_average_pause_duration : R;
  sp_energy_levels : list R;
  sp_pitch_contour : list R;
  sp_mean_pitch : R;
  sp_pitch_range : R * R
}.
Arguments sp_speaking_rate_wpm {R}.
Arguments sp_average_pause_duration {R}.
Arguments sp_energy_levels {R}.
Arguments sp_pitch_contour {R}.
Arguments sp_mean_pitch {R}.
Arguments sp_pitch_range {R}.

(** The signal-processing collaborators: decoding and cleaning of the
    audio file, the per-frame log-energy (librosa's mel spectrogram in dB,
    averaged over frequencies) and the pitch tracker with its
    voiced/unvoiced mask, and NumPy's NaN-ignoring statistics. *)
Record Collaborators (R : Type) : Type := {
  preprocess : string -> result (list R * Z);
  frame_log_energy : Z -> list R -> result (list R);
  pyin : list R -> result (list R * list bool);
  np_nanmean : list R -> R;
  np_nanstd : list R -> R;
  np_nanmin : list R -> R;
  np_nanmax : list R -> R
}.
Arguments preprocess {R}.
Arguments frame_log_energy {R}.
Arguments pyin {R}.
Arguments np_nanmean {R}.
Arguments np_nanstd {R}.
Arguments np_nanmin {R}.
Arguments np_nanmax {R}.

Module FeatureExtractor.
Section WithNum.
Context {R : Type} `{PyNum R}.
Variable lib : Collaborators R.
Variable sr : Z.                      (* self.sr *)

Definition extract_energy (audio : list R) : result (list R) :=
  frame_log_energy lib sr audio.

Definition extract_pitch (audio : list R)
  : result (option (list R * (R * R * R * R))) :=
  let! (f0, voiced_flag) := pyin lib audio in
  let f0_voiced := mask_select f0 voiced_flag in
  if (length f0_voiced =? 0)%nat then Ok None
  else
    let mean_pitch := np_nanmean lib f0_voiced in
    let std_pitch := np_nanstd lib f0_voiced in
    let min_pitch := np_nanmin lib f0_voiced in
    let max_pitch := np_nanmax lib f0_voiced in
    Ok (Some (f0_voiced, (min_pitch, max_pitch, mean_pitch, std_pitch))).

(** The loop of [extract_pauses]: the state is
    [(in_pause, pause_start, pause_durations)], [i] is the frame index. *)
Fixpoint pause_loop (frame_times : nat -> R) (pause_frames : list bool)
    (i : nat) (in_pause : bool) (pause_start : R)
    (pause_durations : list R) : list R :=
  match pause_frames with
  | [] => pause_durations
  | is_paused :: rest =>
      if is_paused && negb in_pause then
        pause_loop frame_times rest (S i) true (frame_times i)
                   pause_durations
      else if negb is_paused && in_pause then
        let pause_end := frame_times i in
        let duration := (pause_end - pause_start)%py in
        pause_loop frame_times rest (S i) false pause_start
                   (pause_durations ++ [duration])
      else
        pause_loop frame_times rest (S i) in_pause pause_start
                   pause_durations
  end.

Definition extract_pauses (audio energy : list R)
    (threshold_percentile : Z) : result (list R) :=
  let! threshold := np_percentile energy threshold_percentile in
  let pause_frames := map (fun e => (e <? threshold)%py) energy in
  let hop_length := 512 in
  let frame_times := frames_to_time sr hop_length in
  Ok (pause_loop frame_times pause_frames 0 false (of_Z 0) []).

Definition total_duration (audio : list R) : R :=
  (of_Z (Z.of_nat (length audio)) / of_Z sr)%py.

Definition total_pause_time (pause_durations : list R) : R :=
  match pause_durations with
  | [] => of_Z 0
  | _ => py_sum pause_durations
  end.

Definition speaking_time (audio pause_durations : list R) : R :=
  (total_duration audio - total_pause_time pause_durations)%py.

Definition calculate_speaking_rate (audio energy pause_durations : list R)
  : result R :=
  if sr =? 0 then Raised "ZeroDivisionError"
  else
    let speaking_time := speaking_time audio pause_durations in
    let estimated_words := (speaking_time * lit 25 10)%py in
    let estimated_wpm :=
      if (speaking_time >? of_Z 0)%py
      then (estimated_words / speaking_time * of_Z 60)%py
      else of_Z 0 in
    Ok estimated_wpm.

Definition extract_all_features (audio : list R)
  : result (option (SpeakingPatterns R)) :=
  let! energy := extract_energy audio in
  let! pitch_data := extract_pitch audio in
  match pitch_data with
  | None => Ok None
  | Some (pitch_values, (min_pitch, max_pitch, mean_pitch, _)) =>
      let! pauses := extract_pauses audio energy 25 in
      let! wpm := calculate_speaking_rate audio energy pauses in
      Ok (Some {|
        sp_speaking_rate_wpm := wpm;
        sp_average_pause_duration :=
          match pauses with [] => of_Z 0 | _ => np_mean pauses end;
        sp_energy_levels := energy;
        sp_pitch_contour := pitch_values;
        sp_mean_pitch := mean_pitch;
        sp_pitch_range := (min_pitch, max_pitch)
      |})
  end.
End WithNum.
End FeatureExtractor.

(** ** personalization_engine.py *)

(** The keys of the [scores] dict, in insertion order. *)
Inductive emotion : Type := happy | sad | angry | calm | neutral.

Definition labels : list emotion := [happy; sad; angry; calm; neutral].

Record Scores (R : Type) : Type := {
  s_happy : R; s_sad : R; s_angry : R; s_calm : R; s_neutral : R
}.
Arguments s_happy {R}.
Arguments s_sad {R}.
Arguments s_angry {R}.
Arguments s_calm {R}.
Arguments s_neutral {R}.

Record Features (R : Type) : Type := {
  f_mean_pitch : R; f_pitch_range : R;
  f_speaking_rate_wpm : R; f_avg_energy : R
}.
Arguments f_mean_pitch {R}.
Arguments f_pitch_range {R}.
Arguments f_speaking_rate_wpm {R}.
Arguments f_avg_energy {R}.

Record EmotionProfile (R : Type) : Type := {
  dominant_emotion : emotion;
  confidence : R;
  scores : Scores R;
  rules_triggered : list string;
  features_used : Features R
}.
Arguments dominant_emotion {R}.
Arguments confidence {R}.
Arguments scores {R}.
Arguments rules_triggered {R}.
Arguments features_used {R}.

(** A Python sequence is a tuple or a list; JSON knows only the list. *)
Inductive seq_kind : Type := PyTuple | PyList.

Record VoiceProfile (R : Type) : Type := {
  user_id : string;
  user_name : string;
  created_date : string;
  last_updated : string;
  speaking_rate_wpm : option R;
  average_pause_duration : option R;
  mean_pitch : option R;
  pitch_range : option (seq_kind * list R);
  emotion_profile : option (EmotionProfile R);    (* [None] is [{}] *)
  energy_levels : option (list R);
  pitch_contour : option (list R)
}.
Arguments user_id {R}.
Arguments user_name {R}.
Arguments created_date {R}.
Arguments last_updated {R}.
Arguments speaking_rate_wpm {R}.
Arguments average_pause_duration {R}.
Arguments mean_pitch {R}.
Arguments pitch_range {R}.
Arguments emotion_profile {R}.
Arguments energy_levels {R}.
Arguments pitch_contour {R}.

(** The dict built by [to_dict], which is what a profile file holds. *)
Record Characteristics (R : Type) : Type := {
  c_speaking_rate_wpm : option R;
  c_average_pause_duration : option R;
  c_mean_pitch : option R;
  c_pitch_range : option (seq_kind * list R)
}.
Arguments c_speaking_rate_wpm {R}.
Arguments c_average_pause_duration {R}.
Arguments c_mean_pitch {R}.
Arguments c_pitch_range {R}.

Record ProfileDict (R : Type) : Type := {
  d_user_id : string;
  d_user_name : string;
  d_created_date : string;
  d_last_updated : string;
  d_speaking_characteristics : Characteristics R;
  d_emotion_profile : option (EmotionProfile R)
}.
Arguments d_user_id {R}.
Arguments d_user_name {R}.
Arguments d_created_date {R}.
Arguments d_last_updated {R}.
Arguments d_speaking_characteristics {R}.
Arguments d_emotion_profile {R}.

(** *** Files

    A text file is modelled by the document it holds.  A JSON text is
    identified with the value [json.load] returns for it, so it has no
    tuples; a YAML text written by [yaml.dump] keeps the Python tags of
    what was dumped, a tuple being tagged [!!python/tuple]. *)
Inductive file (R : Type) : Type :=
| JsonText (d : ProfileDict R)
| YamlText (d : ProfileDict R)
| OtherText.
Arguments JsonText {R} d.
Arguments YamlText {R} d.
Arguments OtherText {R}.

Definition as_list {R} (v : option (seq_kind * list R))
  : option (seq_kind * list R) :=
  match v with
  | Some (_, items) => Some (PyList, items)
  | None => None
  end.

(** [json.dump]: tuples and lists are both written as arrays. *)
Definition json_dump {R} (d : ProfileDict R) : file R :=
  let sc := d_speaking_characteristics d in
  JsonText {|
    d_user_id := d_user_id d;
    d_user_name := d_user_name d;
    d_created_date := d_created_date d;
    d_last_updated := d_last_updated d;
    d_speaking_characteristics := {|
      c_speaking_rate_wpm := c_speaking_rate_wpm sc;
      c_average_pause_duration := c_average_pause_duration sc;
      c_mean_pitch := c_mean_pitch sc;
      c_pitch_range := as_list (c_pitch_range sc) |};
    d_emotion_profile := d_emotion_profile d |}.

Definition json_load {R} (f : file R) : result (ProfileDict R) :=
  match f with
  | JsonText d => Ok d
  | _ => Raised "JSONDecodeError"
  end.

(** [yaml.dump] uses the full dumper. *)
Definition yaml_dump {R} (d : ProfileDict R) : file R := YamlText d.

Definition has_python_tag {R} (d : ProfileDict R) : bool :=
  match c_pitch_range (d_speaking_characteristics d) with
  | Some (PyTuple, _) => true
  | _ => false
  end.

(** [yaml.safe_load] constructs standard YAML tags only. *)
Definition yaml_safe_load {R} (f : file R) : result (ProfileDict R) :=
  match f with
  | YamlText d =>
      if has_python_tag d then Raised "ConstructorError" else Ok d
  | JsonText d => Ok d                    (* JSON is a subset of YAML *)
  | OtherText => Raised "YAMLError"
  end.

(** [s.endswith(suffix)]. *)
Fixpoint ends_with (s suffix : string) : bool :=
  if String.eqb s suffix then true
  else match s with
       | EmptyString => false
       | String _ s' => ends_with s' suffix
       end.

(** [Path(dir) / name], as a string. *)
Definition path_join (dir name : string) : string :=
  (dir +:+ "/" +:+ name)%string.

(** The engine's profile dict, the file system, and how many times the
    clock has been read. *)
Record State (R : Type) : Type := {
  voice_profiles : gmap string (VoiceProfile R);
  files : gmap string (file R);
  clock_reads : nat
}.
Arguments voice_profiles {R}.
Arguments files {R}.
Arguments clock_reads {R}.

Module PersonalizationEngine.
Section WithNum.
Context {R : Type} `{PyNum R}.
Variable lib : Collaborators R.
Variable sr : Z.                       (* self.sr *)
Variable now : nat -> string.          (* datetime.now().isoformat(), by read *)

(** [VoiceProfile.__init__]: two clock reads. *)
Definition VoiceProfile_init (reads : nat) (user_id user_name : string)
  : VoiceProfile R :=
  {| user_id := user_id;
     user_name := user_name;
     created_date := now reads;
     last_updated := now (S reads);
     speaking_rate_wpm := None;
     average_pause_duration := None;
     mean_pitch := None;
     pitch_range := None;
     emotion_profile := None;
     energy_levels := None;
     pitch_contour := None |}.

Definition to_dict (self : VoiceProfile R) : ProfileDict R :=
  {| d_user_id := user_id self;
     d_user_name := user_name self;
     d_created_date := created_date self;
     d_last_updated := last_updated self;
     d_speaking_characteristics := {|
       c_speaking_rate_wpm := speaking_rate_wpm self;
       c_average_pause_duration := average_pause_duration self;
       c_mean_pitch := mean_pitch self;
       c_pitch_range := pitch_range self |};
     d_emotion_profile := emotion_profile self |}.

Definition save_json (self : VoiceProfile R) : file R :=
  json_dump (to_dict self).

Definition save_yaml (self : VoiceProfile R) : file R :=
  yaml_dump (to_dict self).

(** *** The emotion rules *)

Definition score (s : Scores R) (e : emotion) : R :=
  match e with
  | happy => s_happy s | sad => s_sad s | angry => s_angry s
  | calm => s_calm s | neutral => s_neutral s
  end.

(** [scores[e] += w] *)
Definition bump (e : emotion) (w : R) (s : Scores R) : Scores R :=
  match e with
  | happy => {| s_happy := (s_happy s + w)%py; s_sad := s_sad s;
                s_angry := s_angry s; s_calm := s_calm s;
                s_neutral := s_neutral s |}
  | sad => {| s_happy := s_happy s; s_sad := (s_sad s + w)%py;
              s_angry := s_angry s; s_calm := s_calm s;
              s_neutral := s_neutral s |}
  | angry => {| s_happy := s_happy s; s_sad := s_sad s;
                s_angry := (s_angry s + w)%py; s_calm := s_calm s;
                s_neutral := s_neutral s |}
  | calm => {| s_happy := s_happy s; s_sad := s_sad s;
               s_angry := s_angry s; s_calm := (s_calm s + w)%py;
               s_neutral := s_neutral s |}
  | neutral => {| s_happy := s_happy s; s_sad := s_sad s;
                  s_angry := s_angry s; s_calm := s_calm s;
                  s_neutral := (s_neutral s + w)%py |}
  end.

Definition zero_scores : Scores R :=
  {| s_happy := of_Z 0; s_sad := of_Z 0; s_angry := of_Z 0;
     s_calm := of_Z 0; s_neutral := of_Z 0 |}.

(** [max(scores, key=scores.get)]: the keys are visited in dict order and
    a later key replaces the current best only when strictly greater. *)
Definition py_max_key (s : Scores R) : emotion :=
  fold_left (fun best e => if (score s e >? score s best)%py then e else best)
            [sad; angry; calm; neutral] happy.

(** [sum(scores.values()) or 1.0] *)
Definition total_score (s : Scores R) : R :=
  num_or (py_sum (map (score s) labels)) (of_Z 1).

(** [max_score / total], before rounding. *)
Definition raw_confidence (s : Scores R) : R :=
  (score s (py_max_key s) / total_score s)%py.

(** The body of [_infer_emotion] from [rules_triggered = []] on. *)
Definition emotion_rules (mean_pitch pitch_range speaking_rate avg_energy : R)
  : EmotionProfile R :=
  let rules_triggered : list string := [] in
  let HIGH_PITCH := of_Z 200 in
  let LOW_PITCH := of_Z 130 in
  let HIGH_RANGE := of_Z 80 in
  let LOW_RANGE := of_Z 40 in
  let FAST_RATE := of_Z 160 in
  let SLOW_RATE := of_Z 110 in
  let HIGH_ENERGY := of_Z 45 in
  let LOW_ENERGY := of_Z 35 in
  let scores := zero_scores in
  let '(scores, rules_triggered) :=
    if (mean_pitch >? HIGH_PITCH)%py
    then (bump angry (lit 5 10) (bump happy (of_Z 1) scores),
          rules_triggered ++ ["high_mean_pitch"%string])
    else (scores, rules_triggered) in
  let '(scores, rules_triggered) :=
    if (pitch_range >? HIGH_RANGE)%py
    then (bump angry (of_Z 1) (bump happy (of_Z 1) scores),
          rules_triggered ++ ["large_pitch_range"%string])
    else (scores, rules_triggered) in
  let '(scores, rules_triggered) :=
    if (speaking_rate >? FAST_RATE)%py
    then (bump angry (lit 5 10) (bump happy (lit 5 10) scores),
          rules_triggered ++ ["fast_speaking_rate"%string])
    else (scores, rules_triggered) in
  let '(scores, rules_triggered) :=
    if (avg_energy >? HIGH_ENERGY)%py
    then (bump happy (lit 5 10) (bump angry (of_Z 1) scores),
          rules_triggered ++ ["high_energy"%string])
    else (scores, rules_triggered) in
  let '(scores, rules_triggered) :=
    if (mean_pitch <? LOW_PITCH)%py
    then (bump sad (of_Z 1) scores,
          rules_triggered ++ ["low_mean_pitch"%string])
    else (scores, rules_triggered) in
  let '(scores, rules_triggered) :=
    if (pitch_range <? LOW_RANGE)%py
    then (bump calm (lit 5 10) (bump sad (lit 5 10) scores),
          rules_triggered ++ ["small_pitch_range"%string])
    else (scores, rules_triggered) in
  let '(scores, rules_triggered) :=
    if (speaking_rate <? SLOW_RATE)%py
    then (bump calm (lit 5 10) (bump sad (lit 5 10) scores),
          rules_triggered ++ ["slow_speaking_rate"%string])
    else (scores, rules_triggered) in
  let '(scores, rules_triggered) :=
    if (avg_energy <? LOW_ENERGY)%py
    then (bump calm (lit 5 10) (bump sad (lit 5 10) scores),
          rules_triggered ++ ["low_energy"%string])
    else (scores, rules_triggered) in
  let '(scores, rules_triggered) :=
    if (LOW_PITCH <=? mean_pitch)%py && (mean_pitch <=? HIGH_PITCH)%py
       && ((LOW_RANGE <=? pitch_range)%py && (pitch_range <=? HIGH_RANGE)%py)
    then (bump neutral (lit 5 10) scores,
          rules_triggered ++ ["mid_pitch_mid_range"%string])
    else (scores, rules_triggered) in
  let '(scores, rules_triggered) :=
    if (SLOW_RATE <? speaking_rate)%py && (speaking_rate <? FAST_RATE)%py
       && ((LOW_ENERGY <? avg_energy)%py && (avg_energy <? HIGH_ENERGY)%py)
    then (bump neutral (lit 5 10) (bump calm (lit 5 10) scores),
          rules_triggered ++ ["mid_rate_mid_energy"%string])
    else (scores, rules_triggered) in
  let dominant := py_max_key scores in
  let confidence := raw_confidence scores in
  {| dominant_emotion := dominant;
     confidence := round2 confidence;
     scores := scores;
     rules_triggered := rules_triggered;
     features_used := {| f_mean_pitch := mean_pitch;
                         f_pitch_range := pitch_range;
                         f_speaking_rate_wpm := speaking_rate;
                         f_avg_energy := avg_energy |} |}.

(** [x or 0.0] for a field that may be [None]. *)
Definition field_or_zero (x : option R) : R :=
  match x with
  | Some v => num_or v (of_Z 0)
  | None => of_Z 0
  end.

Definition _infer_emotion (profile : VoiceProfile R) : EmotionProfile R :=
  let mean_pitch := field_or_zero (mean_pitch profile) in
  let pitch_range :=
    match pitch_range profile with
    | Some (_, [lo; hi]) => (hi - lo)%py
    | _ => of_Z 0
    end in
  let speaking_rate := field_or_zero (speaking_rate_wpm profile) in
  let avg_energy :=
    match energy_levels profile with
    | Some (e :: l) =>
        (py_sum (e :: l) / of_Z (Z.of_nat (length (e :: l))))%py
    | _ => of_Z 0
    end in
  emotion_rules mean_pitch pitch_range speaking_rate avg_energy.

(** *** Synthesis parameters *)

Definition _normalize_pitch_for_synthesis (mean_pitch : option R) : R :=
  match mean_pitch with
  | None => of_Z 1
  | Some mean_pitch => np_clip (mean_pitch / of_Z 150)%py (lit 5 10) (of_Z 2)
  end.

Definition _normalize_speed_for_synthesis (wpm : option R) : R :=
  match wpm with
  | None => of_Z 1
  | Some wpm => np_clip (wpm / of_Z 150)%py (lit 5 10) (of_Z 2)
  end.

Record SynthesisParameters : Type := {
  pitch_adjust : R;
  speaking_rate_adjust : R;
  pause_duration : option R;
  energy_level : R
}.

(** [None] for an unknown user; formatting an absent pause duration for
    the log raises [TypeError]. *)
Definition get_synthesis_parameters (st : State R) (uid : string)
  : result (option SynthesisParameters) :=
  match voice_profiles st !! uid with
  | None => Ok None
  | Some profile =>
      let params := {|
        pitch_adjust := _normalize_pitch_for_synthesis (mean_pitch profile);
        speaking_rate_adjust :=
          _normalize_speed_for_synthesis (speaking_rate_wpm profile);
        pause_duration := average_pause_duration profile;
        energy_level :=
          match energy_levels profile with
          | Some (e :: l) => np_mean (e :: l)
          | _ => lit 5 10
          end |} in
      match pause_duration params with
      | None => Raised "TypeError"
      | Some _ => Ok (Some params)
      end
  end.

(** *** Creating, saving and loading profiles *)

Definition create_voice_profile (st : State R)
    (uid uname audio_path : string)
  : result (option (VoiceProfile R) * State R) :=
  let! (audio, _) := preprocess lib audio_path in
  let! patterns := FeatureExtractor.extract_all_features lib sr audio in
  match patterns with
  | None => Ok (None, st)
  | Some patterns =>
      let profile := VoiceProfile_init (clock_reads st) uid uname in
      let profile :=
        {| user_id := user_id profile;
           user_name := user_name profile;
           created_date := created_date profile;
           last_updated := last_updated profile;
           speaking_rate_wpm := Some (sp_speaking_rate_wpm patterns);
           average_pause_duration :=
             Some (sp_average_pause_duration patterns);
           mean_pitch := Some (sp_mean_pitch patterns);
           pitch_range :=
             Some (PyTuple, [fst (sp_pitch_range patterns);
                             snd (sp_pitch_range patterns)]);
           emotion_profile := emotion_profile profile;
           energy_levels := Some (sp_energy_levels patterns);
           pitch_contour := Some (sp_pitch_contour patterns) |} in
      let profile :=
        {| user_id := user_id profile;
           user_name := user_name profile;
           created_date := created_date profile;
           last_updated := last_updated profile;
           speaking_rate_wpm := speaking_rate_wpm profile;
           average_pause_duration := average_pause_duration profile;
           mean_pitch := mean_pitch profile;
           pitch_range := pitch_range profile;
           emotion_profile := Some (_infer_emotion profile);
           energy_levels := energy_levels profile;
           pitch_contour := pitch_contour profile |} in
      Ok (Some profile,
          {| voice_profiles := <[uid := profile]> (voice_profiles st);
             files := files st;
             clock_reads := S (S (clock_reads st)) |})
  end.

(** Returns the path written, [None] for an unknown user or format. *)
Definition save_profile (st : State R) (uid output_dir format : string)
  : option string * State R :=
  match voice_profiles st !! uid with
  | None => (None, st)
  | Some profile =>
      if String.eqb format "json" then
        let filepath := path_join output_dir (uid +:+ "_profile.json") in
        (Some filepath,
         {| voice_profiles := voice_profiles st;
            files := <[filepath := save_json profile]> (files st);
            clock_reads := clock_reads st |})
      else if String.eqb format "yaml" then
        let filepath := path_join output_dir (uid +:+ "_profile.yaml") in
        (Some filepath,
         {| voice_profiles := voice_profiles st;
            files := <[filepath := save_yaml profile]> (files st);
            clock_reads := clock_reads st |})
      else (None, st)
  end.

(** The [try] block of [load_profile]: [Ok None] is the early
    [return None] for an unsupported extension. *)
Definition load_profile_try (st : State R) (profile_path : string)
  : result (option (VoiceProfile R * State R)) :=
  match files st !! profile_path with
  | None => Raised "FileNotFoundError"
  | Some f =>
      let! data :=
        if ends_with profile_path ".json" then
          let! d := json_load f in Ok (Some d)
        else if ends_with profile_path ".yaml" then
          let! d := yaml_safe_load f in Ok (Some d)
        else Ok None in
      match data with
      | None => Ok None
      | Some data =>
          let profile :=
            VoiceProfile_init (clock_reads st)
                              (d_user_id data) (d_user_name data) in
          let sc := d_speaking_characteristics data in
          let profile :=
            {| user_id := user_id profile;
               user_name := user_name profile;
               created_date := created_date profile;
               last_updated := last_updated profile;
               speaking_rate_wpm := c_speaking_rate_wpm sc;
               average_pause_duration := c_average_pause_duration sc;
               mean_pitch := c_mean_pitch sc;
               pitch_range := c_pitch_range sc;
               emotion_profile := emotion_profile profile;
               energy_levels := energy_levels profile;
               pitch_contour := pitch_contour profile |} in
          Ok (Some (profile,
                    {| voice_profiles :=
                         <[user_id profile := profile]> (voice_profiles st);
                       files := files st;
                       clock_reads := S (S (clock_reads st)) |}))
      end
  end.

(** Any exception is caught and turned into [None]. *)
Definition load_profile (st : State R) (profile_path : string)
  : option (VoiceProfile R) * State R :=
  match load_profile_try st profile_path with
  | Ok (Some (profile, st')) => (Some profile, st')
  | Ok None => (None, st)
  | Raised _ => (None, st)
  end.
End WithNum.
End PersonalizationEngine.

(** ** Reference definitions for pause segmentation

    What the specification says the segmenter reports, independently of
    the loop: the frames are scanned in time order, a pause opens on the
    first paused frame after a non-paused state and closes on the first
    non-paused frame after it. *)

Fixpoint intervals_from (flags : list bool) (i : nat) (opened : option nat)
  : list (nat * nat) :=
  match flags with
  | [] => []
  | paused :: rest =>
      match opened, paused with
      | None, true => intervals_from rest (S i) (Some i)
      | Some a, false => (a, i) :: intervals_from rest (S i) None
      | _, _ => intervals_from rest (S i) opened
      end
  end.

Definition pause_intervals (flags : list bool) : list (nat * nat) :=
  intervals_from flags 0 None.

(** The duration recorded for the frames [(opened, closed)]. *)
Definition duration_of {R} `{PyNum R} (frame_times : nat -> R)
    (p : nat * nat) : R :=
  (frame_times (snd p) - frame_times (fst p))%py.

(** Frames [a .. b-1] are a maximal paused run that starts at [a] and is
    ended by the non-paused frame [b]. *)
Definition is_pause (flags : list bool) (a b : nat) : Prop :=
  (a < b)%nat
  /\ (a = 0%nat \/ flags !! (a - 1)%nat = Some false)
  /\ (forall k : nat, (a <= k < b)%nat -> flags !! k = Some true)
  /\ flags !! b = Some false.

(** ** Reference definitions for the emotion rules

    The rule table of the specification: a condition on the four features,
    the weights it adds, and its identifier, in table order. *)

Record rule (R : Type) : Type := {
  r_holds : Features R -> bool;
  r_weights : list (emotion * R);
  r_name : string
}.
Arguments r_holds {R}.
Arguments r_weights {R}.
Arguments r_name {R}.

Section RuleTable.
Context {R : Type} `{PyNum R}.

Definition rule_table : list (rule R) := [
  {| r_holds := fun f => (f_mean_pitch f >? of_Z 200)%py;
     r_weights := [(happy, of_Z 1); (angry, lit 5 10)];
     r_name := "high_mean_pitch" |};
  {| r_holds := fun f => (f_pitch_range f >? of_Z 80)%py;
     r_weights := [(happy, of_Z 1); (angry, of_Z 1)];
     r_name := "large_pitch_range" |};
  {| r_holds := fun f => (f_speaking_rate_wpm f >? of_Z 160)%py;
     r_weights := [(happy, lit 5 10); (angry, lit 5 10)];
     r_name := "fast_speaking_rate" |};
  {| r_holds := fun f => (f_avg_energy f >? of_Z 45)%py;
     r_weights := [(happy, lit 5 10); (angry, of_Z 1)];
     r_name := "high_energy" |};
  {| r_holds := fun f => (f_mean_pitch f <? of_Z 130)%py;
     r_weights := [(sad, of_Z 1)];
     r_name := "low_mean_pitch" |};
  {| r_holds := fun f => (f_pitch_range f <? of_Z 40)%py;
     r_weights := [(sad, lit 5 10); (calm, lit 5 10)];
     r_name := "small_pitch_range" |};
  {| r_holds := fun f => (f_speaking_rate_wpm f <? of_Z 110)%py;
     r_weights := [(sad, lit 5 10); (calm, lit 5 10)];
     r_name := "slow_speaking_rate" |};
  {| r_holds := fun f => (f_avg_energy f <? of_Z 35)%py;
     r_weights := [(sad, lit 5 10); (calm, lit 5 10)];
     r_name := "low_energy" |};
  {| r_holds := fun f =>
       (of_Z 130 <=? f_mean_pitch f)%py && (f_mean_pitch f <=? of_Z 200)%py
       && ((of_Z 40 <=? f_pitch_range f)%py
           && (f_pitch_range f <=? of_Z 80)%py);
     r_weights := [(neutral, lit 5 10)];
     r_name := "mid_pitch_mid_range" |};
  {| r_holds := fun f =>
       (of_Z 110 <? f_speaking_rate_wpm f)%py
       && (f_speaking_rate_wpm f <? of_Z 160)%py
       && ((of_Z 35 <? f_avg_energy f)%py
           && (f_avg_energy f <? of_Z 45)%py);
     r_weights := [(calm, lit 5 10); (neutral, lit 5 10)];
     r_name := "mid_rate_mid_energy" |}
].

Definition emotion_eqb (a b : emotion) : bool :=
  match a, b with
  | happy, happy | sad, sad | angry, angry | calm, calm
  | neutral, neutral => true
  | _, _ => false
  end.

(** The weights a rule gives to label [e]. *)
Definition weights_for (e : emotion) (r : rule R) : list R :=
  map snd (List.filter (fun ew => emotion_eqb (fst ew) e) (r_weights r)).

Definition satisfied (f : Features R) : list (rule R) :=
  List.filter (fun r => r_holds r f) rule_table.

(** The score of [e]: the sum, from 0, of the weights of the satisfied
    rows. *)
Definition table_score (f : Features R) (e : emotion) : R :=
  py_sum (flat_map (weights_for e) (satisfied f)).

Definition table_rules (f : Features R) : list string :=
  map r_name (satisfied f).

(** [scores[e] += w] for each weight of a row. *)
Definition bump_all (ws : list (emotion * R)) (s : Scores R) : Scores R :=
  fold_left (fun s ew => PersonalizationEngine.bump (fst ew) (snd ew) s)
            ws s.

(** The state of the cascade after the rows [done] have been evaluated. *)
Definition rows_done (f : Features R) (done : list (rule R))
    (s : Scores R) (names : list string) : Prop :=
  (forall e : emotion,
      PersonalizationEngine.score s e
      = py_sum (flat_map (weights_for e)
                         (List.filter (fun r => r_holds r f) done)))
  /\ names = map r_name (List.filter (fun r => r_holds r f) done).
End RuleTable.

(** The rows picked by a vector of truth values, one per row. *)
Fixpoint select {A : Type} (bs : list bool) (l : list A) : list A :=
  match bs, l with
  | b :: bs', x :: l' => if b then x :: select bs' l' else select bs' l'
  | _, _ => []
  end.

Fixpoint bool_vectors (n : nat) : list (list bool) :=
  match n with
  | O => [[]]
  | S n' => map (cons true) (bool_vectors n')
            ++ map (cons false) (bool_vectors n')
  end.

Definition label_index (e : emotion) : nat :=
  match e with
  | happy => 0 | sad => 1 | angry => 2 | calm => 3 | neutral => 4
  end.

Section Outcomes.
Context {R : Type} `{PyNum R}.

(** Which rows hold for the features [f]. *)
Definition outcome (f : Features R) : list bool :=
  map (fun r => r_holds r f) rule_table.

(** The scores when the rows picked by [bs] hold. *)
Definition scores_of (bs : list bool) : Scores R :=
  let rows := select bs rule_table in
  {| s_happy := py_sum (flat_map (weights_for happy) rows);
     s_sad := py_sum (flat_map (weights_for sad) rows);
     s_angry := py_sum (flat_map (weights_for angry) rows);
     s_calm := py_sum (flat_map (weights_for calm) rows);
     s_neutral := py_sum (flat_map (weights_for neutral) rows) |}.

(** [sum(scores.values())] *)
Definition sum_scores (s : Scores R) : R :=
  py_sum (map (PersonalizationEngine.score s) labels).

(** The dominant label has a maximal score and is the first label, in
    dict order, among those that reach it. *)
Definition dominant_ok (s : Scores R) : bool :=
  let d := PersonalizationEngine.py_max_key s in
  forallb (fun e =>
             (PersonalizationEngine.score s e
              <=? PersonalizationEngine.score s d)%py
             && implb (PersonalizationEngine.score s e
                       =? PersonalizationEngine.score s d)%py
                      (label_index d <=? label_index e)%nat)
          labels.



(** Some row on the pitch or on the pitch range holds. *)
Definition pitch_covered (bs : list bool) : bool :=
  existsb (fun i => nth i bs false) [0; 4; 1; 5; 8]%nat.

(** The total is at least 0.5, so it is not replaced, and the
    confidence is positive before and after rounding. *)
Definition positive_ok (s : Scores R) : bool :=
  (lit 5 10 <=? sum_scores s)%py
  && (of_Z 0 <? sum_scores s)%py
  && negb (sum_scores s =? of_Z 0)%py
  && (of_Z 0 <? PersonalizationEngine.raw_confidence s)%py
  && (of_Z 0 <? round2 (PersonalizationEngine.raw_confidence s))%py.
End Outcomes.

(** ** Reference definition of clamping *)

(** [clamp(x, lo, hi)]: [lo] below the range, [hi] above it, [x] inside. *)
Definition clamp (x lo hi : Q) : Q :=
  if Qlt_le_dec x lo then lo
  else if Qlt_le_dec hi x then hi
  else x.

(** ** Reference statement of the round trip

    Saving the profile stored under [uid] in the given format and loading
    the saved file yields a profile with the six fields of the original
    and none of the other three. *)
Definition reloads_exactly {R : Type} `{PyNum R} (now : nat -> string)
    (st : State R) (uid output_dir format : string) : Prop :=
  exists (p : VoiceProfile R) (path : string) (st1 : State R)
         (p' : VoiceProfile R) (st2 : State R),
    voice_profiles st !! uid = Some p
    /\ PersonalizationEngine.save_profile st uid output_dir format
       = (Some path, st1)
    /\ PersonalizationEngine.load_profile now st1 path = (Some p', st2)
    /\ user_id p' = user_id p
    /\ user_name p' = user_name p
    /\ speaking_rate_wpm p' = speaking_rate_wpm p
    /\ average_pause_duration p' = average_pause_duration p
    /\ mean_pitch p' = mean_pitch p
    /\ pitch_range p' = pitch_range p
    /\ energy_levels p' = None
    /\ pitch_contour p' = None
    /\ emotion_profile p' = None.

(** A profile as [create_voice_profile] builds it, and an engine that
    holds it. *)
Definition example_clock (k : nat) : string :=
  match k with
  | 0%nat => "2024-05-01T10:00:00.000000"
  | 1%nat => "2024-05-01T10:00:00.000007"
  | 2%nat => "2024-06-01T09:30:00.000000"
  | _ => "2024-06-01T09:30:00.000005"
  end.

Definition example_profile : VoiceProfile Q :=
  let measured :=
    {| user_id := "user1"; user_name := "User 1";
       created_date := example_clock 0; last_updated := example_clock 1;
       speaking_rate_wpm := Some 150%Q;
       average_pause_duration := Some (3 # 10)%Q;
       mean_pitch := Some 180%Q;
       pitch_range := Some (PyTuple, [80%Q; 250%Q]);
       emotion_profile := None;
       energy_levels := Some [(-30)%Q; (-25)%Q];
       pitch_contour := Some [170%Q; 190%Q] |} in
  {| user_id := user_id measured; user_name := user_name measured;
     created_date := created_date measured;
     last_updated := last_updated measured;
     speaking_rate_wpm := speaking_rate_wpm measured;
     average_pause_duration := average_pause_duration measured;
     mean_pitch := mean_pitch measured;
     pitch_range := pitch_range measured;
     emotion_profile := Some (PersonalizationEngine._infer_emotion measured);
     energy_levels := energy_levels measured;
     pitch_contour := pitch_contour measured |}.

Definition example_state : State Q :=
  {| voice_profiles := {[ "user1"%string := example_profile ]};
     files := ∅;
     clock_reads := 2 |}.

(** ** audio_preprocessor.py *)

(** The audio libraries behind the preprocessor: [librosa.load] (path and
    target rate to samples and rate), [librosa.effects.trim] (samples and
    [top_db] to the trimmed samples), [np.abs(np.fft.fft(x))], and
    [soundfile.write]. *)
Record AudioLibs (R : Type) : Type := {
  librosa_load : string -> Z -> result (list R * Z);
  effects_trim : list R -> Z -> result (list R);
  fft_magnitude : list R -> result (list R);
  sf_write : string -> list R -> Z -> result unit
}.
Arguments librosa_load {R}.
Arguments effects_trim {R}.
Arguments fft_magnitude {R}.
Arguments sf_write {R}.

Section ArrayOps.
Context {R : Type} `{PyNum R}.

(** [np.abs] of a sample (the sign of a zero is not tracked). *)
Definition np_abs (x : R) : R :=
  if (x <? of_Z 0)%py then (of_Z 0 - x)%py else x.

(** The step of [np.max]: the larger of the two, a NaN wins. *)
Definition max_step (a b : R) : R :=
  if negb (a =? a)%py then a
  else if negb (b =? b)%py then b
  else np_maximum a b.

(** [np.max(a)]: an empty array has no maximum. *)
Definition np_max (a : list R) : result R :=
  match a with
  | [] => Raised "ValueError"
  | x :: rest => Ok (fold_left max_step rest x)
  end.

(** [a[:n]] *)
Definition slice_to (a : list R) (n : Z) : list R :=
  if 0 <=? n then firstn (Z.to_nat n) a
  else firstn (length a - Z.to_nat (- n)) a.
End ArrayOps.

Module AudioPreprocessor.
Section WithNum.
Context {R : Type} `{PyNum R}.
Variable libs : AudioLibs R.
Variable sr : Z.                       (* self.sr *)

(** The duration logged after loading divides by the rate returned. *)
Definition load_audio (audio_path : string) : result (list R * Z) :=
  let! (audio, sr') := librosa_load libs audio_path sr in
  if sr' =? 0 then Raised "ZeroDivisionError"
  else Ok (audio, sr').

Definition remove_silence (audio : list R) : result (list R) :=
  effects_trim libs audio 20.

Definition normalize_audio (audio : list R) : result (list R) :=
  let! max_val := np_max (map np_abs audio) in
  if (max_val =? of_Z 0)%py then Ok audio
  else Ok (map (fun x => (x / max_val)%py) audio).

(** The noise spectrum of the first half second is computed and logged;
    the audio is returned as it is. *)
Definition reduce_noise_simple (audio : list R) : result (list R) :=
  let noise_duration_samples := Z.quot sr 2 in        (* int(0.5 * sr) *)
  let noise_sample := slice_to audio noise_duration_samples in
  let! noise_spectrum := fft_magnitude libs noise_sample in
  let cleaned_audio := audio in
  Ok cleaned_audio.

Definition preprocess (audio_path : string) (output_path : option string)
  : result (list R * Z) :=
  let! (audio, sr') := load_audio audio_path in
  let! audio := remove_silence audio in
  let! audio := normalize_audio audio in
  let! audio := reduce_noise_simple audio in
  let! _ :=
    match output_path with
    | Some (String c path) => sf_write libs (String c path) audio sr'
    | _ => Ok tt
    end in
  Ok (audio, sr').
End WithNum.
End AudioPreprocessor.

(** ** main.py *)

Section Main.
Context {R : Type} `{PyNum R}.
Variable lib : Collaborators R.
Variable now : nat -> string.

End Main.

(** ** Reference definition: pauses in order

    Each pause opens at or after [lo], closes after it opens, and the
    next one opens after it has closed. *)
Fixpoint in_order (lo : nat) (l : list (nat * nat)) : Prop :=
  match l with
  | [] => True
  | (a, b) :: l' => (lo <= a)%nat /\ (a < b)%nat /\ in_order (S b) l'
  end.

(** ** Reference definition: the floor under the confidence

    With no row satisfied the dominant label is the first one and the
    confidence is 0; otherwise the confidence is at least 0.2. *)
Definition floor_ok {R : Type} `{PyNum R} (bs : list bool) : bool :=
  let s := scores_of bs in
  let c := round2 (PersonalizationEngine.raw_confidence s) in
  if existsb (fun b => b) bs
  then (lit 2 10 <=? c)%py
  else emotion_eqb (PersonalizationEngine.py_max_key s) happy
       && (c =? of_Z 0)%py.

(** ** The engine and its preprocessor

    [PersonalizationEngine.__init__]: the engine preprocesses with an
    [AudioPreprocessor] at its own sample rate, and
    [create_voice_profile] calls it without an output path; the
    signal-processing routines are those of [dsp]. *)
Definition engine_collaborators {R : Type} `{PyNum R} (libs : AudioLibs R)
    (sr : Z) (dsp : Collaborators R) : Collaborators R :=
  {| preprocess := fun audio_path =>
       AudioPreprocessor.preprocess libs sr audio_path None;
     frame_log_energy := frame_log_energy dsp;
     pyin := pyin dsp;
     np_nanmean := np_nanmean dsp;
     np_nanstd := np_nanstd dsp;
     np_nanmin := np_nanmin dsp;
     np_nanmax := np_nanmax dsp |}.

(** ** Examples

    A recording with voiced frames, as the signal-processing routines see
    it: 1100 samples, three energy frames of which the second is quiet,
    three pitch frames of which the second is unvoiced. *)
Definition example_audio : list Q := repeat (1 # 2)%Q 1100.

Definition example_lib : Collaborators Q :=
  {| preprocess := fun _ => Ok (example_audio, 22050);
     frame_log_energy := fun _ _ => Ok [(-20)%Q; (-60)%Q; (-20)%Q];
     pyin := fun _ => Ok ([110%Q; 0%Q; 130%Q], [true; false; true]);
     np_nanmean := np_mean;
     np_nanstd := fun _ => 10%Q;
     np_nanmin := fun l => fold_right np_minimum (hd 0%Q l) l;
     np_nanmax := fun l => fold_right np_maximum (hd 0%Q l) l |}.

(** Audio libraries that load five samples from any file, trim nothing
    and write nothing. *)
Definition example_audio_libs : AudioLibs Q :=
  {| librosa_load := fun _ sr =>
       Ok ([0%Q; (1 # 4)%Q; (-1 # 2)%Q; (1 # 4)%Q; 0%Q], sr);
     effects_trim := fun audio _ => Ok audio;
     fft_magnitude := fun x => Ok (map np_abs x);
     sf_write := fun _ _ _ => Ok tt |}.

(** The engine of [example_state] after its profile has been saved as
    JSON. *)
Definition example_saved : State Q :=
  snd (PersonalizationEngine.save_profile example_state "user1" "profiles"
         "json").

(** * Properties *)

(** ** Comparisons on exact rationals *)

Lemma Qltb_lt (x y : Q) : Qltb x y = true <-> (x < y)%Q.
Proof.
  unfold Qltb. rewrite Qlt_alt. destruct (x ?= y)%Q; split; congruence.
Qed.

Lemma Qltb_ge (x y : Q) : Qltb x y = false <-> (y <= x)%Q.
Proof.
  split; intro Hxy.
  - apply Qnot_lt_le. intro Hlt. apply Qltb_lt in Hlt. congruence.
  - destruct (Qltb x y) eqn:E; [|reflexivity].
    apply Qltb_lt in E. exfalso. exact (Qle_not_lt _ _ Hxy E).
Qed.

(** ** The speaking-rate estimator *)

(** In exact arithmetic the formula collapses to the constant. *)
Lemma rate_formula_exact (st : Q) :
  (0 < st)%Q -> (st * lit 25 10 / st * inject_Z 60 == 150)%Q.
Proof.
  intro Hpos. unfold lit. cbn [of_Z ndiv Q_num].
  assert (Hne : ~ (st == 0)%Q) by (intro E; rewrite E in Hpos; discriminate).
  field. exact Hne.
Qed.

(** C1, as the code has it: the estimator returns 0 whenever speaking_time
    is not strictly positive (in every arithmetic, sample rate non-zero);
    for a strictly positive speaking_time it returns
    estimated_words / speaking_time * 60 with
    estimated_words = speaking_time * 2.5, which is 150 in exact
    arithmetic, and is exactly 150.0 in binary64 for a duration of 10 s
    with one pause of 2 s. *)
Theorem calculate_speaking_rate_spec :
  (forall (R : Type) (N : PyNum R) (sr : Z) (audio energy pauses : list R),
      sr <> 0 ->
      (FeatureExtractor.speaking_time sr audio pauses >? of_Z 0)%py = false ->
      FeatureExtractor.calculate_speaking_rate sr audio energy pauses
      = Ok (of_Z 0))
  /\ (forall (R : Type) (N : PyNum R) (sr : Z) (audio energy pauses : list R),
      sr <> 0 ->
      let st := FeatureExtractor.speaking_time sr audio pauses in
      (st >? of_Z 0)%py = true ->
      FeatureExtractor.calculate_speaking_rate sr audio energy pauses
      = Ok (st * lit 25 10 / st * of_Z 60)%py)
  /\ (forall (sr : Z) (audio energy pauses : list Q),
      sr <> 0 ->
      (0 < FeatureExtractor.speaking_time sr audio pauses)%Q ->
      exists wpm : Q,
        FeatureExtractor.calculate_speaking_rate sr audio energy pauses
        = Ok wpm /\ (wpm == 150)%Q)
  /\ FeatureExtractor.calculate_speaking_rate (R := float)
       22050 (repeat 0%float 220500) [] [2%float] = Ok 150%float.
Proof.
  split; [|split; [|split]].
  - intros R N sr audio energy pauses Hsr Hst.
    unfold FeatureExtractor.calculate_speaking_rate.
    apply Z.eqb_neq in Hsr. rewrite Hsr, Hst. reflexivity.
  - intros R N sr audio energy pauses Hsr st Hst. subst st.
    unfold FeatureExtractor.calculate_speaking_rate.
    apply Z.eqb_neq in Hsr. rewrite Hsr, Hst. reflexivity.
  - intros sr audio energy pauses Hsr Hst.
    unfold FeatureExtractor.calculate_speaking_rate.
    apply Z.eqb_neq in Hsr. rewrite Hsr.
    assert (Hlt : (FeatureExtractor.speaking_time sr audio pauses >? of_Z 0)%py
                  = true) by (apply Qltb_lt; exact Hst).
    rewrite Hlt. eexists. split; [reflexivity|].
    apply rate_formula_exact. exact Hst.
  - vm_compute. reflexivity.
Qed.

Lemma calculate_speaking_rate_spec_witness :
  FeatureExtractor.calculate_speaking_rate (R := Q) 1 (repeat 0%Q 5) []
    [5%Q; 5%Q] = Ok (of_Z 0)
  /\ FeatureExtractor.calculate_speaking_rate (R := float) 1
       (repeat 0%float 10) [] [2%float]
     = Ok (FeatureExtractor.speaking_time 1 (repeat 0%float 10) [2%float]
           * lit 25 10
           / FeatureExtractor.speaking_time 1 (repeat 0%float 10) [2%float]
           * of_Z 60)%py
  /\ exists wpm : Q,
      FeatureExtractor.calculate_speaking_rate 1 (repeat 0%Q 10) [] [2%Q]
      = Ok wpm /\ (wpm == 150)%Q.
Proof.
  split; [|split].
  - apply (proj1 calculate_speaking_rate_spec); [lia | reflexivity].
  - apply (proj1 (proj2 calculate_speaking_rate_spec) float _ 1
             (repeat 0%float 10) [] [2%float]); [lia | reflexivity].
  - apply (proj1 (proj2 (proj2 calculate_speaking_rate_spec)));
      [lia | reflexivity].
Defined.

(** C1 as stated fails in binary64: 35291 samples at 22050 Hz without
    pauses give a positive speaking time and a rate that is not 150.0. *)
Lemma calculate_speaking_rate_not_150 :
  ~ ((FeatureExtractor.speaking_time (R := float) 22050
        (repeat 0%float 35291) [] >? of_Z 0)%py = true ->
     FeatureExtractor.calculate_speaking_rate (R := float) 22050
        (repeat 0%float 35291) [] [] = Ok 150%float).
Proof.
  intro Hclaim.
  assert (Hpos : (FeatureExtractor.speaking_time (R := float) 22050
                    (repeat 0%float 35291) [] >? of_Z 0)%py = true)
    by (vm_compute; reflexivity).
  specialize (Hclaim Hpos).
  assert (Hval : match FeatureExtractor.calculate_speaking_rate (R := float)
                         22050 (repeat 0%float 35291) [] [] with
                 | Ok w => PrimFloat.eqb w 150%float
                 | Raised _ => false
                 end = false)
    by (vm_compute; reflexivity).
  rewrite Hclaim in Hval. vm_compute in Hval. discriminate.
Qed.

(** ** Pause segmentation *)

Section PauseLoop.
Context {R : Type} `{PyNum R}.
Variable frame_times : nat -> R.

(** The loop records exactly the intervals of the reference scan. *)
Lemma pause_loop_intervals (flags : list bool) :
  forall (i : nat) (durs : list R),
    (forall pause_start,
        FeatureExtractor.pause_loop frame_times flags i false pause_start durs
        = durs ++ map (duration_of frame_times)
                      (intervals_from flags i None))
    /\ (forall a,
        FeatureExtractor.pause_loop frame_times flags i true
                                    (frame_times a) durs
        = durs ++ map (duration_of frame_times)
                      (intervals_from flags i (Some a))).
Proof.
  induction flags as [|p rest IH]; intros i durs.
  - cbn. split; intros; now rewrite app_nil_r.
  - split.
    + intro ps. destruct p; cbn.
      * apply (proj2 (IH (S i) durs)).
      * apply (proj1 (IH (S i) durs)).
    + intro a. destruct p; cbn.
      * apply (proj2 (IH (S i) durs)).
      * rewrite (proj1 (IH (S i) _)). now rewrite <- app_assoc.
Qed.
End PauseLoop.

(** The reference scan reports exactly the closed paused runs. *)
Lemma intervals_from_spec (l : list bool) :
  forall (suf pre : list bool) (opened : option nat),
    l = pre ++ suf ->
    (opened = None ->
       length pre = 0%nat \/ l !! (length pre - 1)%nat = Some false) ->
    (forall a, opened = Some a ->
       (a < length pre)%nat
       /\ (a = 0%nat \/ l !! (a - 1)%nat = Some false)
       /\ (forall k : nat, (a <= k < length pre)%nat -> l !! k = Some true)) ->
    forall x y,
      In (x, y) (intervals_from suf (length pre) opened)
      <-> is_pause l x y /\ (length pre <= y)%nat.
Proof.
  induction suf as [|p rest IH]; intros pre opened Hl Hnone Hsome x y.
  - cbn. split; [tauto|]. intros [(_ & _ & _ & Hy) Hle].
    apply lookup_lt_Some in Hy. subst l. rewrite length_app in Hy.
    cbn in Hy. lia.
  - assert (Hi : l !! length pre = Some p)
      by (subst l; apply list_lookup_middle; reflexivity).
    assert (Hl' : l = (pre ++ [p]) ++ rest)
      by (rewrite <- app_assoc; exact Hl).
    assert (Hlen : length (pre ++ [p]) = S (length pre))
      by (rewrite length_app; cbn; lia).
    specialize (IH (pre ++ [p])). rewrite Hlen in IH.
    assert (Hstep : forall b : bool, p = b ->
              is_pause l x y /\ (length pre <= y)%nat ->
              (y = length pre /\ b = false) \/ (S (length pre) <= y)%nat).
    { intros b Hb [(_ & _ & _ & Hy) Hle].
      destruct (decide (y = length pre)) as [->|Hne]; [|right; lia].
      left. split; [reflexivity|]. congruence. }
    destruct opened as [a|]; destruct p; cbn [intervals_from].
    + (* inside a run, still paused *)
      destruct (Hsome a eq_refl) as (Ha & Hstart & Hrun).
      rewrite (IH (Some a) Hl').
      * split; intros [Hp Hle]; (split; [exact Hp|]); [lia|].
        destruct (Hstep true eq_refl (conj Hp Hle)) as [[_ ?]|?];
          [discriminate|lia].
      * discriminate.
      * intros a' [= <-]. split; [lia|]. split; [exact Hstart|].
        intros k Hk. destruct (decide (k = length pre)) as [->|Hne];
          [exact Hi | apply Hrun; lia].
    + (* the run is closed by this frame *)
      destruct (Hsome a eq_refl) as (Ha & Hstart & Hrun).
      cbn [In]. rewrite (IH None Hl').
      * split.
        -- intros [[= <- <-]|[Hp Hle]].
           ++ split; [|lia]. repeat split; assumption.
           ++ split; [exact Hp|lia].
        -- intros [Hp Hle].
           destruct (Hstep false eq_refl (conj Hp Hle)) as [[-> _]|Hlt];
             [left|right; split; [exact Hp|exact Hlt]].
           destruct Hp as (Hxy & Hxs & Hxrun & _).
           f_equal.
           destruct (lt_eq_lt_dec a x) as [[Hax|Heq]|Hxa];
             [exfalso|exact Heq|exfalso].
           ++ destruct Hxs as [->|Hxs]; [lia|].
              rewrite Hrun in Hxs by lia. discriminate.
           ++ destruct Hstart as [->|Hstart]; [lia|].
              rewrite Hxrun in Hstart by lia. discriminate.
      * intros _. right. replace (S (length pre) - 1)%nat with (length pre)
          by lia. exact Hi.
      * discriminate.
    + (* a pause opens *)
      rewrite (IH (Some (length pre)) Hl').
      * split; intros [Hp Hle]; (split; [exact Hp|]); [lia|].
        destruct (Hstep true eq_refl (conj Hp Hle)) as [[_ ?]|?];
          [discriminate|lia].
      * discriminate.
      * intros a' [= <-]. split; [lia|]. split.
        -- destruct (Hnone eq_refl) as [Hz|Hprev]; [left|right]; assumption.
        -- intros k Hk. replace k with (length pre) by lia. exact Hi.
    + (* outside a run, still not paused *)
      rewrite (IH None Hl').
      * split; intros [Hp Hle]; (split; [exact Hp|]); [lia|].
        destruct (Hstep false eq_refl (conj Hp Hle)) as [[-> _]|?]; [|lia].
        exfalso. destruct Hp as (Hxy & _ & Hxrun & _).
        destruct (Hnone eq_refl) as [Hz|Hprev]; [lia|].
        rewrite Hxrun in Hprev by lia. discriminate.
      * intros _. right. replace (S (length pre) - 1)%nat with (length pre)
          by lia. exact Hi.
      * discriminate.
Qed.

Lemma pause_intervals_spec (flags : list bool) (a b : nat) :
  In (a, b) (pause_intervals flags) <-> is_pause flags a b.
Proof.
  unfold pause_intervals.
  rewrite (intervals_from_spec flags flags [] None eq_refl).
  - cbn. split; [tauto|]. intro Hp. split; [exact Hp|lia].
  - intros _. left. reflexivity.
  - discriminate.
Qed.

Lemma frames_to_time_exact (sr : Z) (i : nat) :
  (frames_to_time (R := Q) sr 512 i
   == inject_Z (Z.of_nat i) * 512 / inject_Z sr)%Q.
Proof.
  unfold frames_to_time. cbn [of_Z ndiv Q_num].
  rewrite inject_Z_mult. reflexivity.
Qed.

Lemma frames_to_time_mono (sr : Z) (a b : nat) :
  0 < sr -> (a <= b)%nat ->
  (frames_to_time (R := Q) sr 512 a <= frames_to_time sr 512 b)%Q.
Proof.
  intros Hsr Hab. unfold frames_to_time. cbn [of_Z ndiv Q_num].
  unfold Qdiv. apply Qmult_le_compat_r.
  - rewrite <- Zle_Qle. lia.
  - apply Qinv_le_0_compat. change 0%Q with (inject_Z 0).
    rewrite <- Zle_Qle. lia.
Qed.



(** C8, as the code has it: on an empty energy sequence [np.percentile]
    raises and [extract_pauses] propagates the error (in every arithmetic),
    although the scanning loop on no frames records nothing; a pause list
    is returned, and is empty, whenever the percentile is defined and no
    frame lies strictly below it. *)
Theorem extract_pauses_empty_energy :
  (forall (R : Type) (N : PyNum R) (sr : Z) (audio : list R) (p : Z),
      FeatureExtractor.extract_pauses sr audio [] p = Raised "IndexError")
  /\ (forall (R : Type) (N : PyNum R) (t : nat -> R),
      FeatureExtractor.pause_loop t [] 0 false (of_Z 0) [] = [])
  /\ (forall (R : Type) (N : PyNum R) (sr : Z) (audio energy : list R)
        (p : Z) (threshold : R),
      np_percentile energy p = Ok threshold ->
      (forall e, In e energy -> (e <? threshold)%py = false) ->
      FeatureExtractor.extract_pauses sr audio energy p = Ok []).
Proof.
  split; [|split].
  - reflexivity.
  - reflexivity.
  - intros R N sr audio energy p threshold Hthr Hall.
    unfold FeatureExtractor.extract_pauses. rewrite Hthr. cbn [bind].
    f_equal.
    rewrite (proj1 (pause_loop_intervals _ _ 0%nat []) (of_Z 0)).
    cbn [app].
    assert (Hflags : forall (l : list R) (i : nat),
              (forall e, In e l -> (e <? threshold)%py = false) ->
              intervals_from (map (fun e => (e <? threshold)%py) l) i None
              = []).
    { induction l as [|e l IH]; intros i Hl; [reflexivity|].
      cbn [map intervals_from]. rewrite (Hl e (or_introl eq_refl)).
      apply IH. intros e' He'. apply Hl. right. exact He'. }
    rewrite (Hflags energy 0%nat Hall). reflexivity.
Qed.

Lemma extract_pauses_empty_energy_witness :
  FeatureExtractor.extract_pauses (R := float) 1 []
    [10; 10; -5; -5; -5; 10]%float 25 = Ok [].
Proof.
  apply (proj2 (proj2 extract_pauses_empty_energy)) with (threshold := (-5)%float).
  - vm_compute. reflexivity.
  - intros e He. cbn in He.
    repeat (destruct He as [<-|He]; [vm_compute; reflexivity|]).
    destruct He.
Defined.

(** C8 as stated fails: the empty energy sequence yields no pause list. *)
Lemma extract_pauses_empty_energy_raises :
  FeatureExtractor.extract_pauses (R := float) 22050 [] [] 25 <> Ok [].
Proof. discriminate. Qed.

(** ** The emotion rules *)

Section RuleSteps.
Context {R : Type} `{PyNum R}.
Variable f : Features R.

Lemma score_bump_all (e : emotion) (ws : list (emotion * R)) :
  forall s : Scores R,
    PersonalizationEngine.score (bump_all ws s) e
    = fold_left nadd
        (map snd (List.filter (fun ew => emotion_eqb (fst ew) e) ws))
        (PersonalizationEngine.score s e).
Proof.
  induction ws as [|[e' w] ws IH]; intro s; [reflexivity|].
  unfold bump_all in *. cbn [fold_left List.filter fst snd].
  rewrite IH. destruct e, e'; reflexivity.
Qed.

Lemma rows_done_nil : rows_done f [] PersonalizationEngine.zero_scores [].
Proof. split; [intros []; reflexivity | reflexivity]. Qed.

Lemma rows_done_step (done : list (rule R)) (r : rule R)
    (s : Scores R) (names : list string) :
  rows_done f done s names ->
  forall (s' : Scores R) (names' : list string),
    (s', names')
    = (if r_holds r f
       then (bump_all (r_weights r) s, names ++ [r_name r])
       else (s, names)) ->
    rows_done f (done ++ [r]) s' names'.
Proof.
  intros [Hs Hn] s' names' Heq. unfold rows_done.
  rewrite List.filter_app. cbn [List.filter].
  destruct (r_holds r f); injection Heq as -> ->.
  - split.
    + intro e. rewrite score_bump_all, Hs, flat_map_app.
      unfold py_sum. rewrite fold_left_app. cbn [flat_map].
      rewrite app_nil_r. reflexivity.
    + rewrite map_app, Hn. reflexivity.
  - rewrite app_nil_r. split; assumption.
Qed.
End RuleSteps.

(** One rule of the cascade: the state it leaves is named and the
    invariant is carried over it. *)
Ltac rule_step f r Hinv :=
  match goal with
  | |- context [match ?E with pair _ _ => _ end] =>
      let Heq := fresh "Heq" in
      destruct E as [? ?] eqn:Heq;
      apply eq_sym in Heq;
      apply (rows_done_step f _ r _ _ Hinv) in Heq;
      clear Hinv; rename Heq into Hinv
  end.

(** The cascade computes the table: scores, identifiers, and the final
    fields of the result. *)
Lemma emotion_rules_rows (R : Type) (N : PyNum R)
    (mean_pitch pitch_range speaking_rate avg_energy : R) :
  let f := {| f_mean_pitch := mean_pitch; f_pitch_range := pitch_range;
              f_speaking_rate_wpm := speaking_rate;
              f_avg_energy := avg_energy |} in
  let ep := PersonalizationEngine.emotion_rules
              mean_pitch pitch_range speaking_rate avg_energy in
  rows_done f rule_table (scores ep) (rules_triggered ep)
  /\ dominant_emotion ep = PersonalizationEngine.py_max_key (scores ep)
  /\ confidence ep
     = round2 (PersonalizationEngine.raw_confidence (scores ep))
  /\ features_used ep = f.
Proof.
  intros f ep. subst ep. unfold PersonalizationEngine.emotion_rules.
  pose proof (rows_done_nil f) as Hinv.
  pose (row := fun i : nat => nth i (rule_table (R := R))
                                 (Build_rule R (fun _ => false) [] "")).
  rule_step f (row 0%nat) Hinv. rule_step f (row 1%nat) Hinv.
  rule_step f (row 2%nat) Hinv. rule_step f (row 3%nat) Hinv.
  rule_step f (row 4%nat) Hinv. rule_step f (row 5%nat) Hinv.
  rule_step f (row 6%nat) Hinv. rule_step f (row 7%nat) Hinv.
  rule_step f (row 8%nat) Hinv. rule_step f (row 9%nat) Hinv.
  cbn [scores rules_triggered features_used dominant_emotion confidence].
  split; [exact Hinv | repeat split].
Qed.

(** C4: in every arithmetic, each of the five scores is the sum of the
    weights of the satisfied rows of the rule table, and rules_triggered
    lists the identifiers of the satisfied rows in table order. *)
Theorem emotion_rules_table (R : Type) (N : PyNum R)
    (mean_pitch pitch_range speaking_rate avg_energy : R) :
  let f := {| f_mean_pitch := mean_pitch; f_pitch_range := pitch_range;
              f_speaking_rate_wpm := speaking_rate;
              f_avg_energy := avg_energy |} in
  let ep := PersonalizationEngine.emotion_rules
              mean_pitch pitch_range speaking_rate avg_energy in
  (forall e : emotion,
      PersonalizationEngine.score (scores ep) e = table_score f e)
  /\ rules_triggered ep = table_rules f
  /\ features_used ep = f.
Proof.
  intros f ep.
  destruct (emotion_rules_rows R N mean_pitch pitch_range speaking_rate
              avg_energy) as ([Hs Hn] & _ & _ & Hf).
  split; [exact Hs | split; [exact Hn | exact Hf]].
Qed.

(** ** Enumerating the outcomes of the ten rules *)

Lemma filter_select {A : Type} (g : A -> bool) (l : list A) :
  List.filter g l = select (map g l) l.
Proof.
  induction l as [|x l IH]; [reflexivity|].
  cbn. rewrite IH. reflexivity.
Qed.

Lemma in_bool_vectors (bs : list bool) : In bs (bool_vectors (length bs)).
Proof.
  induction bs as [|b bs IH]; [left; reflexivity|].
  cbn [length bool_vectors]. apply in_or_app.
  destruct b; [left|right]; apply in_map; exact IH.
Qed.

Section OutcomeLemmas.
Context {R : Type} `{PyNum R}.

Lemma scores_of_outcome
    (mean_pitch pitch_range speaking_rate avg_energy : R) :
  scores (PersonalizationEngine.emotion_rules
            mean_pitch pitch_range speaking_rate avg_energy)
  = scores_of (outcome {| f_mean_pitch := mean_pitch;
                          f_pitch_range := pitch_range;
                          f_speaking_rate_wpm := speaking_rate;
                          f_avg_energy := avg_energy |}).
Proof.
  destruct (emotion_rules_rows R _ mean_pitch pitch_range speaking_rate
              avg_energy) as ([Hs _] & _).
  unfold scores_of, outcome. rewrite <- filter_select.
  pose proof (Hs happy) as Hh. pose proof (Hs sad) as Hsd.
  pose proof (Hs angry) as Ha. pose proof (Hs calm) as Hc.
  pose proof (Hs neutral) as Hn.
  destruct (scores _) as [h sd a c n].
  cbn [PersonalizationEngine.score s_happy s_sad s_angry s_calm s_neutral]
    in Hh, Hsd, Ha, Hc, Hn.
  subst h sd a c n. reflexivity.
Qed.

Lemma dominant_ok_spec (s : Scores R) :
  dominant_ok s = true ->
  forall e : emotion,
    (PersonalizationEngine.score s e
     <=? PersonalizationEngine.score s (PersonalizationEngine.py_max_key s))%py
    = true
    /\ ((PersonalizationEngine.score s e
         =? PersonalizationEngine.score s
              (PersonalizationEngine.py_max_key s))%py = true ->
        (label_index (PersonalizationEngine.py_max_key s)
         <= label_index e)%nat).
Proof.
  intros Hok e. unfold dominant_ok in Hok. cbv zeta in Hok.
  rewrite forallb_forall in Hok.
  assert (He : In e labels) by (destruct e; cbn; tauto).
  specialize (Hok e He). apply andb_true_iff in Hok as [Hle Himp].
  split; [exact Hle|]. intro Heq.
  rewrite Heq, Bool.implb_true_l in Himp.
  apply Nat.leb_le. exact Himp.
Qed.



Lemma positive_ok_spec (s : Scores R) :
  positive_ok s = true ->
  (lit 5 10 <=? sum_scores s)%py = true
  /\ (of_Z 0 <? sum_scores s)%py = true
  /\ PersonalizationEngine.total_score s = sum_scores s
  /\ (of_Z 0 <? PersonalizationEngine.raw_confidence s)%py = true
  /\ (of_Z 0 <? round2 (PersonalizationEngine.raw_confidence s))%py = true.
Proof.
  intro Hok. unfold positive_ok in Hok.
  apply andb_true_iff in Hok as [Hok Hround].
  apply andb_true_iff in Hok as [Hok Hraw].
  apply andb_true_iff in Hok as [Hok Hne].
  apply andb_true_iff in Hok as [Hhalf Hpos].
  repeat split; try assumption.
  unfold PersonalizationEngine.total_score, num_or, truthy.
  fold (sum_scores s). rewrite Hne. reflexivity.
Qed.

(** A check that passes on the 1024 outcomes holds for every input. *)
Lemma for_all_outcomes (check : list bool -> bool) :
  forallb check (bool_vectors 10) = true ->
  forall f : Features R, check (outcome f) = true.
Proof.
  intros Hall f. rewrite forallb_forall in Hall. apply Hall.
  exact (in_bool_vectors (outcome f)).
Qed.
End OutcomeLemmas.

(** C5: for every binary64 input the dominant label has a maximal score
    and is the first, in the order happy, sad, angry, calm, neutral, of
    the labels that reach it; for mean_pitch 220, pitch_range 90,
    speaking_rate 170 and avg_energy 50 exactly the four high rules fire,
    happy and angry both score 3, and the dominant label is happy. *)
Theorem dominant_emotion_first_max :
  (forall mean_pitch pitch_range speaking_rate avg_energy : float,
      let ep := PersonalizationEngine.emotion_rules
                  mean_pitch pitch_range speaking_rate avg_energy in
      let max_score :=
        PersonalizationEngine.score (scores ep) (dominant_emotion ep) in
      forall e : emotion,
        (PersonalizationEngine.score (scores ep) e <=? max_score)%py = true
        /\ ((PersonalizationEngine.score (scores ep) e =? max_score)%py = true
            -> (label_index (dominant_emotion ep) <= label_index e)%nat))
  /\ (let ep := PersonalizationEngine.emotion_rules
                  220%float 90%float 170%float 50%float in
      rules_triggered ep
      = ["high_mean_pitch"; "large_pitch_range"; "fast_speaking_rate";
         "high_energy"]%string
      /\ s_happy (scores ep) = 3%float
      /\ s_angry (scores ep) = 3%float
      /\ dominant_emotion ep = happy).
Proof.
  split.
  - intros mean_pitch pitch_range speaking_rate avg_energy ep max_score e.
    subst max_score ep.
    destruct (emotion_rules_rows float _ mean_pitch pitch_range
                speaking_rate avg_energy) as (_ & -> & _).
    rewrite scores_of_outcome. apply dominant_ok_spec.
    apply (for_all_outcomes (fun bs => dominant_ok (scores_of bs))).
    vm_compute. reflexivity.
  - vm_compute. repeat split.
Qed.

Lemma dominant_emotion_first_max_witness :
  (label_index (dominant_emotion (PersonalizationEngine.emotion_rules
      220%float 90%float 170%float 50%float)) <= label_index angry)%nat.
Proof.
  destruct (proj1 dominant_emotion_first_max 220%float 90%float 170%float
              50%float angry) as [_ Hfirst].
  apply Hfirst. vm_compute. reflexivity.
Defined.



(** ** Order of binary64 numbers *)

Lemma SFcompare_antisym (x y : spec_float) :
  SFcompare y x = option_map CompOpp (SFcompare x y).
Proof.
  destruct x as [sx|sx| |sx mx ex], y as [sy|sy| |sy my ey]; cbn;
    try reflexivity;
    try (destruct sx; reflexivity);
    try (destruct sy; reflexivity);
    try (destruct sx, sy; reflexivity).
  f_equal. destruct sx, sy; try reflexivity;
    rewrite (Z.compare_antisym ex ey);
    destruct (ex ?= ey)%Z; cbn; try reflexivity.
  - rewrite CompOpp_involutive.
    exact (Pos.compare_cont_antisym my mx Eq).
  - symmetry. exact (Pos.compare_cont_antisym mx my Eq).
Qed.

Lemma SFcompare_defined (x y : spec_float) :
  x <> S754_nan -> y <> S754_nan -> exists c, SFcompare x y = Some c.
Proof.
  intros Hx Hy.
  destruct x as [sx|sx| |sx mx ex]; [| |contradiction|];
    (destruct y as [sy|sy| |sy my ey]; [| |contradiction|]);
    cbn; eexists; reflexivity.
Qed.

(** For numbers that are not NaN, [not (x < y)] gives [y <= x]. *)
Lemma float_ltb_false_leb (x y : float) :
  PrimFloat.is_nan x = false -> PrimFloat.is_nan y = false ->
  PrimFloat.ltb x y = false -> PrimFloat.leb y x = true.
Proof.
  unfold PrimFloat.is_nan.
  rewrite !FloatAxioms.eqb_spec, FloatAxioms.ltb_spec, FloatAxioms.leb_spec.
  generalize (Prim2SF x) (Prim2SF y). intros sx sy Hx Hy.
  assert (Hnx : sx <> S754_nan) by (intros ->; discriminate).
  assert (Hny : sy <> S754_nan) by (intros ->; discriminate).
  unfold SFltb, SFleb.
  rewrite (SFcompare_antisym sx sy).
  destruct (SFcompare_defined sx sy Hnx Hny) as [c ->].
  destruct c; cbn; congruence.
Qed.

(** C10: for every binary64 input whose mean pitch and pitch range are
    not NaN, one of the conditions on the pitch or on the pitch range
    holds, so a rule fires, the total score is at least 0.5 and strictly
    positive, the total is not replaced by 1, and the confidence is
    strictly positive before (and after) rounding. *)
Theorem some_rule_fires
    (mean_pitch pitch_range speaking_rate avg_energy : float) :
  PrimFloat.is_nan mean_pitch = false ->
  PrimFloat.is_nan pitch_range = false ->
  let ep := PersonalizationEngine.emotion_rules
              mean_pitch pitch_range speaking_rate avg_energy in
  let s := scores ep in
  ((mean_pitch <? of_Z 130)%py = true
   \/ (mean_pitch >? of_Z 200)%py = true
   \/ (((of_Z 130 <=? mean_pitch)%py && (mean_pitch <=? of_Z 200)%py = true)
       /\ ((pitch_range <? of_Z 40)%py = true
           \/ (pitch_range >? of_Z 80)%py = true
           \/ (of_Z 40 <=? pitch_range)%py && (pitch_range <=? of_Z 80)%py
              = true)))
  /\ rules_triggered ep <> []
  /\ (lit 5 10 <=? sum_scores s)%py = true
  /\ (of_Z 0 <? sum_scores s)%py = true
  /\ PersonalizationEngine.total_score s = sum_scores s
  /\ (of_Z 0 <? PersonalizationEngine.raw_confidence s)%py = true
  /\ (of_Z 0 <? confidence ep)%py = true.
Proof.
  intros Hmp Hpr ep s.
  assert (Hc130 : PrimFloat.is_nan (of_Z 130) = false) by reflexivity.
  assert (Hc200 : PrimFloat.is_nan (of_Z 200) = false) by reflexivity.
  assert (Hc40 : PrimFloat.is_nan (of_Z 40) = false) by reflexivity.
  assert (Hc80 : PrimFloat.is_nan (of_Z 80) = false) by reflexivity.
  pose proof (float_ltb_false_leb mean_pitch (of_Z 130) Hmp Hc130) as Hlo.
  pose proof (float_ltb_false_leb (of_Z 200) mean_pitch Hc200 Hmp) as Hhi.
  pose proof (float_ltb_false_leb pitch_range (of_Z 40) Hpr Hc40) as Hrlo.
  pose proof (float_ltb_false_leb (of_Z 80) pitch_range Hc80 Hpr) as Hrhi.
  set (f := {| f_mean_pitch := mean_pitch; f_pitch_range := pitch_range;
               f_speaking_rate_wpm := speaking_rate;
               f_avg_energy := avg_energy |}).
  assert (Hcov : pitch_covered (outcome f) = true).
  { unfold pitch_covered, outcome, rule_table, f.
    cbn [map existsb nth r_holds f_mean_pitch f_pitch_range].
    cbn [nltb nleb float_num] in *.
    destruct (PrimFloat.ltb (of_Z 200) mean_pitch); [reflexivity|].
    destruct (PrimFloat.ltb mean_pitch (of_Z 130)); [reflexivity|].
    destruct (PrimFloat.ltb (of_Z 80) pitch_range); [reflexivity|].
    destruct (PrimFloat.ltb pitch_range (of_Z 40)); [reflexivity|].
    rewrite (Hlo eq_refl), (Hhi eq_refl), (Hrlo eq_refl), (Hrhi eq_refl).
    reflexivity. }
  split.
  { cbn [nltb nleb float_num] in *.
    destruct (PrimFloat.ltb mean_pitch (of_Z 130)); [left; reflexivity|].
    destruct (PrimFloat.ltb (of_Z 200) mean_pitch);
      [right; left; reflexivity|].
    right; right. rewrite (Hlo eq_refl), (Hhi eq_refl).
    split; [reflexivity|].
    destruct (PrimFloat.ltb pitch_range (of_Z 40)); [left; reflexivity|].
    destruct (PrimFloat.ltb (of_Z 80) pitch_range);
      [right; left; reflexivity|].
    right; right. rewrite (Hrlo eq_refl), (Hrhi eq_refl). reflexivity. }
  assert (Hall : negb (pitch_covered (outcome f))
                 || (positive_ok (scores_of (R := float) (outcome f))
                     && negb (Nat.eqb (length (select (outcome f)
                                         (rule_table (R := float)))) 0))
                 = true).
  { apply (for_all_outcomes
             (fun bs => negb (pitch_covered bs)
                        || (positive_ok (scores_of (R := float) bs)
                            && negb (Nat.eqb (length (select bs
                                         (rule_table (R := float)))) 0)))).
    vm_compute. reflexivity. }
  rewrite Hcov in Hall. cbn [negb orb] in Hall.
  apply andb_true_iff in Hall as [Hpos Hlen].
  subst s ep.
  destruct (emotion_rules_rows float _ mean_pitch pitch_range
              speaking_rate avg_energy) as ([_ Hn] & _ & -> & _).
  split.
  { rewrite Hn. fold f. rewrite filter_select. fold (outcome f).
    intro Hnil. apply (f_equal (@length string)) in Hnil.
    rewrite length_map in Hnil. cbn [length] in Hnil.
    rewrite Hnil in Hlen. discriminate. }
  rewrite scores_of_outcome. fold f.
  apply positive_ok_spec. exact Hpos.
Qed.

Lemma some_rule_fires_witness :
  rules_triggered (PersonalizationEngine.emotion_rules
                     150%float 60%float PrimFloat.nan PrimFloat.nan) <> [].
Proof.
  destruct (some_rule_fires 150%float 60%float PrimFloat.nan PrimFloat.nan
              eq_refl eq_refl) as (_ & Hfired & _).
  exact Hfired.
Defined.

(** ** Synthesis parameters *)

(** On rationals [np.clip] is clamping between 1/2 and 2. *)
Lemma np_clip_Q (x : Q) :
  (np_clip x (lit 5 10) (of_Z 2) == clamp x (1 # 2) 2)%Q
  /\ (1 # 2 <= np_clip x (lit 5 10) (of_Z 2) <= 2)%Q.
Proof.
  unfold np_clip, np_minimum, np_maximum, clamp, lit.
  cbn [of_Z ndiv nltb Q_num].
  change (inject_Z 5 / inject_Z 10)%Q with (5 # 10)%Q.
  change (inject_Z 2) with 2%Q.
  destruct (Qltb x (5 # 10)) eqn:Hlo.
  - apply Qltb_lt in Hlo.
    destruct (Qltb 2 (5 # 10)) eqn:Hc; [discriminate|].
    destruct (Qlt_le_dec x (1 # 2)); lra.
  - apply Qltb_ge in Hlo.
    destruct (Qltb 2 x) eqn:Hhi;
      [apply Qltb_lt in Hhi | apply Qltb_ge in Hhi];
      destruct (Qlt_le_dec x (1 # 2)); destruct (Qlt_le_dec 2 x); lra.
Qed.

Lemma clamp_mono (x y : Q) :
  (x <= y)%Q -> (clamp x (1 # 2) 2 <= clamp y (1 # 2) 2)%Q.
Proof.
  intro Hxy. unfold clamp.
  destruct (Qlt_le_dec x (1 # 2)); destruct (Qlt_le_dec y (1 # 2));
    destruct (Qlt_le_dec 2 x); destruct (Qlt_le_dec 2 y); lra.
Qed.

Lemma div_150_mono (x y : Q) : (x <= y)%Q -> (x / 150 <= y / 150)%Q.
Proof.
  intro Hxy. unfold Qdiv. apply Qmult_le_compat_r; [exact Hxy|].
  discriminate.
Qed.

(** The two normalisations, taken alone: an absent input gives 1.0 (in
    every arithmetic); on rationals a present input x gives
    clamp(x/150, 0.5, 2.0), which lies in [0.5, 2.0] and is monotone
    non-decreasing in x; 75, 150 and 600 Hz give 0.5, 1.0 and 2.0, on
    rationals and in binary64. *)
Theorem normalize_for_synthesis_spec :
  (forall (R : Type) (N : PyNum R),
      PersonalizationEngine._normalize_pitch_for_synthesis (R := R) None
      = of_Z 1
      /\ PersonalizationEngine._normalize_speed_for_synthesis (R := R) None
         = of_Z 1)
  /\ (forall x : Q,
        let pitch_adjust :=
          PersonalizationEngine._normalize_pitch_for_synthesis (Some x) in
        let speaking_rate_adjust :=
          PersonalizationEngine._normalize_speed_for_synthesis (Some x) in
        (pitch_adjust == clamp (x / 150) (1 # 2) 2)%Q
        /\ (speaking_rate_adjust == clamp (x / 150) (1 # 2) 2)%Q
        /\ (1 # 2 <= pitch_adjust <= 2)%Q
        /\ (1 # 2 <= speaking_rate_adjust <= 2)%Q)
  /\ (forall x y : Q, (x <= y)%Q ->
        (PersonalizationEngine._normalize_pitch_for_synthesis (Some x)
         <= PersonalizationEngine._normalize_pitch_for_synthesis (Some y))%Q
        /\ (PersonalizationEngine._normalize_speed_for_synthesis (Some x)
            <= PersonalizationEngine._normalize_speed_for_synthesis (Some y))%Q)
  /\ ((PersonalizationEngine._normalize_pitch_for_synthesis (Some 75%Q)
       == 1 # 2)%Q
      /\ (PersonalizationEngine._normalize_pitch_for_synthesis (Some 150%Q)
          == 1)%Q
      /\ (PersonalizationEngine._normalize_pitch_for_synthesis (Some 600%Q)
          == 2)%Q)
  /\ (PersonalizationEngine._normalize_pitch_for_synthesis (Some 75%float)
      = 0.5%float
      /\ PersonalizationEngine._normalize_pitch_for_synthesis (Some 150%float)
         = 1%float
      /\ PersonalizationEngine._normalize_pitch_for_synthesis (Some 600%float)
         = 2%float).
Proof.
  split; [|split; [|split; [|split]]].
  - intros R N. split; reflexivity.
  - intros x pitch_adjust speaking_rate_adjust.
    subst pitch_adjust speaking_rate_adjust.
    unfold PersonalizationEngine._normalize_pitch_for_synthesis,
      PersonalizationEngine._normalize_speed_for_synthesis.
    change (x / of_Z 150)%py with (x / 150)%Q.
    destruct (np_clip_Q (x / 150)) as [Heq Hrange].
    repeat split; try exact Heq; apply Hrange.
  - intros x y Hxy.
    unfold PersonalizationEngine._normalize_pitch_for_synthesis,
      PersonalizationEngine._normalize_speed_for_synthesis.
    change (x / of_Z 150)%py with (x / 150)%Q.
    change (y / of_Z 150)%py with (y / 150)%Q.
    rewrite (proj1 (np_clip_Q (x / 150))), (proj1 (np_clip_Q (y / 150))).
    split; apply clamp_mono, div_150_mono; exact Hxy.
  - repeat split; vm_compute; reflexivity.
  - repeat split; vm_compute; reflexivity.
Qed.

Lemma normalize_for_synthesis_spec_witness :
  (PersonalizationEngine._normalize_pitch_for_synthesis (Some 75%Q)
   <= PersonalizationEngine._normalize_pitch_for_synthesis (Some 600%Q))%Q.
Proof.
  apply (proj1 (proj2 (proj2 normalize_for_synthesis_spec)) 75%Q 600%Q).
  discriminate.
Defined.

(** The parameters of a stored profile: the two adjustments are the
    normalised pitch and rate; the log line formats the pause duration, so
    a profile without one makes the call raise. *)
Lemma get_synthesis_parameters_stored (R : Type) (N : PyNum R)
    (st : State R) (uid : string) (p : VoiceProfile R) :
  voice_profiles st !! uid = Some p ->
  match average_pause_duration p with
  | Some pause =>
      exists params,
        PersonalizationEngine.get_synthesis_parameters st uid
        = Ok (Some params)
        /\ PersonalizationEngine.pitch_adjust params
           = PersonalizationEngine._normalize_pitch_for_synthesis
               (mean_pitch p)
        /\ PersonalizationEngine.speaking_rate_adjust params
           = PersonalizationEngine._normalize_speed_for_synthesis
               (speaking_rate_wpm p)
        /\ PersonalizationEngine.pause_duration params = Some pause
  | None =>
      PersonalizationEngine.get_synthesis_parameters st uid
      = Raised "TypeError"
  end.
Proof.
  intro Hp. unfold PersonalizationEngine.get_synthesis_parameters.
  rewrite Hp. cbn [PersonalizationEngine.pause_duration].
  destruct (average_pause_duration p) as [pause|]; [|reflexivity].
  eexists. split; [reflexivity|]. repeat split.
Qed.

(** C7, at the failing input: a profile as [VoiceProfile('user1',
    'User 1')] constructs it has no average pause duration.  The two
    normalisations resolve its absent mean pitch and speaking rate to the
    default 1.0, but get_synthesis_parameters raises TypeError on it, when
    it formats the absent pause duration for its log; and so it does when
    the profile has come into the engine through load_profile, from the
    file that the profile's own save_json writes. *)
Theorem get_synthesis_parameters_type_error :
  let fresh : VoiceProfile float :=
    PersonalizationEngine.VoiceProfile_init example_clock 0
      "user1" "User 1" in
  let holding : State float :=
    {| voice_profiles := {[ "user1"%string := fresh ]};
       files := ∅; clock_reads := 2 |} in
  let saved : State float :=
    {| voice_profiles := ∅;
       files := {[ "fresh.json"%string
                   := PersonalizationEngine.save_json fresh ]};
       clock_reads := 2 |} in
  average_pause_duration fresh = None
  /\ PersonalizationEngine._normalize_pitch_for_synthesis (mean_pitch fresh)
     = 1%float
  /\ PersonalizationEngine._normalize_speed_for_synthesis
       (speaking_rate_wpm fresh) = 1%float
  /\ PersonalizationEngine.get_synthesis_parameters holding "user1"
     = Raised "TypeError"
  /\ exists (loaded : VoiceProfile float) (st' : State float),
       PersonalizationEngine.load_profile example_clock saved "fresh.json"
       = (Some loaded, st')
       /\ voice_profiles st' !! "user1"%string = Some loaded
       /\ average_pause_duration loaded = None
       /\ PersonalizationEngine.get_synthesis_parameters st' "user1"
          = Raised "TypeError".
Proof.
  intros fresh holding saved.
  split; [reflexivity|]. split; [vm_compute; reflexivity|].
  split; [vm_compute; reflexivity|]. split; [vm_compute; reflexivity|].
  eexists _, _. split; [vm_compute; reflexivity|].
  split; [vm_compute; reflexivity|]. split; [reflexivity|].
  vm_compute. reflexivity.
Qed.

(** ** Audio without voiced frames *)

Section NoVoicedFrames.
Context {R : Type} `{PyNum R}.
Variable lib : Collaborators R.
Variable sr : Z.
Variable now : nat -> string.

Lemma extract_pitch_unvoiced (audio f0 : list R) (voiced_flag : list bool) :
  pyin lib audio = Ok (f0, voiced_flag) ->
  mask_select f0 voiced_flag = [] ->
  FeatureExtractor.extract_pitch lib audio = Ok None.
Proof.
  intros Hpyin Hmask. unfold FeatureExtractor.extract_pitch.
  rewrite Hpyin. cbn [bind]. rewrite Hmask. reflexivity.
Qed.

Lemma extract_all_features_unvoiced (audio : list R) :
  FeatureExtractor.extract_pitch lib audio = Ok None ->
  (forall energy, frame_log_energy lib sr audio = Ok energy ->
     FeatureExtractor.extract_all_features lib sr audio = Ok None)
  /\ (forall patterns,
        FeatureExtractor.extract_all_features lib sr audio
        <> Ok (Some patterns)).
Proof.
  intro Hpitch. unfold FeatureExtractor.extract_all_features,
    FeatureExtractor.extract_energy.
  split.
  - intros energy Henergy. rewrite Henergy. cbn [bind].
    rewrite Hpitch. reflexivity.
  - intro patterns. destruct (frame_log_energy lib sr audio); cbn [bind];
      [rewrite Hpitch|]; discriminate.
Qed.
End NoVoicedFrames.

(** C9: when the pitch tracker yields no voiced frame, pitch extraction
    returns None, whole-feature extraction returns None, and
    create_voice_profile returns None and leaves the engine unchanged;
    whatever the energy extraction does, no profile is returned for such
    audio. *)
Theorem no_voiced_frames_no_profile (R : Type) (N : PyNum R)
    (lib : Collaborators R) (sr : Z) (now : nat -> string) (st : State R)
    (uid uname audio_path : string) (audio : list R) (sr' : Z)
    (f0 : list R) (voiced_flag : list bool) :
  preprocess lib audio_path = Ok (audio, sr') ->
  pyin lib audio = Ok (f0, voiced_flag) ->
  mask_select f0 voiced_flag = [] ->
  FeatureExtractor.extract_pitch lib audio = Ok None
  /\ (forall energy : list R,
        frame_log_energy lib sr audio = Ok energy ->
        FeatureExtractor.extract_all_features lib sr audio = Ok None
        /\ PersonalizationEngine.create_voice_profile
             lib sr now st uid uname audio_path = Ok (None, st))
  /\ (forall (profile : VoiceProfile R) (st' : State R),
        PersonalizationEngine.create_voice_profile
          lib sr now st uid uname audio_path <> Ok (Some profile, st')).
Proof.
  intros Hpre Hpyin Hmask.
  pose proof (extract_pitch_unvoiced lib audio f0 voiced_flag Hpyin Hmask)
    as Hpitch.
  destruct (extract_all_features_unvoiced lib sr audio Hpitch)
    as [Hnone Hnever].
  split; [exact Hpitch|]. split.
  - intros energy Henergy. split; [exact (Hnone energy Henergy)|].
    unfold PersonalizationEngine.create_voice_profile.
    rewrite Hpre. cbn [bind]. rewrite (Hnone energy Henergy). reflexivity.
  - intros profile st'.
    unfold PersonalizationEngine.create_voice_profile.
    rewrite Hpre. cbn [bind].
    destruct (FeatureExtractor.extract_all_features lib sr audio)
      as [[patterns|]|exn] eqn:Hfeat; cbn [bind]; try discriminate.
    exfalso. exact (Hnever patterns eq_refl).
Qed.

Lemma no_voiced_frames_no_profile_witness :
  let lib := {| preprocess := fun _ => Ok ([0%Q; 0%Q], 22050);
                frame_log_energy := fun _ _ => Ok [(-80)%Q];
                pyin := fun _ => Ok ([0%Q], [false]);
                np_nanmean := fun _ => 0%Q; np_nanstd := fun _ => 0%Q;
                np_nanmin := fun _ => 0%Q; np_nanmax := fun _ => 0%Q |} in
  let st := {| voice_profiles := ∅; files := ∅; clock_reads := 0 |} in
  PersonalizationEngine.create_voice_profile
    lib 22050 (fun _ => ""%string) st "user1" "User 1" "silence.mp3"
  = Ok (None, st).
Proof.
  intros lib st.
  destruct (no_voiced_frames_no_profile Q _ lib 22050 (fun _ => ""%string)
              st "user1" "User 1" "silence.mp3" [0%Q; 0%Q] 22050 [0%Q]
              [false] eq_refl eq_refl eq_refl) as (_ & Hcreate & _).
  exact (proj2 (Hcreate [(-80)%Q] eq_refl)).
Defined.

(** ** Saving and loading profiles *)

Lemma ends_with_app (a b suffix : string) :
  ends_with b suffix = true -> ends_with (a +:+ b) suffix = true.
Proof.
  intro Hb. induction a as [|c a IH]; [exact Hb|].
  change (String c a +:+ b) with (String c (a +:+ b)).
  change (ends_with (String c (a +:+ b)) suffix)
    with (if String.eqb (String c (a +:+ b)) suffix then true
          else ends_with (a +:+ b) suffix).
  destruct (String.eqb (String c (a +:+ b)) suffix); [reflexivity|exact IH].
Qed.

Lemma json_path_ends_with (dir uid : string) :
  ends_with (path_join dir (uid +:+ "_profile.json")) ".json" = true.
Proof.
  unfold path_join. repeat apply ends_with_app. reflexivity.
Qed.

(** C3, as the code has it, for JSON: saving a stored profile and loading
    the file gives a profile whose user_id, user_name, speaking_rate_wpm,
    average_pause_duration and mean_pitch are those of the original and
    whose pitch_range has the original's items, as a list; the saved
    record holds the emotion profile; after the reload energy_levels and
    pitch_contour are None, emotion_profile is empty, the two dates are
    read from the clock, and the profile is stored under its user_id. *)
Theorem json_round_trip (R : Type) (N : PyNum R) (now : nat -> string)
    (st : State R) (uid output_dir : string) (p : VoiceProfile R) :
  voice_profiles st !! uid = Some p ->
  let path := path_join output_dir (uid +:+ "_profile.json") in
  exists (st1 : State R) (d : ProfileDict R) (p' : VoiceProfile R)
         (st2 : State R),
    PersonalizationEngine.save_profile st uid output_dir "json"
    = (Some path, st1)
    /\ files st1 !! path = Some (JsonText d)
    /\ d_emotion_profile d = emotion_profile p
    /\ PersonalizationEngine.load_profile now st1 path = (Some p', st2)
    /\ user_id p' = user_id p
    /\ user_name p' = user_name p
    /\ speaking_rate_wpm p' = speaking_rate_wpm p
    /\ average_pause_duration p' = average_pause_duration p
    /\ mean_pitch p' = mean_pitch p
    /\ pitch_range p' = as_list (pitch_range p)
    /\ energy_levels p' = None
    /\ pitch_contour p' = None
    /\ emotion_profile p' = None
    /\ created_date p' = now (clock_reads st)
    /\ last_updated p' = now (S (clock_reads st))
    /\ voice_profiles st2 = <[user_id p := p']> (voice_profiles st).
Proof.
  intros Hp path.
  unfold PersonalizationEngine.save_profile. rewrite Hp.
  cbn [String.eqb Ascii.eqb Bool.eqb]. fold path.
  eexists _, _, _, _.
  split; [reflexivity|]. cbn [files].
  split; [apply lookup_insert_eq|].
  split; [reflexivity|].
  unfold PersonalizationEngine.load_profile,
    PersonalizationEngine.load_profile_try.
  cbn [files]. rewrite lookup_insert_eq.
  unfold path. rewrite json_path_ends_with.
  cbn. repeat split; reflexivity.
Qed.

Lemma json_round_trip_witness :
  exists (st1 : State Q) (p' : VoiceProfile Q) (st2 : State Q),
    PersonalizationEngine.save_profile example_state "user1" "profiles" "json"
    = (Some "profiles/user1_profile.json"%string, st1)
    /\ PersonalizationEngine.load_profile example_clock st1
         "profiles/user1_profile.json" = (Some p', st2)
    /\ mean_pitch p' = Some 180%Q
    /\ pitch_range p' = Some (PyList, [80%Q; 250%Q]).
Proof.
  destruct (json_round_trip Q _ example_clock example_state "user1"
              "profiles" example_profile eq_refl)
    as (st1 & d & p' & st2 & Hsave & _ & _ & Hload & _ & _ & _ & _ & Hmp
        & Hpr & _).
  exists st1, p', st2. repeat split; assumption.
Defined.

(** C3 as stated fails for a profile built by create_voice_profile: after
    saving as JSON and loading, pitch_range is a list and no longer equal
    to the tuple saved; after saving as YAML, the file does not load. *)
Lemma round_trip_not_exact :
  ~ reloads_exactly example_clock example_state "user1" "profiles" "json"
  /\ ~ reloads_exactly example_clock example_state "user1" "profiles" "yaml".
Proof.
  split; intros (p & path & st1 & p' & st2 & Hp & Hsave & Hload & _ & _ & _
                 & _ & _ & Hrange & _).
  - vm_compute in Hp. injection Hp as <-.
    vm_compute in Hsave. injection Hsave as <- <-.
    vm_compute in Hload. injection Hload as <- _.
    discriminate Hrange.
  - vm_compute in Hp. injection Hp as <-.
    vm_compute in Hsave. injection Hsave as <- <-.
    vm_compute in Hload. discriminate Hload.
Qed.


(** * Further properties of the engine *)

Lemma Ok_inj {A : Type} (x y : A) : Ok x = Ok y -> x = y.
Proof. congruence. Qed.

(** ** Profiles in the engine *)

Section EngineOps.
Context {R : Type} `{PyNum R}.
Variable lib : Collaborators R.
Variable sr : Z.
Variable now : nat -> string.

(** What [create_voice_profile] builds from extracted patterns. *)
Lemma create_voice_profile_cases (st : State R)
    (uid uname audio_path : string) (r : option (VoiceProfile R))
    (st' : State R) :
  PersonalizationEngine.create_voice_profile lib sr now st uid uname
    audio_path = Ok (r, st') ->
  (r = None /\ st' = st)
  \/ (exists (p : VoiceProfile R) (patterns : SpeakingPatterns R)
             (audio : list R) (sr' : Z),
        preprocess lib audio_path = Ok (audio, sr')
        /\ FeatureExtractor.extract_all_features lib sr audio
           = Ok (Some patterns)
        /\ r = Some p
        /\ user_id p = uid /\ user_name p = uname
        /\ created_date p = now (clock_reads st)
        /\ last_updated p = now (S (clock_reads st))
        /\ speaking_rate_wpm p = Some (sp_speaking_rate_wpm patterns)
        /\ average_pause_duration p
           = Some (sp_average_pause_duration patterns)
        /\ mean_pitch p = Some (sp_mean_pitch patterns)
        /\ pitch_range p
           = Some (PyTuple, [fst (sp_pitch_range patterns);
                             snd (sp_pitch_range patterns)])
        /\ energy_levels p = Some (sp_energy_levels patterns)
        /\ pitch_contour p = Some (sp_pitch_contour patterns)
        /\ emotion_profile p
           = Some (PersonalizationEngine.emotion_rules
                     (num_or (sp_mean_pitch patterns) (of_Z 0))
                     (snd (sp_pitch_range patterns)
                      - fst (sp_pitch_range patterns))%py
                     (num_or (sp_speaking_rate_wpm patterns) (of_Z 0))
                     match sp_energy_levels patterns with
                     | e :: l =>
                         (py_sum (e :: l)
                          / of_Z (Z.of_nat (length (e :: l))))%py
                     | [] => of_Z 0
                     end)
        /\ st' = {| voice_profiles := <[uid := p]> (voice_profiles st);
                    files := files st;
                    clock_reads := S (S (clock_reads st)) |}).
Proof.
  unfold PersonalizationEngine.create_voice_profile.
  destruct (preprocess lib audio_path) as [[audio sr']|exn]; cbn [bind];
    [|discriminate].
  destruct (FeatureExtractor.extract_all_features lib sr audio)
    as [[patterns|]|exn] eqn:Hfeatures; cbn [bind]; [| |discriminate].
  - intros [= <- <-]. right. eexists _, patterns, audio, sr'.
    split; [reflexivity|]. split; [exact Hfeatures|].
    cbn [user_id user_name created_date last_updated speaking_rate_wpm
         average_pause_duration mean_pitch pitch_range energy_levels
         pitch_contour emotion_profile
         PersonalizationEngine.VoiceProfile_init].
    repeat split.
  - intros [= <- <-]. left. split; reflexivity.
Qed.
End EngineOps.

(** X1: create_voice_profile either returns None and leaves the engine
    as it was, or returns a profile that it has stored under the given
    user id, replacing whatever was there: every other user's profile,
    every file and nothing else is touched, and the clock has been read
    twice. *)
Theorem create_voice_profile_frame (R : Type) (N : PyNum R)
    (lib : Collaborators R) (sr : Z) (now : nat -> string) (st : State R)
    (uid uname audio_path : string) (r : option (VoiceProfile R))
    (st' : State R) :
  PersonalizationEngine.create_voice_profile lib sr now st uid uname
    audio_path = Ok (r, st') ->
  match r with
  | None => st' = st
  | Some p =>
      user_id p = uid
      /\ user_name p = uname
      /\ voice_profiles st' !! uid = Some p
      /\ (forall other : string, other <> uid ->
            voice_profiles st' !! other = voice_profiles st !! other)
      /\ files st' = files st
      /\ clock_reads st' = S (S (clock_reads st))
  end.
Proof.
  intro Hcreate.
  destruct (create_voice_profile_cases lib sr now st uid uname audio_path
              r st' Hcreate)
    as [[-> ->]|(p & patterns & audio & sr' & _ & _ & -> & Hid & Hname & _
                 & _ & _ & _ & _ & _ & _ & _ & _ & ->)].
  - reflexivity.
  - cbn [voice_profiles files clock_reads].
    split; [exact Hid|]. split; [exact Hname|].
    split; [apply lookup_insert_eq|].
    split; [|split; reflexivity].
    intros other Hother. apply lookup_insert_ne. congruence.
Qed.

Lemma create_voice_profile_frame_witness :
  exists (p : VoiceProfile Q) (st' : State Q),
    PersonalizationEngine.create_voice_profile example_lib 22050
      example_clock example_state "user2" "User 2" "voice.mp3"
    = Ok (Some p, st')
    /\ voice_profiles st' !! "user2"%string = Some p
    /\ voice_profiles st' !! "user1"%string
       = voice_profiles example_state !! "user1"%string
    /\ clock_reads st' = 4%nat.
Proof.
  eexists _, _.
  match goal with
  | |- ?A /\ _ => assert (E : A) by (vm_compute; reflexivity)
  end.
  split; [exact E|].
  destruct (create_voice_profile_frame Q _ _ _ _ _ _ _ _ _ _ E)
    as (_ & _ & Hstored & Hothers & _ & Hclock).
  split; [exact Hstored|]. split; [|exact Hclock].
  apply Hothers. discriminate.
Defined.

(** X2: for a profile that create_voice_profile has just returned,
    get_synthesis_parameters does not raise and is not None: the pitch and
    rate adjustments are the normalised mean pitch and speaking rate of
    the profile and the pause duration is its average pause duration,
    which is present. *)
Theorem created_profile_has_parameters (R : Type) (N : PyNum R)
    (lib : Collaborators R) (sr : Z) (now : nat -> string) (st : State R)
    (uid uname audio_path : string) (p : VoiceProfile R) (st' : State R) :
  PersonalizationEngine.create_voice_profile lib sr now st uid uname
    audio_path = Ok (Some p, st') ->
  exists (params : PersonalizationEngine.SynthesisParameters)
         (mp wpm pause : R),
    PersonalizationEngine.get_synthesis_parameters st' uid = Ok (Some params)
    /\ mean_pitch p = Some mp
    /\ speaking_rate_wpm p = Some wpm
    /\ PersonalizationEngine.pitch_adjust params
       = np_clip (mp / of_Z 150)%py (lit 5 10) (of_Z 2)
    /\ PersonalizationEngine.speaking_rate_adjust params
       = np_clip (wpm / of_Z 150)%py (lit 5 10) (of_Z 2)
    /\ PersonalizationEngine.pause_duration params = Some pause
    /\ average_pause_duration p = Some pause.
Proof.
  intro Hcreate.
  destruct (create_voice_profile_cases lib sr now st uid uname audio_path
              _ st' Hcreate)
    as [[Hnone _]|(p0 & patterns & audio & sr' & _ & _ & [= <-] & _ & _ & _
                   & _ & Hwpm & Hpause & Hmp & _ & _ & _ & _ & ->)];
    [discriminate|].
  unfold PersonalizationEngine.get_synthesis_parameters.
  cbn [voice_profiles]. rewrite lookup_insert_eq.
  cbn [PersonalizationEngine.pause_duration]. rewrite Hpause.
  eexists _, _, _, _.
  split; [reflexivity|]. split; [exact Hmp|]. split; [exact Hwpm|].
  cbn [PersonalizationEngine.pitch_adjust
       PersonalizationEngine.speaking_rate_adjust
       PersonalizationEngine.pause_duration].
  rewrite Hmp, Hwpm. repeat split.
Qed.

Lemma created_profile_has_parameters_witness :
  exists (p : VoiceProfile Q) (st' : State Q)
         (params : PersonalizationEngine.SynthesisParameters),
    PersonalizationEngine.create_voice_profile example_lib 22050
      example_clock example_state "user2" "User 2" "voice.mp3"
    = Ok (Some p, st')
    /\ PersonalizationEngine.get_synthesis_parameters st' "user2"
       = Ok (Some params)
    /\ PersonalizationEngine.pause_duration params
       = average_pause_duration p.
Proof.
  eexists _, _.
  match goal with
  | |- exists params, ?A /\ _ => assert (E : A) by (vm_compute; reflexivity)
  end.
  destruct (created_profile_has_parameters Q _ _ _ _ _ _ _ _ _ _ E)
    as (params & mp & wpm & pause & Hparams & _ & _ & _ & _ & Hpause & Hp).
  exists params. split; [exact E|]. split; [exact Hparams|].
  rewrite Hpause, Hp. reflexivity.
Defined.

(** ** Unknown users, unknown formats, missing files *)



(** X4: when save_profile returns a path, the user is known, the format
    is json or yaml, the path is output_dir/<user id>_profile.<format>,
    that file now holds the profile's record, and the engine's profiles,
    the clock and every other file are as before. *)
Theorem save_profile_frame (R : Type) (N : PyNum R) (st : State R)
    (uid output_dir format path : string) (st' : State R) :
  PersonalizationEngine.save_profile st uid output_dir format
  = (Some path, st') ->
  exists p : VoiceProfile R,
    voice_profiles st !! uid = Some p
    /\ ((format = "json"%string
         /\ path = path_join output_dir (uid +:+ "_profile.json")
         /\ files st' !! path
            = Some (json_dump (PersonalizationEngine.to_dict p)))
        \/ (format = "yaml"%string
            /\ path = path_join output_dir (uid +:+ "_profile.yaml")
            /\ files st' !! path
               = Some (YamlText (PersonalizationEngine.to_dict p))))
    /\ (forall other : string, other <> path ->
          files st' !! other = files st !! other)
    /\ voice_profiles st' = voice_profiles st
    /\ clock_reads st' = clock_reads st.
Proof.
  unfold PersonalizationEngine.save_profile.
  destruct (voice_profiles st !! uid) as [p|]; [|discriminate].
  destruct (String.eqb_spec format "json") as [->|Hjson].
  - intros [= <- <-]. exists p. cbn [files voice_profiles clock_reads].
    split; [reflexivity|]. split.
    + left. split; [reflexivity|]. split; [reflexivity|].
      apply lookup_insert_eq.
    + split; [|split; reflexivity].
      intros other Hother. apply lookup_insert_ne. congruence.
  - destruct (String.eqb_spec format "yaml") as [->|Hyaml]; [|discriminate].
    intros [= <- <-]. exists p. cbn [files voice_profiles clock_reads].
    split; [reflexivity|]. split.
    + right. split; [reflexivity|]. split; [reflexivity|].
      apply lookup_insert_eq.
    + split; [|split; reflexivity].
      intros other Hother. apply lookup_insert_ne. congruence.
Qed.

Lemma save_profile_frame_witness :
  exists (path : string) (st' : State Q),
    PersonalizationEngine.save_profile example_state "user1" "profiles"
      "yaml" = (Some path, st')
    /\ voice_profiles st' = voice_profiles example_state
    /\ clock_reads st' = clock_reads example_state.
Proof.
  assert (E : exists (path : string) (st' : State Q),
             PersonalizationEngine.save_profile example_state "user1"
               "profiles" "yaml" = (Some path, st')).
  { eexists _, _. vm_compute. reflexivity. }
  destruct E as (path & st' & E). exists path, st'.
  split; [exact E|].
  destruct (save_profile_frame Q _ example_state "user1" "profiles" "yaml"
              path st' E)
    as (p & _ & _ & _ & Hprofiles & Hclock).
  split; [exact Hprofiles|exact Hclock].
Defined.



(** X6: a profile returned by load_profile carries the user id, the user
    name and the four speaking characteristics of the record in the file,
    has no energy levels, no pitch contour and an empty emotion profile,
    is dated by the clock at load time, and is stored under its own user
    id; every other user's profile and every file is untouched. *)
Theorem load_profile_success (R : Type) (N : PyNum R) (now : nat -> string)
    (st : State R) (profile_path : string) (p : VoiceProfile R)
    (st' : State R) :
  PersonalizationEngine.load_profile now st profile_path = (Some p, st') ->
  exists d : ProfileDict R,
    (files st !! profile_path = Some (JsonText d)
     \/ files st !! profile_path = Some (YamlText d))
    /\ user_id p = d_user_id d
    /\ user_name p = d_user_name d
    /\ speaking_rate_wpm p
       = c_speaking_rate_wpm (d_speaking_characteristics d)
    /\ average_pause_duration p
       = c_average_pause_duration (d_speaking_characteristics d)
    /\ mean_pitch p = c_mean_pitch (d_speaking_characteristics d)
    /\ pitch_range p = c_pitch_range (d_speaking_characteristics d)
    /\ energy_levels p = None
    /\ pitch_contour p = None
    /\ emotion_profile p = None
    /\ created_date p = now (clock_reads st)
    /\ last_updated p = now (S (clock_reads st))
    /\ voice_profiles st' !! user_id p = Some p
    /\ (forall other : string, other <> user_id p ->
          voice_profiles st' !! other = voice_profiles st !! other)
    /\ files st' = files st.
Proof.
  unfold PersonalizationEngine.load_profile,
    PersonalizationEngine.load_profile_try.
  destruct (files st !! profile_path) as [f|]; [|discriminate].
  assert (Hdone : forall d : ProfileDict R,
            (Some f = Some (JsonText d) \/ Some f = Some (YamlText d)) ->
            forall q st1,
              (let profile :=
                 PersonalizationEngine.VoiceProfile_init now (clock_reads st)
                   (d_user_id d) (d_user_name d) in
               let sc := d_speaking_characteristics d in
               let profile :=
                 {| user_id := user_id profile;
                    user_name := user_name profile;
                    created_date := created_date profile;
                    last_updated := last_updated profile;
                    speaking_rate_wpm := c_speaking_rate_wpm sc;
                    average_pause_duration := c_average_pause_duration sc;
                    mean_pitch := c_mean_pitch sc;
                    pitch_range := c_pitch_range sc;
                    emotion_profile := emotion_profile profile;
                    energy_levels := energy_levels profile;
                    pitch_contour := pitch_contour profile |} in
               (Some profile,
                {| voice_profiles :=
                     <[user_id profile := profile]> (voice_profiles st);
                   files := files st;
                   clock_reads := S (S (clock_reads st)) |}))
              = (Some q, st1) ->
              exists d0 : ProfileDict R,
                (Some f = Some (JsonText d0) \/ Some f = Some (YamlText d0))
                /\ user_id q = d_user_id d0
                /\ user_name q = d_user_name d0
                /\ speaking_rate_wpm q
                   = c_speaking_rate_wpm (d_speaking_characteristics d0)
                /\ average_pause_duration q
                   = c_average_pause_duration (d_speaking_characteristics d0)
                /\ mean_pitch q = c_mean_pitch (d_speaking_characteristics d0)
                /\ pitch_range q
                   = c_pitch_range (d_speaking_characteristics d0)
                /\ energy_levels q = None
                /\ pitch_contour q = None
                /\ emotion_profile q = None
                /\ created_date q = now (clock_reads st)
                /\ last_updated q = now (S (clock_reads st))
                /\ voice_profiles st1 !! user_id q = Some q
                /\ (forall other : string, other <> user_id q ->
                      voice_profiles st1 !! other = voice_profiles st !! other)
                /\ files st1 = files st).
  { intros d Hd q st1. cbv zeta. intros [= <- <-]. exists d.
    cbn [user_id user_name speaking_rate_wpm average_pause_duration
         mean_pitch pitch_range energy_levels pitch_contour emotion_profile
         created_date last_updated voice_profiles files
         PersonalizationEngine.VoiceProfile_init].
    split; [exact Hd|]. repeat (split; [reflexivity|]).
    split; [apply lookup_insert_eq|]. split; [|reflexivity].
    intros other Hother. apply lookup_insert_ne. congruence. }
  destruct (ends_with profile_path ".json").
  - destruct f as [d|d|]; cbn [json_load bind]; try discriminate.
    apply (Hdone d). left. reflexivity.
  - destruct (ends_with profile_path ".yaml"); [|discriminate].
    destruct f as [d|d|]; cbn [yaml_safe_load bind]; try discriminate.
    + apply (Hdone d). left. reflexivity.
    + destruct (has_python_tag d); cbn [bind]; [discriminate|].
      apply (Hdone d). right. reflexivity.
Qed.

Lemma load_profile_success_witness :
  exists (p : VoiceProfile Q) (st' : State Q),
    PersonalizationEngine.load_profile example_clock example_saved
      "profiles/user1_profile.json" = (Some p, st')
    /\ energy_levels p = None
    /\ created_date p = example_clock 2
    /\ files st' = files example_saved.
Proof.
  assert (E : exists (p : VoiceProfile Q) (st' : State Q),
             PersonalizationEngine.load_profile example_clock example_saved
               "profiles/user1_profile.json" = (Some p, st')).
  { eexists _, _. vm_compute. reflexivity. }
  destruct E as (p & st' & E). exists p, st'.
  split; [exact E|].
  destruct (load_profile_success Q _ example_clock example_saved
              "profiles/user1_profile.json" p st' E)
    as (d & _ & _ & _ & _ & _ & _ & _ & Henergy & _ & _ & Hdate & _ & _ & _
        & Hfiles).
  split; [exact Henergy|]. split; [exact Hdate|exact Hfiles].
Defined.

(** ** Saving as YAML, and saving twice *)

Lemma string_length_append (a b : string) :
  String.length (a +:+ b) = (String.length a + String.length b)%nat.
Proof.
  induction a as [|c a IH]; [reflexivity|].
  change (String.length (String c a +:+ b))
    with (S (String.length (a +:+ b))).
  rewrite IH. reflexivity.
Qed.

(** A suffix shorter than [b] is looked for in [b] only. *)
Lemma ends_with_app_long (a b suffix : string) :
  (String.length suffix < String.length b)%nat ->
  ends_with (a +:+ b) suffix = ends_with b suffix.
Proof.
  intro Hlen. induction a as [|c a IH]; [reflexivity|].
  change (String c a +:+ b) with (String c (a +:+ b)).
  change (ends_with (String c (a +:+ b)) suffix)
    with (if String.eqb (String c (a +:+ b)) suffix then true
          else ends_with (a +:+ b) suffix).
  destruct (String.eqb_spec (String c (a +:+ b)) suffix) as [Heq|_];
    [|exact IH].
  apply (f_equal String.length) in Heq.
  change (String.length (String c (a +:+ b)))
    with (S (String.length (a +:+ b))) in Heq.
  rewrite string_length_append in Heq. lia.
Qed.

Lemma yaml_path_ends_with (dir uid : string) :
  ends_with (path_join dir (uid +:+ "_profile.yaml")) ".json" = false
  /\ ends_with (path_join dir (uid +:+ "_profile.yaml")) ".yaml" = true.
Proof.
  unfold path_join. split.
  - rewrite ends_with_app_long, ends_with_app_long, ends_with_app_long;
      [reflexivity | | |];
      rewrite ?string_length_append; cbn [String.length]; lia.
  - repeat apply ends_with_app. reflexivity.
Qed.

(** X7: a stored profile whose pitch_range is a tuple, as every profile
    built by create_voice_profile has, is written by save_profile in yaml
    format, but load_profile on the file written returns None and leaves
    the engine as it was after the save. *)
Theorem yaml_tuple_does_not_load (R : Type) (N : PyNum R)
    (now : nat -> string) (st : State R) (uid output_dir : string)
    (p : VoiceProfile R) (items : list R) :
  voice_profiles st !! uid = Some p ->
  pitch_range p = Some (PyTuple, items) ->
  exists (path : string) (st1 : State R),
    PersonalizationEngine.save_profile st uid output_dir "yaml"
    = (Some path, st1)
    /\ files st1 !! path = Some (YamlText (PersonalizationEngine.to_dict p))
    /\ PersonalizationEngine.load_profile now st1 path = (None, st1).
Proof.
  intros Hp Hrange. unfold PersonalizationEngine.save_profile.
  rewrite Hp. cbn [String.eqb Ascii.eqb Bool.eqb].
  eexists _, _. split; [reflexivity|]. cbn [files].
  split; [apply lookup_insert_eq|].
  unfold PersonalizationEngine.load_profile,
    PersonalizationEngine.load_profile_try.
  cbn [files]. rewrite lookup_insert_eq.
  destruct (yaml_path_ends_with output_dir uid) as [-> ->].
  unfold PersonalizationEngine.save_yaml, yaml_dump, yaml_safe_load,
    has_python_tag, PersonalizationEngine.to_dict.
  cbn [c_pitch_range d_speaking_characteristics]. rewrite Hrange.
  reflexivity.
Qed.

Lemma yaml_tuple_does_not_load_witness :
  exists (path : string) (st1 : State Q),
    PersonalizationEngine.save_profile example_state "user1" "profiles"
      "yaml" = (Some path, st1)
    /\ PersonalizationEngine.load_profile example_clock st1 path
       = (None, st1).
Proof.
  destruct (yaml_tuple_does_not_load Q _ example_clock example_state "user1"
              "profiles" example_profile [80%Q; 250%Q] eq_refl eq_refl)
    as (path & st1 & Hsave & _ & Hload).
  exists path, st1. split; [exact Hsave|exact Hload].
Defined.

Section JsonAgain.
Context {R : Type} `{PyNum R}.
Variable now : nat -> string.

(** Saving as JSON and loading, in one step. *)
Lemma save_load_json (st : State R) (uid output_dir : string)
    (p : VoiceProfile R) :
  voice_profiles st !! uid = Some p ->
  let path := path_join output_dir (uid +:+ "_profile.json") in
  let p' :=
    {| user_id := user_id p; user_name := user_name p;
       created_date := now (clock_reads st);
       last_updated := now (S (clock_reads st));
       speaking_rate_wpm := speaking_rate_wpm p;
       average_pause_duration := average_pause_duration p;
       mean_pitch := mean_pitch p;
       pitch_range := as_list (pitch_range p);
       emotion_profile := None; energy_levels := None;
       pitch_contour := None |} in
  let st1 :=
    {| voice_profiles := voice_profiles st;
       files := <[path := PersonalizationEngine.save_json p]> (files st);
       clock_reads := clock_reads st |} in
  PersonalizationEngine.save_profile st uid output_dir "json"
  = (Some path, st1)
  /\ PersonalizationEngine.load_profile now st1 path
     = (Some p',
        {| voice_profiles := <[user_id p := p']> (voice_profiles st);
           files := files st1;
           clock_reads := S (S (clock_reads st)) |}).
Proof.
  intros Hp path p' st1. subst st1 p'.
  unfold PersonalizationEngine.save_profile. rewrite Hp.
  cbn [String.eqb Ascii.eqb Bool.eqb]. fold path.
  split; [reflexivity|].
  unfold PersonalizationEngine.load_profile,
    PersonalizationEngine.load_profile_try.
  cbn [files]. rewrite lookup_insert_eq.
  unfold path. rewrite json_path_ends_with. reflexivity.
Qed.
End JsonAgain.

(** X8: the JSON round trip loses nothing the second time: after a stored
    profile has been saved as JSON and loaded, saving the loaded profile
    (stored under its user id) as JSON again and loading it gives a
    profile with the same user id, user name, speaking rate, average
    pause duration, mean pitch and pitch range, the same empty emotion
    profile and absent energy levels and pitch contour; only the two
    dates differ, being read from the clock again. *)
Theorem json_round_trip_twice (R : Type) (N : PyNum R) (now : nat -> string)
    (st : State R) (uid output_dir output_dir2 : string)
    (p : VoiceProfile R) :
  voice_profiles st !! uid = Some p ->
  exists (path : string) (st1 : State R) (p1 : VoiceProfile R)
         (st2 : State R) (path2 : string) (st3 : State R)
         (p2 : VoiceProfile R) (st4 : State R),
    PersonalizationEngine.save_profile st uid output_dir "json"
    = (Some path, st1)
    /\ PersonalizationEngine.load_profile now st1 path = (Some p1, st2)
    /\ PersonalizationEngine.save_profile st2 (user_id p1) output_dir2 "json"
       = (Some path2, st3)
    /\ PersonalizationEngine.load_profile now st3 path2 = (Some p2, st4)
    /\ user_id p2 = user_id p1
    /\ user_name p2 = user_name p1
    /\ speaking_rate_wpm p2 = speaking_rate_wpm p1
    /\ average_pause_duration p2 = average_pause_duration p1
    /\ mean_pitch p2 = mean_pitch p1
    /\ pitch_range p2 = pitch_range p1
    /\ emotion_profile p2 = emotion_profile p1
    /\ energy_levels p2 = energy_levels p1
    /\ pitch_contour p2 = pitch_contour p1
    /\ created_date p2 = now (S (S (clock_reads st)))
    /\ last_updated p2 = now (S (S (S (clock_reads st)))).
Proof.
  intro Hp.
  destruct (save_load_json now st uid output_dir p Hp) as [Hsave Hload].
  cbv zeta in Hsave, Hload.
  eexists _, _, _, _. eexists _, _, _, _.
  split; [exact Hsave|]. split; [exact Hload|].
  cbn [user_id].
  match goal with
  | |- PersonalizationEngine.save_profile ?s ?u _ _ = _ /\ _ =>
      assert (Hp1 : voice_profiles s !! u
                    = Some {| user_id := user_id p; user_name := user_name p;
                              created_date := now (clock_reads st);
                              last_updated := now (S (clock_reads st));
                              speaking_rate_wpm := speaking_rate_wpm p;
                              average_pause_duration :=
                                average_pause_duration p;
                              mean_pitch := mean_pitch p;
                              pitch_range := as_list (pitch_range p);
                              emotion_profile := None;
                              energy_levels := None;
                              pitch_contour := None |})
        by (cbn [voice_profiles]; apply lookup_insert_eq);
      destruct (save_load_json now s u output_dir2 _ Hp1) as [Hsave2 Hload2]
  end.
  cbv zeta in Hsave2, Hload2.
  split; [exact Hsave2|]. split; [exact Hload2|].
  cbn [user_id user_name speaking_rate_wpm average_pause_duration mean_pitch
       pitch_range emotion_profile energy_levels pitch_contour created_date
       last_updated clock_reads].
  repeat split. destruct (pitch_range p) as [[k items]|]; reflexivity.
Qed.

Lemma json_round_trip_twice_witness :
  exists (path : string) (st1 : State Q) (p1 : VoiceProfile Q)
         (st2 : State Q) (path2 : string) (st3 : State Q)
         (p2 : VoiceProfile Q) (st4 : State Q),
    PersonalizationEngine.save_profile example_state "user1" "profiles"
      "json" = (Some path, st1)
    /\ PersonalizationEngine.load_profile example_clock st1 path
       = (Some p1, st2)
    /\ PersonalizationEngine.save_profile st2 (user_id p1) "again" "json"
       = (Some path2, st3)
    /\ PersonalizationEngine.load_profile example_clock st3 path2
       = (Some p2, st4)
    /\ pitch_range p2 = pitch_range p1
    /\ mean_pitch p2 = mean_pitch p1.
Proof.
  destruct (json_round_trip_twice Q _ example_clock example_state "user1"
              "profiles" "again" example_profile eq_refl)
    as (path & st1 & p1 & st2 & path2 & st3 & p2 & st4 & Hs1 & Hl1 & Hs2
        & Hl2 & _ & _ & _ & _ & Hmp & Hpr & _).
  exists path, st1, p1, st2, path2, st3, p2, st4.
  repeat (split; [assumption|]). exact Hmp.
Defined.

(** ** The whole run *)




(** * Further properties of the feature extractor *)

(** ** Order and number of the pauses *)

Lemma in_order_weaken (lo lo' : nat) (l : list (nat * nat)) :
  (lo' <= lo)%nat -> in_order lo l -> in_order lo' l.
Proof.
  destruct l as [|[a b] l]; [trivial|].
  cbn. intros Hle (Ha & Hab & Hrest). repeat split; [lia|exact Hab|exact Hrest].
Qed.

Lemma intervals_from_in_order (flags : list bool) :
  forall i : nat,
    in_order i (intervals_from flags i None)
    /\ (forall s : nat, (s < i)%nat ->
          in_order s (intervals_from flags i (Some s))
          /\ match intervals_from flags i (Some s) with
             | [] => True
             | (a, b) :: _ => a = s /\ (i <= b)%nat
             end).
Proof.
  induction flags as [|p rest IH]; intro i; [cbn; auto|].
  destruct (IH (S i)) as [IHnone IHsome].
  split.
  - destruct p; cbn [intervals_from].
    + destruct (IHsome i ltac:(lia)) as [Hord _]. exact Hord.
    + apply (in_order_weaken (S i)); [lia|exact IHnone].
  - intros s Hs. destruct p; cbn [intervals_from].
    + destruct (IHsome s ltac:(lia)) as [Hord Hhead].
      split; [exact Hord|].
      destruct (intervals_from rest (S i) (Some s)) as [|[a b] l];
        [trivial|]. destruct Hhead as [-> Hb]. split; [reflexivity|lia].
    + cbn [in_order]. split; [|split; [reflexivity|lia]].
      split; [lia|]. split; [exact Hs|].
      exact IHnone.
Qed.

Lemma intervals_from_count (flags : list bool) :
  forall (i : nat) (opened : option nat),
    (2 * length (intervals_from flags i opened)
     <= length flags + match opened with Some _ => 1 | None => 0 end)%nat.
Proof.
  induction flags as [|p rest IH]; intros i opened.
  - cbn. lia.
  - destruct opened as [a|]; destruct p; cbn [intervals_from length].
    + specialize (IH (S i) (Some a)). cbn in IH. lia.
    + specialize (IH (S i) None). cbn in IH. lia.
    + specialize (IH (S i) (Some i)). cbn in IH. lia.
    + specialize (IH (S i) None). cbn in IH. lia.
Qed.

(** What a run of [extract_pauses] that returns has computed. *)
Lemma extract_pauses_inversion (R : Type) (N : PyNum R) (sr : Z)
    (audio energy : list R) (p : Z) (durations : list R) :
  FeatureExtractor.extract_pauses sr audio energy p = Ok durations ->
  exists threshold : R,
    np_percentile energy p = Ok threshold
    /\ durations
       = map (duration_of (frames_to_time sr 512))
             (pause_intervals (map (fun e => (e <? threshold)%py) energy)).
Proof.
  unfold FeatureExtractor.extract_pauses.
  destruct (np_percentile energy p) as [threshold|exn]; cbn [bind];
    [|discriminate].
  intros [= <-]. exists threshold. split; [reflexivity|].
  exact (proj1 (pause_loop_intervals (frames_to_time sr 512) _ 0%nat [])
               (of_Z 0)).
Qed.

(** X10: in every arithmetic, when extract_pauses returns, it returns one
    duration per recorded pause, there are at most half as many pauses as
    energy frames, and the pauses are in time order and apart: each one
    closes at a later frame than it opens and the next one opens at a
    later frame still. *)
Theorem extract_pauses_count_and_order (R : Type) (N : PyNum R) (sr : Z)
    (audio energy : list R) (p : Z) (durations : list R) :
  FeatureExtractor.extract_pauses sr audio energy p = Ok durations ->
  exists (threshold : R) (pauses : list (nat * nat)),
    np_percentile energy p = Ok threshold
    /\ pauses = pause_intervals (map (fun e => (e <? threshold)%py) energy)
    /\ durations = map (duration_of (frames_to_time sr 512)) pauses
    /\ length durations = length pauses
    /\ (2 * length durations <= length energy)%nat
    /\ in_order 0 pauses.
Proof.
  intro Hrun.
  destruct (extract_pauses_inversion R N sr audio energy p durations Hrun)
    as (threshold & Hthr & ->).
  exists threshold, (pause_intervals
                       (map (fun e => (e <? threshold)%py) energy)).
  split; [exact Hthr|]. split; [reflexivity|]. split; [reflexivity|].
  rewrite length_map. split; [reflexivity|]. split.
  - pose proof (intervals_from_count
                  (map (fun e => (e <? threshold)%py) energy) 0 None) as Hc.
    rewrite length_map in Hc. unfold pause_intervals. lia.
  - apply intervals_from_in_order.
Qed.

Lemma extract_pauses_count_and_order_witness :
  exists durations : list Q,
    FeatureExtractor.extract_pauses 22050 []
      [-20; -60; -60; -20; -25; -70; -20]%Q 25 = Ok durations
    /\ (2 * length durations <= 7)%nat.
Proof.
  eexists.
  match goal with
  | |- ?A /\ _ => assert (E : A) by (vm_compute; reflexivity)
  end.
  split; [exact E|].
  destruct (extract_pauses_count_and_order Q _ _ _ _ _ _ E)
    as (threshold & pauses & _ & _ & _ & _ & Hcount & _).
  exact Hcount.
Defined.

(** ** Total pause time *)

Lemma fold_left_Qplus (l : list Q) (x : Q) :
  (fold_left Qplus l x == x + fold_left Qplus l 0)%Q.
Proof.
  revert x. induction l as [|y l IH]; intro x; cbn [fold_left].
  - ring.
  - rewrite (IH (x + y)%Q), (IH (0 + y)%Q). ring.
Qed.

Lemma py_sum_cons_Q (x : Q) (l : list Q) :
  (py_sum (x :: l) == x + py_sum l)%Q.
Proof.
  unfold py_sum. cbn [fold_left of_Z nadd Q_num].
  rewrite fold_left_Qplus. change (inject_Z 0) with 0%Q. ring.
Qed.

Lemma py_sum_nonneg_Q (l : list Q) :
  (forall x, In x l -> (0 <= x)%Q) -> (0 <= py_sum l)%Q.
Proof.
  induction l as [|x l IH]; intro Hall; [discriminate|].
  rewrite py_sum_cons_Q.
  assert (0 <= x)%Q by (apply Hall; left; reflexivity).
  assert (0 <= py_sum l)%Q by (apply IH; intros y Hy; apply Hall; right;
                               exact Hy).
  lra.
Qed.

(** Pauses in order, all closed by frame [m], take no more time than
    there is between frame [lo] and frame [m]. *)
Lemma in_order_total (sr : Z) (m : nat) (l : list (nat * nat)) :
  0 < sr ->
  forall lo : nat,
    in_order lo l ->
    (forall a b, In (a, b) l -> (b <= m)%nat) ->
    (py_sum (map (duration_of (frames_to_time (R := Q) sr 512)) l)
     <= frames_to_time sr 512 (Nat.max m lo) - frames_to_time sr 512 lo)%Q.
Proof.
  intro Hsr. induction l as [|[a b] l IH]; intros lo Hord Hm.
  - change (py_sum (map _ [])) with (inject_Z 0). change (inject_Z 0) with 0%Q.
    pose proof (frames_to_time_mono sr lo (Nat.max m lo) Hsr ltac:(lia)).
    lra.
  - destruct Hord as (Hlo & Hab & Hrest).
    assert (Hb : (b <= m)%nat) by (apply (Hm a b); left; reflexivity).
    cbn [map]. rewrite py_sum_cons_Q.
    specialize (IH (S b) Hrest
                  (fun a' b' H' => Hm a' b' (or_intror H'))).
    unfold duration_of at 1. cbn [fst snd nsub Q_num].
    replace (Nat.max m lo) with m by lia.
    pose proof (frames_to_time_mono sr lo a Hsr Hlo) as H1.
    destruct (Nat.eq_dec b m) as [->|Hne].
    + replace (Nat.max m (S m)) with (S m) in IH by lia. lra.
    + replace (Nat.max m (S b)) with m in IH by lia.
      pose proof (frames_to_time_mono sr b (S b) Hsr ltac:(lia)) as H2.
      lra.
Qed.

(** The durations returned by [extract_pauses], in exact arithmetic with
    a positive sample rate: none is negative and their sum is at most the
    time of the last energy frame. *)
Lemma pause_sum_bounded (sr : Z) (audio energy : list Q) (p : Z)
    (durations : list Q) :
  0 < sr ->
  FeatureExtractor.extract_pauses sr audio energy p = Ok durations ->
  (forall d : Q, In d durations -> (0 <= d)%Q)
  /\ (0 <= py_sum durations
      <= inject_Z (Z.of_nat (length energy - 1)) * 512 / inject_Z sr)%Q.
Proof.
  intros Hsr Hrun.
  destruct (extract_pauses_inversion Q _ sr audio energy p durations
              Hrun) as (threshold & _ & ->).
  set (pauses := pause_intervals
                   (map (fun e => (e <? threshold)%py) energy)).
  assert (Hpauses : pauses = pause_intervals
                      (map (fun e => (e <? threshold)%py) energy))
    by reflexivity.
  assert (Hord : in_order 0 pauses) by apply intervals_from_in_order.
  clearbody pauses.
  assert (Hclosed : forall a b, In (a, b) pauses ->
                                (a < b)%nat /\ (b <= length energy - 1)%nat).
  { intros a b Hab. rewrite Hpauses in Hab.
    apply pause_intervals_spec in Hab. destruct Hab as (Hlt & _ & _ & Hb).
    apply lookup_lt_Some in Hb. rewrite length_map in Hb. lia. }
  assert (Hnonneg : forall d : Q,
            In d (map (duration_of (frames_to_time sr 512)) pauses) ->
            (0 <= d)%Q).
  { intros d Hd. apply in_map_iff in Hd as ([a b] & <- & Hab).
    destruct (Hclosed a b Hab) as [Hlt _].
    pose proof (frames_to_time_mono sr a b Hsr ltac:(lia)) as Hle.
    unfold duration_of. cbn [fst snd nsub Q_num]. lra. }
  split; [exact Hnonneg|].
  split; [apply py_sum_nonneg_Q; exact Hnonneg|].
  pose proof (in_order_total sr (length energy - 1) pauses Hsr 0%nat Hord
                (fun a b H => proj2 (Hclosed a b H))) as Hbound.
  rewrite Nat.max_0_r in Hbound.
  rewrite (frames_to_time_exact sr (length energy - 1)) in Hbound.
  rewrite (frames_to_time_exact sr 0) in Hbound.
  change (inject_Z (Z.of_nat 0)) with 0%Q in Hbound.
  assert (Hz : (0 * 512 / inject_Z sr == 0)%Q) by (unfold Qdiv; ring).
  rewrite Hz in Hbound. lra.
Qed.

Lemma last_frame_nonneg (sr : Z) (n : nat) :
  0 < sr -> (0 <= inject_Z (Z.of_nat n) * 512 / inject_Z sr)%Q.
Proof.
  intro Hsr. unfold Qdiv. apply Qmult_le_0_compat.
  - apply Qmult_le_0_compat; [|discriminate].
    change 0%Q with (inject_Z 0). rewrite <- Zle_Qle. lia.
  - apply Qinv_le_0_compat. change 0%Q with (inject_Z 0).
    rewrite <- Zle_Qle. lia.
Qed.

(** X11: in exact arithmetic with a positive sample rate, every duration
    returned by extract_pauses is non-negative, and together the pauses
    last no longer than the time of the last energy frame, (n-1)*512/sr:
    the pause time that calculate_speaking_rate subtracts lies between 0
    and that bound. *)
Theorem total_pause_time_bounded (sr : Z) (audio energy : list Q) (p : Z)
    (durations : list Q) :
  0 < sr ->
  FeatureExtractor.extract_pauses sr audio energy p = Ok durations ->
  (forall d : Q, In d durations -> (0 <= d)%Q)
  /\ (0 <= FeatureExtractor.total_pause_time durations
      <= inject_Z (Z.of_nat (length energy - 1)) * 512 / inject_Z sr)%Q.
Proof.
  intros Hsr Hrun.
  destruct (pause_sum_bounded sr audio energy p durations Hsr Hrun)
    as [Hnonneg Hsum].
  split; [exact Hnonneg|].
  unfold FeatureExtractor.total_pause_time.
  destruct durations; [|exact Hsum].
  change (of_Z 0) with 0%Q. split; [discriminate|].
  apply last_frame_nonneg. exact Hsr.
Qed.

Lemma total_pause_time_bounded_witness :
  exists durations : list Q,
    FeatureExtractor.extract_pauses 22050 []
      [-20; -60; -60; -20; -25; -70; -20]%Q 25 = Ok durations
    /\ (0 <= FeatureExtractor.total_pause_time durations
        <= inject_Z 6 * 512 / inject_Z 22050)%Q.
Proof.
  eexists.
  match goal with
  | |- ?A /\ _ => assert (E : A) by (vm_compute; reflexivity)
  end.
  split; [exact E|].
  exact (proj2 (total_pause_time_bounded 22050 _ _ _ _ ltac:(lia) E)).
Defined.

(** ** How many frames can be paused *)

Lemma insert_sorted_perm (x : Q) (l : list Q) :
  Permutation (insert_sorted x l) (x :: l).
Proof.
  induction l as [|y l IH]; cbn [insert_sorted]; [reflexivity|].
  destruct (x <=? y)%py; [reflexivity|].
  rewrite IH. apply perm_swap.
Qed.

Lemma np_sort_perm (l : list Q) : Permutation (np_sort l) l.
Proof.
  induction l as [|x l IH]; [reflexivity|].
  unfold np_sort in *. cbn [fold_right].
  rewrite insert_sorted_perm, IH. reflexivity.
Qed.

Lemma insert_sorted_sorted (x : Q) (l : list Q) :
  StronglySorted Qle l -> StronglySorted Qle (insert_sorted x l).
Proof.
  induction l as [|y l IH]; intro Hsorted; cbn [insert_sorted].
  - constructor; constructor.
  - apply StronglySorted_inv in Hsorted as [Hl Hy].
    cbn [nleb Q_num]. destruct (Qle_bool x y) eqn:Hxy.
    + apply Qle_bool_iff in Hxy. constructor.
      * constructor; assumption.
      * constructor; [exact Hxy|].
        eapply Forall_impl; [exact Hy|]. intros z Hz. cbv beta in Hz. lra.
    + assert (Hyx : (y <= x)%Q).
      { apply Qnot_lt_le. intro Hlt. apply Qlt_le_weak in Hlt.
        apply Qle_bool_iff in Hlt. congruence. }
      constructor; [apply IH; exact Hl|].
      rewrite insert_sorted_perm. constructor; assumption.
Qed.

Lemma np_sort_sorted (l : list Q) : StronglySorted Qle (np_sort l).
Proof.
  induction l as [|x l IH]; [constructor|].
  unfold np_sort in *. cbn [fold_right].
  apply insert_sorted_sorted. exact IH.
Qed.

(** In a sorted array fewer than [k + 1] entries lie below the entry of
    index [k]. *)
Lemma below_sorted (s : list Q) :
  StronglySorted Qle s ->
  forall (k : nat) (d : Q),
    (k < length s)%nat ->
    (length (List.filter (fun e => Qltb e (nth k s d)) s) <= k)%nat.
Proof.
  induction 1 as [|y s Hs IH Hy]; intros k d Hk; [cbn in Hk; lia|].
  destruct k as [|k]; cbn [nth List.filter].
  - assert (Hself : Qltb y y = false) by (apply Qltb_ge; lra).
    rewrite Hself.
    assert (Hnone : List.filter (fun e => Qltb e y) s = []).
    { clear -Hy. induction Hy as [|z s Hz _ IHs]; [reflexivity|].
      cbn [List.filter]. rewrite (proj2 (Qltb_ge z y) Hz). exact IHs. }
    rewrite Hnone. cbn. lia.
  - cbn [length] in Hk. specialize (IH k d ltac:(lia)).
    destruct (Qltb y (nth k s d)); cbn [length]; lia.
Qed.

Lemma sorted_nth_le (s : list Q) :
  StronglySorted Qle s ->
  forall (i j : nat) (d : Q),
    (i <= j)%nat -> (j < length s)%nat -> (nth i s d <= nth j s d)%Q.
Proof.
  induction 1 as [|y s Hs IH Hy]; intros i j d Hij Hj; [cbn in Hj; lia|].
  cbn [length] in Hj. destruct j as [|j].
  - replace i with 0%nat by lia. cbn [nth]. lra.
  - destruct i as [|i]; cbn [nth].
    + rewrite List.Forall_forall in Hy. apply Hy. apply nth_In. lia.
    + apply IH; lia.
Qed.

Lemma filter_length_perm {A : Type} (f : A -> bool) (l l' : list A) :
  Permutation l l' ->
  length (List.filter f l) = length (List.filter f l').
Proof.
  induction 1 as [|x l l' _ IH|x y l|l l' l'' _ IH1 _ IH2];
    cbn [List.filter].
  - reflexivity.
  - destruct (f x); cbn [length]; lia.
  - destruct (f x), (f y); reflexivity.
  - lia.
Qed.

Lemma filter_length_below (t t' : Q) (l : list Q) :
  (t <= t')%Q ->
  (length (List.filter (fun e => Qltb e t) l)
   <= length (List.filter (fun e => Qltb e t') l))%nat.
Proof.
  intro Ht. induction l as [|x l IH]; [reflexivity|].
  cbn [List.filter].
  destruct (Qltb x t) eqn:Hx.
  - assert (Hx' : Qltb x t' = true)
      by (apply Qltb_lt; apply Qltb_lt in Hx; lra).
    rewrite Hx'. cbn [length]. lia.
  - destruct (Qltb x t'); cbn [length]; lia.
Qed.

(** The interpolation stays between the two neighbours. *)
Lemma np_lerp_between (a b : Q) (g : Z) :
  (a <= b)%Q -> 0 <= g < 100 -> (a <= np_lerp a b g <= b)%Q.
Proof.
  intros Hab Hg. unfold np_lerp, lit. cbn [of_Z nadd nsub nmul ndiv Q_num].
  set (t := (inject_Z g / inject_Z 100)%Q).
  assert (Ht : (0 <= t <= 1)%Q).
  { subst t. unfold Qdiv. change (/ inject_Z 100)%Q with (1 # 100)%Q. split.
    - apply Qmult_le_0_compat; [|discriminate].
      change 0%Q with (inject_Z 0). rewrite <- Zle_Qle. lia.
    - assert (Hle : (inject_Z g <= 100)%Q).
      { change 100%Q with (inject_Z 100). rewrite <- Zle_Qle. lia. }
      lra. }
  clearbody t. change (inject_Z 1) with 1%Q.
  destruct (g <? 50); nra.
Qed.

(** The threshold of [np.percentile], in exact arithmetic, for a
    percentage between 0 and 100: fewer than all the entries, and no more
    than the whole part of [(n - 1) * q / 100] plus one, lie strictly
    below it. *)
Lemma percentile_below (a : list Q) (q : Z) (threshold : Q) :
  0 <= q <= 100 ->
  np_percentile a q = Ok threshold ->
  let below := length (List.filter (fun e => Qltb e threshold) a) in
  (below <= Z.to_nat ((Z.of_nat (length a) - 1) * q / 100) + 1)%nat
  /\ (below < length a)%nat.
Proof.
  intros Hq Hrun below. subst below.
  destruct a as [|x rest]; [discriminate|].
  set (a := x :: rest) in *.
  set (n := length a).
  assert (Hn : (1 <= n)%nat) by (subst n a; cbn [length]; lia).
  set (v := (Z.of_nat n - 1) * q).
  assert (Hv : 0 <= v) by (subst v; nia).
  set (lo := Z.to_nat (v / 100)).
  assert (Hlo : (lo <= n - 1)%nat).
  { assert (v / 100 <= Z.of_nat n - 1).
    { apply Z.div_le_upper_bound; [lia|]. subst v. nia. }
    subst lo. lia. }
  set (hi := Nat.min (S lo) (n - 1)).
  assert (Hthreshold : threshold
                       = np_lerp (nth lo (np_sort a) x) (nth hi (np_sort a) x)
                                 (v mod 100))
    by (symmetry; apply Ok_inj; exact Hrun).
  assert (Hsorted := np_sort_sorted a).
  assert (Hperm := np_sort_perm a).
  assert (Hlen : length (np_sort a) = n)
    by (subst n; apply Permutation_length; exact Hperm).
  assert (Hhi : (hi < length (np_sort a))%nat) by (subst hi; lia).
  assert (Hle : (nth lo (np_sort a) x <= nth hi (np_sort a) x)%Q)
    by (apply sorted_nth_le; [exact Hsorted|subst hi; lia|exact Hhi]).
  destruct (np_lerp_between _ _ (v mod 100) Hle
              ltac:(apply Z.mod_pos_bound; lia)) as [_ Hthr].
  rewrite <- Hthreshold in Hthr.
  pose proof (filter_length_below _ _ a Hthr) as Hmono.
  rewrite (filter_length_perm (fun e => Qltb e (nth hi (np_sort a) x))
             a (np_sort a)) in Hmono by (symmetry; exact Hperm).
  pose proof (below_sorted (np_sort a) Hsorted hi x Hhi) as Hcount.
  fold n. fold v. fold lo. subst hi. split; lia.
Qed.

(** Every recorded pause starts at a paused frame of its own. *)
Lemma intervals_from_paused (flags : list bool) :
  forall (i : nat) (opened : option nat),
    (length (intervals_from flags i opened)
     <= length (List.filter (fun b => b) flags)
        + match opened with Some _ => 1 | None => 0 end)%nat.
Proof.
  induction flags as [|b rest IH]; intros i opened.
  - cbn. lia.
  - destruct opened as [a|]; destruct b;
      cbn [intervals_from List.filter length].
    + specialize (IH (S i) (Some a)). cbn in IH. lia.
    + specialize (IH (S i) None). cbn in IH. lia.
    + specialize (IH (S i) (Some i)). cbn in IH. lia.
    + specialize (IH (S i) None). cbn in IH. lia.
Qed.

Lemma filter_map_length {A : Type} (f : A -> bool) (l : list A) :
  length (List.filter (fun b => b) (map f l)) = length (List.filter f l).
Proof.
  induction l as [|x l IH]; [reflexivity|].
  cbn [map List.filter]. destruct (f x); cbn [length]; lia.
Qed.

(** X12: in exact arithmetic, for a percentile between 0 and 100 (the
    code uses 25), when extract_pauses returns, the number of frames
    below the threshold is at most the whole part of (n - 1) * p / 100
    plus one, where n is the number of energy frames; at least one frame
    is not below it; and there are no more pauses than frames below the
    threshold. *)
Theorem paused_frames_bounded (sr : Z) (audio energy : list Q) (p : Z)
    (durations : list Q) :
  0 <= p <= 100 ->
  FeatureExtractor.extract_pauses sr audio energy p = Ok durations ->
  exists threshold : Q,
    np_percentile energy p = Ok threshold
    /\ let paused :=
         length (List.filter (fun e => (e <? threshold)%py) energy) in
       (paused <= Z.to_nat ((Z.of_nat (length energy) - 1) * p / 100) + 1)%nat
       /\ (paused < length energy)%nat
       /\ (length durations <= paused)%nat.
Proof.
  intros Hp Hrun.
  destruct (extract_pauses_inversion Q _ sr audio energy p durations Hrun)
    as (threshold & Hthr & ->).
  exists threshold. split; [exact Hthr|]. cbv zeta.
  destruct (percentile_below energy p threshold Hp Hthr) as [Hcount Hless].
  split; [exact Hcount|]. split; [exact Hless|].
  rewrite length_map. unfold pause_intervals.
  pose proof (intervals_from_paused
                (map (fun e => (e <? threshold)%py) energy) 0 None) as Hn.
  rewrite filter_map_length in Hn. lia.
Qed.

Lemma paused_frames_bounded_witness :
  exists (durations : list Q) (threshold : Q),
    FeatureExtractor.extract_pauses 22050 []
      [-20; -60; -60; -20; -25; -70; -20]%Q 25 = Ok durations
    /\ np_percentile [-20; -60; -60; -20; -25; -70; -20]%Q 25 = Ok threshold
    /\ (length (List.filter (fun e => (e <? threshold)%py)
                  [-20; -60; -60; -20; -25; -70; -20]%Q) <= 2)%nat
    /\ (length durations
        <= length (List.filter (fun e => (e <? threshold)%py)
                     [-20; -60; -60; -20; -25; -70; -20]%Q))%nat.
Proof.
  eexists.
  match goal with
  | |- exists t, ?A /\ _ => assert (E : A) by (vm_compute; reflexivity)
  end.
  destruct (paused_frames_bounded 22050 _ _ 25 _ ltac:(lia) E)
    as (threshold & Hthr & Hcount & _ & Hpauses).
  exists threshold. split; [exact E|]. split; [exact Hthr|].
  split; [exact Hcount|exact Hpauses].
Defined.

(** ** The whole extraction *)

Section AllFeatures.
Context {R : Type} {N : PyNum R}.
Variable lib : Collaborators R.
Variable sr : Z.

(** What a run of [extract_all_features] that returns patterns has
    computed. *)
Lemma extract_all_features_inversion (audio : list R)
    (patterns : SpeakingPatterns R) :
  FeatureExtractor.extract_all_features lib sr audio = Ok (Some patterns) ->
  exists (energy f0 : list R) (voiced_flag : list bool) (pauses : list R)
         (wpm : R),
    frame_log_energy lib sr audio = Ok energy
    /\ pyin lib audio = Ok (f0, voiced_flag)
    /\ mask_select f0 voiced_flag <> []
    /\ FeatureExtractor.extract_pauses sr audio energy 25 = Ok pauses
    /\ FeatureExtractor.calculate_speaking_rate sr audio energy pauses
       = Ok wpm
    /\ patterns
       = {| sp_speaking_rate_wpm := wpm;
            sp_average_pause_duration :=
              match pauses with [] => of_Z 0 | _ => np_mean pauses end;
            sp_energy_levels := energy;
            sp_pitch_contour := mask_select f0 voiced_flag;
            sp_mean_pitch := np_nanmean lib (mask_select f0 voiced_flag);
            sp_pitch_range :=
              (np_nanmin lib (mask_select f0 voiced_flag),
               np_nanmax lib (mask_select f0 voiced_flag)) |}.
Proof.
  unfold FeatureExtractor.extract_all_features,
    FeatureExtractor.extract_energy, FeatureExtractor.extract_pitch.
  destruct (frame_log_energy lib sr audio) as [energy|exn]; cbn [bind];
    [|discriminate].
  destruct (pyin lib audio) as [[f0 voiced_flag]|exn]; cbn [bind];
    [|discriminate].
  destruct (mask_select f0 voiced_flag) as [|v voiced] eqn:Hvoiced;
    cbn [length Nat.eqb bind]; [discriminate|].
  destruct (FeatureExtractor.extract_pauses sr audio energy 25)
    as [pauses|exn] eqn:Hpauses; cbn [bind]; [|discriminate].
  destruct (FeatureExtractor.calculate_speaking_rate sr audio energy pauses)
    as [wpm|exn] eqn:Hrate; cbn [bind]; [|discriminate].
  intros [= <-]. exists energy, f0, voiced_flag, pauses, wpm.
  rewrite Hvoiced.
  split; [reflexivity|]. split; [reflexivity|]. split; [discriminate|].
  split; [exact Hpauses|]. split; [exact Hrate|reflexivity].
Qed.
End AllFeatures.

(** X13: extract_all_features runs its steps in order.  An error of the
    energy extraction is raised whatever the pitch tracker would do, an
    error of the pitch tracker is raised next, and once both have
    succeeded, with voiced frames, at least one energy frame and a
    non-zero sample rate, nothing after them fails: the patterns returned
    hold the energy frames and voiced pitch values as they came, the
    tracker's mean, minimum and maximum pitch, the speaking rate of the
    pauses found at the 25th percentile, and the mean of those pauses or 0
    when there is none.  Whenever patterns are returned, there was at
    least one energy frame and one voiced frame and the sample rate was
    not zero. *)
Theorem extract_all_features_outcome (R : Type) (N : PyNum R)
    (lib : Collaborators R) (sr : Z) (audio : list R) :
  (forall exn : string,
      frame_log_energy lib sr audio = Raised exn ->
      FeatureExtractor.extract_all_features lib sr audio = Raised exn)
  /\ (forall (energy : list R) (exn : string),
        frame_log_energy lib sr audio = Ok energy ->
        pyin lib audio = Raised exn ->
        FeatureExtractor.extract_all_features lib sr audio = Raised exn)
  /\ (forall (energy f0 : list R) (voiced_flag : list bool),
        frame_log_energy lib sr audio = Ok energy ->
        pyin lib audio = Ok (f0, voiced_flag) ->
        mask_select f0 voiced_flag <> [] ->
        energy <> [] ->
        sr <> 0 ->
        exists (pauses : list R) (wpm : R),
          FeatureExtractor.extract_pauses sr audio energy 25 = Ok pauses
          /\ FeatureExtractor.calculate_speaking_rate sr audio energy pauses
             = Ok wpm
          /\ FeatureExtractor.extract_all_features lib sr audio
             = Ok (Some {|
                 sp_speaking_rate_wpm := wpm;
                 sp_average_pause_duration :=
                   match pauses with [] => of_Z 0 | _ => np_mean pauses end;
                 sp_energy_levels := energy;
                 sp_pitch_contour := mask_select f0 voiced_flag;
                 sp_mean_pitch := np_nanmean lib (mask_select f0 voiced_flag);
                 sp_pitch_range :=
                   (np_nanmin lib (mask_select f0 voiced_flag),
                    np_nanmax lib (mask_select f0 voiced_flag)) |}))
  /\ (forall patterns : SpeakingPatterns R,
        FeatureExtractor.extract_all_features lib sr audio
        = Ok (Some patterns) ->
        sp_energy_levels patterns <> []
        /\ sp_pitch_contour patterns <> []
        /\ sr <> 0).
Proof.
  split; [|split; [|split]].
  - intros exn Henergy.
    unfold FeatureExtractor.extract_all_features,
      FeatureExtractor.extract_energy. rewrite Henergy. reflexivity.
  - intros energy exn Henergy Hpyin.
    unfold FeatureExtractor.extract_all_features,
      FeatureExtractor.extract_energy, FeatureExtractor.extract_pitch.
    rewrite Henergy, Hpyin. reflexivity.
  - intros energy f0 voiced_flag Henergy Hpyin Hvoiced Hframes Hsr.
    unfold FeatureExtractor.extract_all_features,
      FeatureExtractor.extract_energy, FeatureExtractor.extract_pitch.
    rewrite Henergy, Hpyin. cbn [bind].
    destruct (mask_select f0 voiced_flag) as [|v voiced] eqn:Hmask;
      [contradiction|]. cbn [length Nat.eqb bind].
    unfold FeatureExtractor.extract_pauses,
      FeatureExtractor.calculate_speaking_rate.
    destruct energy as [|e energy]; [contradiction|].
    cbn [np_percentile bind].
    apply Z.eqb_neq in Hsr. rewrite Hsr. cbn [bind].
    eexists _, _. repeat split.
  - intros patterns Hrun.
    destruct (extract_all_features_inversion lib sr audio patterns Hrun)
      as (energy & f0 & voiced_flag & pauses & wpm & _ & _ & Hvoiced
          & Hpauses & Hrate & ->).
    cbn [sp_energy_levels sp_pitch_contour].
    split; [|split; [exact Hvoiced|]].
    + intros ->. discriminate Hpauses.
    + intros ->. discriminate Hrate.
Qed.

Lemma extract_all_features_outcome_witness :
  exists (pauses : list Q) (wpm : Q) (patterns : SpeakingPatterns Q),
    FeatureExtractor.extract_pauses 22050 example_audio
      [-20; -60; -20]%Q 25 = Ok pauses
    /\ FeatureExtractor.calculate_speaking_rate 22050 example_audio
         [-20; -60; -20]%Q pauses = Ok wpm
    /\ FeatureExtractor.extract_all_features example_lib 22050 example_audio
       = Ok (Some patterns)
    /\ sp_speaking_rate_wpm patterns = wpm
    /\ sp_pitch_contour patterns = [110; 130]%Q.
Proof.
  destruct (proj1 (proj2 (proj2 (extract_all_features_outcome Q _ example_lib
                                   22050 example_audio)))
              [-20; -60; -20]%Q [110; 0; 130]%Q [true; false; true]
              eq_refl eq_refl ltac:(discriminate) ltac:(discriminate)
              ltac:(lia))
    as (pauses & wpm & Hpauses & Hrate & Hrun).
  exists pauses, wpm. eexists.
  split; [exact Hpauses|]. split; [exact Hrate|]. split; [exact Hrun|].
  split; reflexivity.
Defined.

(** ** Ranges of the extracted patterns *)

(** The mean of non-negative numbers lies between 0 and their sum. *)
Lemma np_mean_le_sum (x : Q) (l : list Q) :
  (0 <= py_sum (x :: l))%Q ->
  (0 <= np_mean (x :: l) <= py_sum (x :: l))%Q.
Proof.
  intro Hsum. unfold np_mean. cbn [of_Z ndiv Q_num].
  set (s := py_sum (x :: l)) in *. clearbody s.
  set (k := inject_Z (Z.of_nat (length (x :: l)))).
  assert (Hk : (1 <= k)%Q).
  { subst k. change 1%Q with (inject_Z 1). rewrite <- Zle_Qle.
    cbn [length]. lia. }
  clearbody k.
  assert (Hinv : (0 < / k)%Q) by (apply Qinv_lt_0_compat; lra).
  assert (Hone : (k * / k == 1)%Q) by (apply Qmult_inv_r; lra).
  unfold Qdiv. split.
  - apply Qmult_le_0_compat; lra.
  - assert (Hle : (s * / k <= s * (k * / k))%Q).
    { rewrite Qmult_assoc. rewrite <- (Qmult_1_l (s * / k)) at 1.
      rewrite (Qmult_comm s k), <- Qmult_assoc.
      apply Qmult_le_compat_r; [exact Hk|].
      apply Qmult_le_0_compat; lra. }
    rewrite Hone, Qmult_1_r in Hle. exact Hle.
Qed.

(** X14: in exact arithmetic with a positive sample rate, for the
    patterns returned by extract_all_features: the average pause duration
    lies between 0 and the time of the last energy frame, (n-1)*512/sr;
    the pauses found take no more than that time, so the speaking time
    that calculate_speaking_rate tests lies between the duration of the
    audio less that time and the duration of the audio; and whenever the
    audio has more than 512*(n-1) samples the speaking time is positive,
    so that the rate is computed by the formula and is not the 0 of the
    other branch. *)
Theorem extracted_patterns_bounds (lib : Collaborators Q) (sr : Z)
    (audio : list Q) (patterns : SpeakingPatterns Q) :
  0 < sr ->
  FeatureExtractor.extract_all_features lib sr audio = Ok (Some patterns) ->
  let frames := length (sp_energy_levels patterns) in
  let last_frame :=
    (inject_Z (Z.of_nat (frames - 1)) * 512 / inject_Z sr)%Q in
  (0 <= sp_average_pause_duration patterns <= last_frame)%Q
  /\ exists pauses : list Q,
       FeatureExtractor.extract_pauses sr audio (sp_energy_levels patterns)
         25 = Ok pauses
       /\ FeatureExtractor.calculate_speaking_rate sr audio
            (sp_energy_levels patterns) pauses
          = Ok (sp_speaking_rate_wpm patterns)
       /\ (FeatureExtractor.total_duration sr audio - last_frame
           <= FeatureExtractor.speaking_time sr audio pauses
           <= FeatureExtractor.total_duration sr audio)%Q
       /\ ((512 * (frames - 1) < length audio)%nat ->
           (FeatureExtractor.speaking_time sr audio pauses >? of_Z 0)%py
           = true).
Proof.
  intros Hsr Hrun frames last_frame. subst frames last_frame.
  destruct (extract_all_features_inversion lib sr audio patterns Hrun)
    as (energy & f0 & voiced_flag & pauses & wpm & _ & _ & _ & Hpauses
        & Hrate & ->).
  cbn [sp_energy_levels sp_speaking_rate_wpm sp_average_pause_duration].
  destruct (pause_sum_bounded sr audio energy 25 pauses Hsr Hpauses)
    as [Hnonneg [Hsum0 Hsum]].
  pose proof (last_frame_nonneg sr (length energy - 1) Hsr) as Hlast.
  assert (Hpause : (0 <= FeatureExtractor.total_pause_time pauses
                    <= inject_Z (Z.of_nat (length energy - 1)) * 512
                       / inject_Z sr)%Q).
  { unfold FeatureExtractor.total_pause_time.
    destruct pauses; [|split; assumption].
    change (of_Z 0) with 0%Q. split; [discriminate|exact Hlast]. }
  split.
  - destruct pauses as [|d pauses].
    + change (of_Z 0) with 0%Q. split; [discriminate|exact Hlast].
    + destruct (np_mean_le_sum d pauses Hsum0) as [Hlo Hhi].
      split; [exact Hlo|lra].
  - exists pauses. split; [exact Hpauses|]. split; [exact Hrate|].
    assert (Hst : (FeatureExtractor.speaking_time sr audio pauses
                   == FeatureExtractor.total_duration sr audio
                      - FeatureExtractor.total_pause_time pauses)%Q)
      by reflexivity.
    split; [rewrite Hst; lra|].
    intro Hlong. apply Qltb_lt. change (of_Z 0) with 0%Q. rewrite Hst.
    assert (Hlen : (inject_Z (Z.of_nat (length energy - 1)) * 512
                    / inject_Z sr
                    < FeatureExtractor.total_duration sr audio)%Q).
    { unfold FeatureExtractor.total_duration. cbn [of_Z ndiv Q_num].
      unfold Qdiv. apply Qmult_lt_compat_r.
      - apply Qinv_lt_0_compat. change 0%Q with (inject_Z 0).
        rewrite <- Zlt_Qlt. exact Hsr.
      - change 512%Q with (inject_Z 512). rewrite <- inject_Z_mult.
        rewrite <- Zlt_Qlt. lia. }
    lra.
Qed.

Lemma extracted_patterns_bounds_witness :
  exists (patterns : SpeakingPatterns Q) (pauses : list Q),
    FeatureExtractor.extract_all_features example_lib 22050 example_audio
    = Ok (Some patterns)
    /\ (0 <= sp_average_pause_duration patterns)%Q
    /\ FeatureExtractor.extract_pauses 22050 example_audio
         (sp_energy_levels patterns) 25 = Ok pauses
    /\ (FeatureExtractor.speaking_time 22050 example_audio pauses
        >? of_Z 0)%py = true.
Proof.
  eexists.
  match goal with
  | |- exists pauses, ?A /\ _ => assert (E : A) by (vm_compute; reflexivity)
  end.
  destruct (extracted_patterns_bounds example_lib 22050 example_audio _
              ltac:(lia) E)
    as ([Hpause _] & pauses & Hpauses & _ & _ & Hpositive).
  exists pauses. split; [exact E|]. split; [exact Hpause|].
  split; [exact Hpauses|].
  apply Hpositive. apply Nat.ltb_lt. vm_compute. reflexivity.
Defined.

(** * Further properties of created profiles *)

(** ** The synthesis parameters of a created profile *)

(** X15: in exact arithmetic with a positive sample rate, the synthesis
    parameters of a profile built by create_voice_profile are in range:
    the pitch and rate adjustments lie between 1/2 and 2, the pause
    duration is the profile's average pause duration and lies between 0
    and the time of the last energy frame, and the energy level is the
    mean of the profile's energy frames, of which there is at least one,
    so that the default level is not used. *)
Theorem created_profile_parameters_in_range (lib : Collaborators Q)
    (sr : Z) (now : nat -> string) (st : State Q)
    (uid uname audio_path : string) (p : VoiceProfile Q) (st' : State Q) :
  0 < sr ->
  PersonalizationEngine.create_voice_profile lib sr now st uid uname
    audio_path = Ok (Some p, st') ->
  exists (params : PersonalizationEngine.SynthesisParameters)
         (pause : Q) (energy : list Q),
    PersonalizationEngine.get_synthesis_parameters st' uid
    = Ok (Some params)
    /\ (1 # 2 <= PersonalizationEngine.pitch_adjust params <= 2)%Q
    /\ (1 # 2 <= PersonalizationEngine.speaking_rate_adjust params <= 2)%Q
    /\ average_pause_duration p = Some pause
    /\ PersonalizationEngine.pause_duration params = Some pause
    /\ (0 <= pause
        <= inject_Z (Z.of_nat (length energy - 1)) * 512 / inject_Z sr)%Q
    /\ energy_levels p = Some energy
    /\ energy <> []
    /\ PersonalizationEngine.energy_level params = np_mean energy.
Proof.
  intros Hsr Hcreate.
  destruct (create_voice_profile_cases lib sr now st uid uname audio_path
              _ st' Hcreate)
    as [[Hnone _]|(p0 & patterns & audio & sr' & _ & Hrun & [= <-] & _ & _
                   & _ & _ & Hwpm & Hpause & Hmp & _ & Henergy & _ & _
                   & ->)]; [discriminate|].
  destruct (extract_all_features_inversion lib sr audio patterns Hrun)
    as (energy & f0 & voiced_flag & pauses & wpm & _ & _ & _ & Hpauses
        & _ & ->).
  cbn [sp_energy_levels sp_speaking_rate_wpm sp_average_pause_duration
       sp_mean_pitch] in Hwpm, Hpause, Henergy, Hmp.
  assert (Hframes : energy <> []).
  { intros ->. discriminate Hpauses. }
  destruct (pause_sum_bounded sr audio energy 25 pauses Hsr Hpauses)
    as [_ [Hsum0 Hsum]].
  unfold PersonalizationEngine.get_synthesis_parameters.
  cbn [voice_profiles]. rewrite lookup_insert_eq.
  cbn [PersonalizationEngine.pause_duration]. rewrite Hpause.
  eexists _, _, energy. split; [reflexivity|].
  cbn [PersonalizationEngine.pitch_adjust
       PersonalizationEngine.speaking_rate_adjust
       PersonalizationEngine.pause_duration
       PersonalizationEngine.energy_level].
  rewrite Hmp, Hwpm, Henergy.
  cbn [PersonalizationEngine._normalize_pitch_for_synthesis
       PersonalizationEngine._normalize_speed_for_synthesis].
  split; [apply np_clip_Q|]. split; [apply np_clip_Q|].
  split; [reflexivity|]. split; [reflexivity|]. split.
  { destruct pauses as [|d pauses].
    - change (of_Z 0) with 0%Q. split; [discriminate|].
      apply last_frame_nonneg. exact Hsr.
    - destruct (np_mean_le_sum d pauses Hsum0) as [Hlo Hhi].
      split; [exact Hlo|lra]. }
  split; [reflexivity|]. split; [exact Hframes|].
  destruct energy; [contradiction|reflexivity].
Qed.

Lemma created_profile_parameters_in_range_witness :
  exists (p : VoiceProfile Q) (st' : State Q)
         (params : PersonalizationEngine.SynthesisParameters) (pause : Q),
    PersonalizationEngine.create_voice_profile example_lib 22050
      example_clock example_state "user2" "User 2" "voice.mp3"
    = Ok (Some p, st')
    /\ PersonalizationEngine.get_synthesis_parameters st' "user2"
       = Ok (Some params)
    /\ (1 # 2 <= PersonalizationEngine.pitch_adjust params <= 2)%Q
    /\ PersonalizationEngine.pause_duration params = Some pause
    /\ (0 <= pause)%Q.
Proof.
  assert (E : exists (p : VoiceProfile Q) (st' : State Q),
             PersonalizationEngine.create_voice_profile example_lib 22050
               example_clock example_state "user2" "User 2" "voice.mp3"
             = Ok (Some p, st')).
  { eexists _, _. vm_compute. reflexivity. }
  destruct E as (p & st' & E).
  destruct (created_profile_parameters_in_range example_lib 22050
              example_clock example_state "user2" "User 2" "voice.mp3" p st'
              ltac:(lia) E)
    as (params & pause & energy & Hparams & Hpitch & _ & _ & Hpause
        & [Hnonneg _] & _).
  exists p, st', params, pause.
  split; [exact E|]. split; [exact Hparams|]. split; [exact Hpitch|].
  split; [exact Hpause|exact Hnonneg].
Defined.

(** ** A floor under the confidence *)

Lemma existsb_map_filter {A : Type} (h : A -> bool) (l : list A) :
  existsb (fun b => b) (map h l) = false <-> List.filter h l = [].
Proof.
  induction l as [|x l IH]; [cbn; tauto|].
  cbn [map existsb List.filter]. destruct (h x); cbn [orb].
  - split; discriminate.
  - exact IH.
Qed.

Lemma no_rule_no_outcome (R : Type) (N : PyNum R)
    (mean_pitch pitch_range speaking_rate avg_energy : R) :
  existsb (fun b => b)
          (outcome {| f_mean_pitch := mean_pitch;
                      f_pitch_range := pitch_range;
                      f_speaking_rate_wpm := speaking_rate;
                      f_avg_energy := avg_energy |}) = false
  <-> rules_triggered (PersonalizationEngine.emotion_rules
                         mean_pitch pitch_range speaking_rate avg_energy)
      = [].
Proof.
  destruct (emotion_rules_rows R N mean_pitch pitch_range speaking_rate
              avg_energy) as ([_ ->] & _).
  unfold outcome. rewrite existsb_map_filter. split.
  - intros ->. reflexivity.
  - apply map_eq_nil.
Qed.

Lemma floor_ok_spec {R : Type} `{PyNum R} (bs : list bool) :
  floor_ok bs = true ->
  let c := round2 (PersonalizationEngine.raw_confidence (scores_of bs)) in
  (existsb (fun b => b) bs = false ->
     PersonalizationEngine.py_max_key (scores_of bs) = happy
     /\ (c =? of_Z 0)%py = true)
  /\ (existsb (fun b => b) bs = true -> (lit 2 10 <=? c)%py = true).
Proof.
  unfold floor_ok. cbv zeta. intro Hok.
  destruct (existsb (fun b => b) bs).
  - split; [discriminate|]. intros _. exact Hok.
  - split; [|discriminate]. intros _.
    apply andb_true_iff in Hok as [Hdom Hzero]. split; [|exact Hzero].
    destruct (PersonalizationEngine.py_max_key (scores_of bs));
      [reflexivity|discriminate..].
Qed.

Lemma floor_ok_all :
  forallb (floor_ok (R := float)) (bool_vectors 10) = true.
Proof. vm_compute. reflexivity. Qed.

(** X16: for every binary64 input, when no rule is triggered the
    dominant emotion is happy, the first label, with confidence 0; when
    at least one rule is triggered the confidence is at least 0.2. *)
Theorem confidence_floor
    (mean_pitch pitch_range speaking_rate avg_energy : float) :
  let ep := PersonalizationEngine.emotion_rules
              mean_pitch pitch_range speaking_rate avg_energy in
  (rules_triggered ep = [] ->
     dominant_emotion ep = happy /\ (confidence ep =? of_Z 0)%py = true)
  /\ (rules_triggered ep <> [] ->
      (lit 2 10 <=? confidence ep)%py = true).
Proof.
  intro ep. subst ep.
  pose proof (no_rule_no_outcome float _ mean_pitch pitch_range
                speaking_rate avg_energy) as Hnone.
  destruct (emotion_rules_rows float _ mean_pitch pitch_range
              speaking_rate avg_energy) as (_ & -> & -> & _).
  rewrite scores_of_outcome.
  set (f := {| f_mean_pitch := mean_pitch; f_pitch_range := pitch_range;
               f_speaking_rate_wpm := speaking_rate;
               f_avg_energy := avg_energy |}) in *.
  destruct (floor_ok_spec (outcome f)
              (for_all_outcomes floor_ok floor_ok_all f)) as [Hquiet Hfloor].
  clearbody f.
  destruct (existsb (fun b => b) (outcome f)) eqn:Hany.
  - split; [|intros _; apply Hfloor; reflexivity].
    intro Hnil. apply Hnone in Hnil. discriminate Hnil.
  - split; [intros _; apply Hquiet; reflexivity|].
    intro Hnil. exfalso. apply Hnil, Hnone. reflexivity.
Qed.

Lemma confidence_floor_witness :
  dominant_emotion (PersonalizationEngine.emotion_rules
                      PrimFloat.nan PrimFloat.nan PrimFloat.nan
                      PrimFloat.nan) = happy
  /\ (lit 2 10
      <=? confidence (PersonalizationEngine.emotion_rules
                        220%float 90%float 170%float 50%float))%py = true.
Proof.
  split.
  - apply (proj1 (confidence_floor PrimFloat.nan PrimFloat.nan PrimFloat.nan
                    PrimFloat.nan)).
    vm_compute. reflexivity.
  - apply (proj2 (confidence_floor 220%float 90%float 170%float 50%float)).
    vm_compute. discriminate.
Defined.

(** ** Synthesis parameters after a reload *)

(** X17: when the parameters of a stored profile can be computed, saving
    the profile as JSON and loading the file gives a profile, stored under
    the profile's own user id, whose parameters have the same pitch
    adjustment, rate adjustment and pause duration; but its energy level
    is the default 0.5, whatever the energy levels of the saved profile
    were, since they are not written to the file. *)
Theorem parameters_after_reload (R : Type) (N : PyNum R)
    (now : nat -> string) (st : State R) (uid output_dir : string)
    (p : VoiceProfile R)
    (params : PersonalizationEngine.SynthesisParameters) :
  voice_profiles st !! uid = Some p ->
  PersonalizationEngine.get_synthesis_parameters st uid = Ok (Some params) ->
  exists (path : string) (st1 : State R) (p' : VoiceProfile R)
         (st2 : State R)
         (params' : PersonalizationEngine.SynthesisParameters),
    PersonalizationEngine.save_profile st uid output_dir "json"
    = (Some path, st1)
    /\ PersonalizationEngine.load_profile now st1 path = (Some p', st2)
    /\ PersonalizationEngine.get_synthesis_parameters st2 (user_id p)
       = Ok (Some params')
    /\ PersonalizationEngine.pitch_adjust params'
       = PersonalizationEngine.pitch_adjust params
    /\ PersonalizationEngine.speaking_rate_adjust params'
       = PersonalizationEngine.speaking_rate_adjust params
    /\ PersonalizationEngine.pause_duration params'
       = PersonalizationEngine.pause_duration params
    /\ PersonalizationEngine.energy_level params' = lit 5 10.
Proof.
  intros Hp Hparams.
  destruct (save_load_json now st uid output_dir p Hp) as [Hsave Hload].
  cbv zeta in Hsave, Hload.
  unfold PersonalizationEngine.get_synthesis_parameters in Hparams.
  rewrite Hp in Hparams.
  cbn [PersonalizationEngine.pause_duration] in Hparams.
  destruct (average_pause_duration p) as [pause|] eqn:Hpause;
    [|discriminate].
  apply Ok_inj in Hparams. injection Hparams as <-.
  eexists _, _, _, _, _.
  split; [exact Hsave|]. split; [exact Hload|].
  unfold PersonalizationEngine.get_synthesis_parameters.
  cbn [voice_profiles]. rewrite lookup_insert_eq.
  cbn [PersonalizationEngine.pause_duration average_pause_duration].
  split; [reflexivity|].
  cbn [PersonalizationEngine.pitch_adjust
       PersonalizationEngine.speaking_rate_adjust
       PersonalizationEngine.pause_duration
       PersonalizationEngine.energy_level
       mean_pitch speaking_rate_wpm average_pause_duration energy_levels].
  rewrite ?Hpause. repeat split.
Qed.

Lemma parameters_after_reload_witness :
  exists (params params' : PersonalizationEngine.SynthesisParameters)
         (path : string) (st1 : State Q) (p' : VoiceProfile Q)
         (st2 : State Q),
    PersonalizationEngine.get_synthesis_parameters example_state "user1"
    = Ok (Some params)
    /\ PersonalizationEngine.save_profile example_state "user1" "profiles"
         "json" = (Some path, st1)
    /\ PersonalizationEngine.load_profile example_clock st1 path
       = (Some p', st2)
    /\ PersonalizationEngine.get_synthesis_parameters st2 "user1"
       = Ok (Some params')
    /\ PersonalizationEngine.pitch_adjust params'
       = PersonalizationEngine.pitch_adjust params
    /\ PersonalizationEngine.energy_level params' = lit 5 10.
Proof.
  eexists.
  match goal with
  | |- exists a b c d e, ?A /\ _ =>
      assert (E : A) by (vm_compute; reflexivity)
  end.
  destruct (parameters_after_reload Q _ example_clock example_state "user1"
              "profiles" example_profile _ eq_refl E)
    as (path & st1 & p' & st2 & params' & Hsave & Hload & Hparams & Hpitch
        & _ & _ & Henergy).
  exists params', path, st1, p', st2.
  split; [exact E|]. split; [exact Hsave|]. split; [exact Hload|].
  split; [exact Hparams|]. split; [exact Hpitch|exact Henergy].
Defined.

(** * Properties of the preprocessor *)

(** ** Peak normalisation *)

Lemma np_abs_Q (x : Q) :
  (0 <= np_abs x)%Q /\ ((np_abs x == x)%Q \/ (np_abs x == - x)%Q).
Proof.
  unfold np_abs. cbn [nltb nsub of_Z Q_num]. change (inject_Z 0) with 0%Q.
  destruct (Qltb x 0) eqn:Hneg.
  - apply Qltb_lt in Hneg. split; [lra|]. right. ring.
  - apply Qltb_ge in Hneg. split; [exact Hneg|]. left. reflexivity.
Qed.

Lemma max_step_Q (a b : Q) :
  (a <= max_step a b)%Q /\ (b <= max_step a b)%Q
  /\ (max_step a b = a \/ max_step a b = b).
Proof.
  unfold max_step, np_maximum. cbn [neqb nltb Q_num].
  rewrite !Qeq_bool_refl. cbn [negb].
  destruct (Qltb a b) eqn:Hlt.
  - apply Qltb_lt in Hlt. repeat split; [lra|lra|right; reflexivity].
  - apply Qltb_ge in Hlt. repeat split; [lra|lra|left; reflexivity].
Qed.

(** The running maximum is one of the numbers and bounds them all. *)
Lemma fold_max_step_Q (rest : list Q) :
  forall x : Q,
    let m := fold_left max_step rest x in
    (x <= m)%Q /\ (forall y : Q, In y rest -> (y <= m)%Q) /\ In m (x :: rest).
Proof.
  induction rest as [|z rest IH]; intro x; cbn [fold_left].
  - split; [lra|]. split; [intros y []|left; reflexivity].
  - destruct (IH (max_step x z)) as (Hx & Hall & Hin).
    destruct (max_step_Q x z) as (Hxa & Hza & Hmax).
    cbv zeta in Hx, Hall, Hin.
    set (m := fold_left max_step rest (max_step x z)) in *. clearbody m.
    split; [lra|]. split.
    + intros y [<-|Hy]; [lra|apply Hall; exact Hy].
    + destruct Hin as [<-|Hin]; [|right; right; exact Hin].
      destruct Hmax as [->| ->]; [left|right; left]; reflexivity.
Qed.

(** [normalize_audio] on a non-empty array, in exact arithmetic: the
    peak is the greatest magnitude; a zero peak leaves the audio as it is,
    any other divides every sample by it. *)
Lemma normalize_audio_peak (audio : list Q) :
  audio <> [] ->
  exists peak : Q,
    np_max (map np_abs audio) = Ok peak
    /\ (forall x : Q, In x audio -> (- peak <= x <= peak)%Q)
    /\ (exists x : Q, In x audio /\ ((x == peak)%Q \/ (x == - peak)%Q))
    /\ AudioPreprocessor.normalize_audio audio
       = Ok (if Qeq_bool peak 0 then audio
             else map (fun x => (x / peak)%Q) audio).
Proof.
  destruct audio as [|x rest]; [contradiction|]. intros _.
  unfold AudioPreprocessor.normalize_audio. cbn [map np_max bind].
  destruct (fold_max_step_Q (map np_abs rest) (np_abs x))
    as (Hx & Hall & Hin).
  cbv zeta in Hx, Hall, Hin.
  set (peak := fold_left max_step (map np_abs rest) (np_abs x)) in *.
  clearbody peak. exists peak.
  assert (Hbound : forall y : Q, In y (x :: rest) ->
                                 (np_abs y <= peak)%Q).
  { intros y [<-|Hy]; [exact Hx|]. apply Hall, in_map. exact Hy. }
  split; [reflexivity|]. split; [|split].
  - intros y Hy. specialize (Hbound y Hy).
    destruct (np_abs_Q y) as [Hpos [Habs|Habs]]; lra.
  - change (np_abs x :: map np_abs rest) with (map np_abs (x :: rest)) in Hin.
    apply in_map_iff in Hin as (y & Habs & Hy). exists y.
    split; [exact Hy|].
    destruct (np_abs_Q y) as [_ [Hy'|Hy']]; rewrite Habs in Hy';
      [left|right]; lra.
  - cbn [neqb of_Z Q_num]. change (inject_Z 0) with 0%Q.
    destruct (Qeq_bool peak 0); reflexivity.
Qed.

Lemma div_by_peak (x peak : Q) :
  (0 < peak)%Q -> (- peak <= x <= peak)%Q -> (- 1 <= x / peak <= 1)%Q.
Proof.
  intros Hpeak [Hlo Hhi].
  assert (Hinv : (0 < / peak)%Q) by (apply Qinv_lt_0_compat; exact Hpeak).
  assert (Hone : (peak * / peak == 1)%Q) by (apply Qmult_inv_r; lra).
  unfold Qdiv. split.
  - assert (H : ((- peak) * / peak <= x * / peak)%Q)
      by (apply Qmult_le_compat_r; lra).
    assert (E : ((- peak) * / peak == - (peak * / peak))%Q) by ring.
    rewrite E, Hone in H. exact H.
  - assert (H : (x * / peak <= peak * / peak)%Q)
      by (apply Qmult_le_compat_r; lra).
    rewrite Hone in H. exact H.
Qed.

(** The samples after normalisation, in exact arithmetic. *)
Lemma normalize_audio_range (audio out : list Q) :
  AudioPreprocessor.normalize_audio audio = Ok out ->
  forall y : Q, In y out -> (- 1 <= y <= 1)%Q.
Proof.
  intro Hrun.
  assert (Hne : audio <> []) by (intros ->; discriminate Hrun).
  destruct (normalize_audio_peak audio Hne) as (peak & _ & Hbound & _ & Hout).
  rewrite Hout in Hrun. injection Hrun as <-.
  intros y Hy. destruct (Qeq_bool peak 0) eqn:Hzero.
  - apply Qeq_bool_eq in Hzero. specialize (Hbound y Hy). lra.
  - apply Qeq_bool_neq in Hzero.
    apply in_map_iff in Hy as (x & <- & Hx). specialize (Hbound x Hx).
    apply div_by_peak; [lra|exact Hbound].
Qed.

(** X18: normalize_audio raises ValueError on an empty array and keeps
    the number of samples otherwise.  In exact arithmetic, on a non-empty
    array every returned sample lies between -1 and 1; silent audio (all
    samples 0) is returned as it is; and when some sample is not 0, some
    returned sample is exactly 1 or -1. *)
Theorem normalize_audio_spec :
  (forall (R : Type) (N : PyNum R),
      AudioPreprocessor.normalize_audio (R := R) [] = Raised "ValueError")
  /\ (forall (R : Type) (N : PyNum R) (audio out : list R),
        AudioPreprocessor.normalize_audio audio = Ok out ->
        audio <> [] /\ length out = length audio)
  /\ (forall audio : list Q,
        audio <> [] ->
        exists out : list Q,
          AudioPreprocessor.normalize_audio audio = Ok out
          /\ (forall y : Q, In y out -> (- 1 <= y <= 1)%Q)
          /\ ((forall x : Q, In x audio -> (x == 0)%Q) -> out = audio)
          /\ ((exists x : Q, In x audio /\ ~ (x == 0)%Q) ->
              exists y : Q, In y out /\ ((y == 1)%Q \/ (y == - 1)%Q))).
Proof.
  split; [|split].
  - intros R N. reflexivity.
  - intros R N audio out.
    unfold AudioPreprocessor.normalize_audio.
    destruct audio as [|x rest]; [discriminate|].
    cbn [map np_max bind].
    destruct (_ =? of_Z 0)%py; intros [= <-];
      (split; [discriminate|]); [reflexivity|].
    cbn [length]. rewrite length_map. reflexivity.
  - intros audio Hne.
    destruct (normalize_audio_peak audio Hne)
      as (peak & _ & Hbound & (x0 & Hx0 & Hpeak) & Hout).
    eexists. split; [exact Hout|].
    split; [apply (normalize_audio_range audio); exact Hout|].
    destruct (Qeq_bool peak 0) eqn:Hzero.
    + apply Qeq_bool_eq in Hzero. split; [reflexivity|].
      intros (x & Hx & Hnz). exfalso. apply Hnz.
      specialize (Hbound x Hx). lra.
    + apply Qeq_bool_neq in Hzero. split.
      * intro Hsilent. exfalso. apply Hzero.
        specialize (Hsilent x0 Hx0). destruct Hpeak; lra.
      * intros _. exists (x0 / peak)%Q.
        split; [apply (in_map (fun x => (x / peak)%Q)); exact Hx0|].
        destruct Hpeak as [Hp|Hp]; [left|right]; rewrite Hp; field;
          exact Hzero.
Qed.

Lemma normalize_audio_spec_witness :
  exists out : list Q,
    AudioPreprocessor.normalize_audio [1 # 4; -1 # 2; 0]%Q = Ok out
    /\ (forall y : Q, In y out -> (- 1 <= y <= 1)%Q)
    /\ exists y : Q, In y out /\ ((y == 1)%Q \/ (y == - 1)%Q).
Proof.
  destruct (proj2 (proj2 normalize_audio_spec) [1 # 4; -1 # 2; 0]%Q
              ltac:(discriminate))
    as (out & Hrun & Hrange & _ & Hpeak).
  exists out. split; [exact Hrun|]. split; [exact Hrange|].
  apply Hpeak. exists (1 # 4)%Q. split; [left; reflexivity|discriminate].
Defined.

(** ** The preprocessing pipeline *)

Section Pipeline.
Context {R : Type} {N : PyNum R}.
Variable libs : AudioLibs R.
Variable sr : Z.

(** What a run of [preprocess] that returns has done. *)
Lemma preprocess_inversion (audio_path : string)
    (output_path : option string) (audio : list R) (sr' : Z) :
  AudioPreprocessor.preprocess libs sr audio_path output_path
  = Ok (audio, sr') ->
  exists (raw trimmed spectrum : list R),
    librosa_load libs audio_path sr = Ok (raw, sr')
    /\ sr' <> 0
    /\ effects_trim libs raw 20 = Ok trimmed
    /\ trimmed <> []
    /\ AudioPreprocessor.normalize_audio trimmed = Ok audio
    /\ fft_magnitude libs (slice_to audio (Z.quot sr 2)) = Ok spectrum
    /\ match output_path with
       | Some (String c path) =>
           sf_write libs (String c path) audio sr' = Ok tt
       | _ => True
       end.
Proof.
  unfold AudioPreprocessor.preprocess, AudioPreprocessor.load_audio,
    AudioPreprocessor.remove_silence, AudioPreprocessor.reduce_noise_simple.
  destruct (librosa_load libs audio_path sr) as [[raw rate]|exn] eqn:Hraw;
    cbn [bind]; [|discriminate].
  destruct (Z.eqb_spec rate 0) as [->|Hrate]; cbn [bind]; [discriminate|].
  destruct (effects_trim libs raw 20) as [trimmed|exn] eqn:Htrimmed;
    cbn [bind]; [|discriminate].
  destruct (AudioPreprocessor.normalize_audio trimmed) as [normalized|exn]
    eqn:Hnorm; cbn [bind]; [|discriminate].
  destruct (fft_magnitude libs (slice_to normalized (Z.quot sr 2)))
    as [spectrum|exn] eqn:Hfft; cbn [bind]; [|discriminate].
  assert (Hne : trimmed <> []) by (intros ->; discriminate Hnorm).
  destruct output_path as [[|c path]|].
  - cbn [bind]. intros [= <- <-]. exists raw, trimmed, spectrum.
    repeat split; try assumption; reflexivity.
  - destruct (sf_write libs (String c path) normalized rate) as [[]|exn]
      eqn:Hwrite; cbn [bind]; [|discriminate].
    intros [= <- <-]. exists raw, trimmed, spectrum.
    repeat split; try assumption; reflexivity.
  - cbn [bind]. intros [= <- <-]. exists raw, trimmed, spectrum.
    repeat split; try assumption; reflexivity.
Qed.

(** The first three ways in which [preprocess] fails. *)
Lemma preprocess_errors (audio_path : string)
    (output_path : option string) :
  (forall exn : string,
      librosa_load libs audio_path sr = Raised exn ->
      AudioPreprocessor.preprocess libs sr audio_path output_path
      = Raised exn)
  /\ (forall raw : list R,
        librosa_load libs audio_path sr = Ok (raw, 0) ->
        AudioPreprocessor.preprocess libs sr audio_path output_path
        = Raised "ZeroDivisionError")
  /\ (forall (raw : list R) (sr' : Z),
        librosa_load libs audio_path sr = Ok (raw, sr') ->
        sr' <> 0 ->
        (forall exn : string,
            effects_trim libs raw 20 = Raised exn ->
            AudioPreprocessor.preprocess libs sr audio_path output_path
            = Raised exn)
        /\ (effects_trim libs raw 20 = Ok [] ->
            AudioPreprocessor.preprocess libs sr audio_path output_path
            = Raised "ValueError")).
Proof.
  unfold AudioPreprocessor.preprocess, AudioPreprocessor.load_audio,
    AudioPreprocessor.remove_silence.
  split; [|split].
  - intros exn ->. reflexivity.
  - intros raw ->. reflexivity.
  - intros raw sr' -> Hrate. apply Z.eqb_neq in Hrate. cbn [bind].
    rewrite Hrate. cbn [bind]. split.
    + intros exn ->. reflexivity.
    + intros ->. reflexivity.
Qed.
End Pipeline.

(** X19: preprocess loads, trims, normalises, analyses the noise and
    saves, in that order.  An error of the loader is raised as it is; a
    returned sample rate of 0 raises ZeroDivisionError; an error of the
    trimming is raised as it is; and audio trimmed down to nothing raises
    ValueError.  When preprocess returns, the rate is the loader's and is
    not 0, the audio is the normalised trimmed audio with as many samples
    as the trimmed audio, untouched by the noise reduction, and it has
    been written to the output path when one was given and is not
    empty. *)
Theorem preprocess_outcome (R : Type) (N : PyNum R) (libs : AudioLibs R)
    (sr : Z) (audio_path : string) (output_path : option string) :
  (forall exn : string,
      librosa_load libs audio_path sr = Raised exn ->
      AudioPreprocessor.preprocess libs sr audio_path output_path
      = Raised exn)
  /\ (forall raw : list R,
        librosa_load libs audio_path sr = Ok (raw, 0) ->
        AudioPreprocessor.preprocess libs sr audio_path output_path
        = Raised "ZeroDivisionError")
  /\ (forall (raw : list R) (sr' : Z),
        librosa_load libs audio_path sr = Ok (raw, sr') ->
        sr' <> 0 ->
        (forall exn : string,
            effects_trim libs raw 20 = Raised exn ->
            AudioPreprocessor.preprocess libs sr audio_path output_path
            = Raised exn)
        /\ (effects_trim libs raw 20 = Ok [] ->
            AudioPreprocessor.preprocess libs sr audio_path output_path
            = Raised "ValueError"))
  /\ (forall (audio : list R) (sr' : Z),
        AudioPreprocessor.preprocess libs sr audio_path output_path
        = Ok (audio, sr') ->
        exists raw trimmed : list R,
          librosa_load libs audio_path sr = Ok (raw, sr')
          /\ sr' <> 0
          /\ effects_trim libs raw 20 = Ok trimmed
          /\ trimmed <> []
          /\ AudioPreprocessor.normalize_audio trimmed = Ok audio
          /\ length audio = length trimmed
          /\ match output_path with
             | Some (String c path) =>
                 sf_write libs (String c path) audio sr' = Ok tt
             | _ => True
             end).
Proof.
  destruct (preprocess_errors libs sr audio_path output_path)
    as (Hload & Hrate & Htrim).
  split; [exact Hload|]. split; [exact Hrate|]. split; [exact Htrim|].
  intros audio sr' Hrun.
  destruct (preprocess_inversion libs sr audio_path output_path audio sr'
              Hrun)
    as (raw & trimmed & spectrum & Hraw & Hsr & Htrimmed & Hne & Hnorm & _
        & Hwrite).
  exists raw, trimmed. repeat (split; [assumption|]).
  split; [|exact Hwrite].
  unfold AudioPreprocessor.normalize_audio in Hnorm.
  destruct trimmed as [|x rest]; [contradiction|].
  cbn [map np_max bind] in Hnorm.
  destruct (_ =? of_Z 0)%py in Hnorm; injection Hnorm as <-;
    [reflexivity|].
  cbn [length]. rewrite length_map. reflexivity.
Qed.

Lemma preprocess_outcome_witness :
  exists (audio trimmed : list Q),
    AudioPreprocessor.preprocess example_audio_libs 22050 "voice.mp3"
      (Some "clean.wav"%string) = Ok (audio, 22050)
    /\ AudioPreprocessor.normalize_audio trimmed = Ok audio
    /\ length audio = length trimmed
    /\ sf_write example_audio_libs "clean.wav" audio 22050 = Ok tt.
Proof.
  eexists.
  match goal with
  | |- exists t, ?A /\ _ => assert (E : A) by (vm_compute; reflexivity)
  end.
  destruct (proj2 (proj2 (proj2 (preprocess_outcome Q _ example_audio_libs
                                   22050 "voice.mp3"
                                   (Some "clean.wav"%string)))) _ _ E)
    as (raw & trimmed & _ & _ & _ & _ & Hnorm & Hlen & Hwrite).
  exists trimmed. split; [exact E|]. split; [exact Hnorm|].
  split; [exact Hlen|exact Hwrite].
Defined.

(** X20: the engine preprocesses with an AudioPreprocessor at its own
    sample rate and no output path.  So create_voice_profile raises the
    loader's error for a file that cannot be loaded, and raises
    ValueError, instead of returning None, for a recording that is
    trimmed down to nothing; and whenever it returns, with a profile or
    with None, the loader and the trimming have succeeded, the trimmed
    audio was not empty, and the features were asked of its normalised
    samples at the engine's rate. *)
Theorem create_voice_profile_pipeline (R : Type) (N : PyNum R)
    (libs : AudioLibs R) (dsp : Collaborators R) (sr : Z)
    (now : nat -> string) (st : State R) (uid uname audio_path : string) :
  let lib := engine_collaborators libs sr dsp in
  (forall exn : string,
      librosa_load libs audio_path sr = Raised exn ->
      PersonalizationEngine.create_voice_profile lib sr now st uid uname
        audio_path = Raised exn)
  /\ (forall (raw : list R) (sr' : Z),
        librosa_load libs audio_path sr = Ok (raw, sr') ->
        sr' <> 0 ->
        effects_trim libs raw 20 = Ok [] ->
        PersonalizationEngine.create_voice_profile lib sr now st uid uname
          audio_path = Raised "ValueError")
  /\ (forall (r : option (VoiceProfile R)) (st' : State R),
        PersonalizationEngine.create_voice_profile lib sr now st uid uname
          audio_path = Ok (r, st') ->
        exists (raw trimmed audio : list R) (sr' : Z)
               (features : option (SpeakingPatterns R)),
          librosa_load libs audio_path sr = Ok (raw, sr')
          /\ effects_trim libs raw 20 = Ok trimmed
          /\ trimmed <> []
          /\ AudioPreprocessor.normalize_audio trimmed = Ok audio
          /\ FeatureExtractor.extract_all_features dsp sr audio
             = Ok features
          /\ (r = None <-> features = None)).
Proof.
  intro lib. subst lib.
  destruct (preprocess_errors libs sr audio_path None)
    as (Hload & _ & Htrim).
  unfold PersonalizationEngine.create_voice_profile.
  cbn [preprocess engine_collaborators].
  split; [|split].
  - intros exn Hexn. rewrite (Hload exn Hexn). reflexivity.
  - intros raw sr' Hraw Hrate Hnothing.
    rewrite (proj2 (Htrim raw sr' Hraw Hrate) Hnothing). reflexivity.
  - intros r st'.
    destruct (AudioPreprocessor.preprocess libs sr audio_path None)
      as [[audio sr']|exn] eqn:Hrun; cbn [bind]; [|discriminate].
    destruct (preprocess_inversion libs sr audio_path None audio sr' Hrun)
      as (raw & trimmed & spectrum & Hraw & _ & Htrimmed & Hne & Hnorm & _).
    change (FeatureExtractor.extract_all_features
              (engine_collaborators libs sr dsp) sr audio)
      with (FeatureExtractor.extract_all_features dsp sr audio).
    destruct (FeatureExtractor.extract_all_features dsp sr audio)
      as [[patterns|]|exn] eqn:Hfeatures; cbn [bind]; [| |discriminate];
      intros [= <- <-]; exists raw, trimmed, audio, sr'; eexists;
      (split; [exact Hraw|]); (split; [exact Htrimmed|]);
      (split; [exact Hne|]); (split; [exact Hnorm|]);
      (split; [exact Hfeatures|]); split; (reflexivity || discriminate).
Qed.

Lemma create_voice_profile_pipeline_witness :
  exists (p : VoiceProfile Q) (st' : State Q) (trimmed audio : list Q)
         (features : option (SpeakingPatterns Q)),
    PersonalizationEngine.create_voice_profile
      (engine_collaborators example_audio_libs 22050 example_lib) 22050
      example_clock example_state "user2" "User 2" "voice.mp3"
    = Ok (Some p, st')
    /\ trimmed <> []
    /\ AudioPreprocessor.normalize_audio trimmed = Ok audio
    /\ FeatureExtractor.extract_all_features example_lib 22050 audio
       = Ok features
    /\ features <> None.
Proof.
  eexists _, _.
  match goal with
  | |- exists a b c, ?A /\ _ => assert (E : A) by (vm_compute; reflexivity)
  end.
  destruct (proj2 (proj2 (create_voice_profile_pipeline Q _
                            example_audio_libs example_lib 22050
                            example_clock example_state "user2" "User 2"
                            "voice.mp3")) _ _ E)
    as (raw & trimmed & audio & sr' & features & _ & _ & Hne & Hnorm
        & Hfeatures & Hnone).
  exists trimmed, audio, features.
  split; [exact E|]. split; [exact Hne|]. split; [exact Hnorm|].
  split; [exact Hfeatures|].
  intro Hf. apply Hnone in Hf. discriminate Hf.
Defined.
